(** * prepare_data.py: dataset preparation for COLMAP / 3D Gaussian Splatting

    A shallow embedding of [src/prepare_data.py] and the proofs of the
    properties its specification states about it.

    The script is a sequence of filesystem operations, one shuffle and a
    few subprocess calls.  The embedding follows that shape:

    - [Float64]  Python floats (IEEE 754 binary64) on top of the
                 executable [SpecFloat] operations of the standard library;
                 [int(total * ratio)] is computed exactly as CPython does.
    - [PyStr]    the handful of [str] and [pathlib] string operations used.
    - [PyList]   slices with Python's index normalisation.
    - [Runtime]  what the script does not define itself: the pseudo-random
                 generator behind [random], the external programs behind
                 [subprocess.run] and the encoding of text files.
    - [Script]   the functions of the script, in a state-and-exception
                 monad over a [World] (filesystem, generator, event log).

    The filesystem is one of directories and regular files, each under
    one name: there are no symbolic links and no hard links.  Paths are
    relative to one directory, their components are file names (not
    empty, without separator or NUL, not [..]), and the two paths of the
    command line are taken as [pathlib] prints them.  Standard output
    takes every line printed.
*)

From stdpp Require Import gmap strings list fin_maps pretty.
From Stdlib Require Import ZArith Strings.Ascii Floats.SpecFloat.

Local Open Scope Z_scope.

(* ===================================================================== *)
(** * Python floats                                                       *)
(* ===================================================================== *)

Module Float64.

Definition prec : Z := 53.
Definition emax : Z := 1024.

(** [float(n)] for a Python [int]: correctly rounded, ties to even. *)
Definition of_int (n : Z) : spec_float := binary_normalize prec emax n 0 false.

(** [x * y] on floats. *)
Definition mul (x y : spec_float) : spec_float := SFmul prec emax x y.

Definition is_finite (x : spec_float) : bool :=
  match x with
  | S754_zero _ | S754_finite _ _ _ => true
  | S754_infinity _ | S754_nan => false
  end.

Definition is_inf (x : spec_float) : bool :=
  match x with S754_infinity _ => true | _ => false end.

(** The magnitude [m * 2^e] cut to an integer, towards zero. *)
Definition magnitude_trunc (m : positive) (e : Z) : Z :=
  if 0 <=? e then Zpos m * 2 ^ e else Zpos m / 2 ^ (- e).

(** [int(x)]: truncation towards zero; [None] on infinities and NaN,
    where CPython raises. *)
Definition trunc (x : spec_float) : option Z :=
  match x with
  | S754_zero _ => Some 0
  | S754_finite s m e => Some (cond_Zopp s (magnitude_trunc m e))
  | S754_infinity _ | S754_nan => None
  end.

(** [math.floor(x)]: the largest integer not above [x]. *)
Definition floor (x : spec_float) : option Z :=
  match x with
  | S754_zero _ => Some 0
  | S754_finite s m e =>
      Some (if 0 <=? e then cond_Zopp s (Zpos m) * 2 ^ e
            else cond_Zopp s (Zpos m) / 2 ^ (- e))
  | S754_infinity _ | S754_nan => None
  end.

(** The value of a finite float times [2^1074], an integer for every
    binary64 number; used to compare floats exactly. *)
Definition scaled (x : spec_float) : Z :=
  match x with
  | S754_finite s m e => cond_Zopp s (Zpos m * 2 ^ (e + 1074))
  | _ => 0
  end.

(** A well-formed binary64 number that is neither infinite nor NaN. *)
Definition is_number (x : spec_float) : bool :=
  is_finite x && valid_binary prec emax x.

(** A ratio: a number between 0 and 1. *)
Definition is_ratio (x : spec_float) : bool :=
  is_number x && (0 <=? scaled x) && (scaled x <=? 2 ^ 1074).

(** The split ratios the specification calls valid: both at least 0,
    and their sum, taken exactly, at most 1. *)
Definition valid_ratios (train_ratio val_ratio : spec_float) : bool :=
  is_number train_ratio && is_number val_ratio &&
  (0 <=? scaled train_ratio) && (0 <=? scaled val_ratio) &&
  (scaled train_ratio + scaled val_ratio <=? 2 ^ 1074).

(** The literals of the script: the binary64 numbers nearest to 0.8 and
    to 0.1 (0x3FE999999999999A and 0x3FB999999999999A). *)
Definition lit_0_8 : spec_float := S754_finite false 7205759403792794 (-53).
Definition lit_0_1 : spec_float := S754_finite false 7205759403792794 (-56).
(** 0.5 and 0.25, exact. *)
Definition lit_0_5 : spec_float := S754_finite false 4503599627370496 (-53).
Definition lit_0_25 : spec_float := S754_finite false 4503599627370496 (-54).
(** The binary64 number nearest to 0.7 (0x3FE6666666666666). *)
Definition lit_0_7 : spec_float := S754_finite false 6305039478318694 (-53).

End Float64.

(* ===================================================================== *)
(** * Python strings and lists                                            *)
(* ===================================================================== *)

Module PyStr.

(** [str.lower] on one character.  Only A..Z change; the three
    recognised extensions consist of letters that no other character
    lower-cases to, so this decides the extension tests exactly. *)
Definition lower_ascii (c : ascii) : ascii :=
  let n := nat_of_ascii c in
  if ((65 <=? n) && (n <=? 90))%nat then ascii_of_nat (n + 32) else c.

Fixpoint lower (s : string) : string :=
  match s with
  | EmptyString => EmptyString
  | String c s' => String (lower_ascii c) (lower s')
  end.

(** [s.endswith(suffix)] *)
Definition endswith (s suffix : string) : bool :=
  let n := String.length s in
  let k := String.length suffix in
  (k <=? n)%nat && String.eqb (String.substring (n - k) k s) suffix.

(** [s.endswith(tuple)] *)
Definition endswith_any (s : string) (suffixes : list string) : bool :=
  existsb (endswith s) suffixes.

(** [s.rfind(c)]: the index of the last occurrence, or -1. *)
Fixpoint rfind_from (c : ascii) (s : string) (i : nat) : option nat :=
  match s with
  | EmptyString => None
  | String a s' =>
      match rfind_from c s' (S i) with
      | Some j => Some j
      | None => if Ascii.eqb a c then Some i else None
      end
  end.

Definition rfind (c : ascii) (s : string) : Z :=
  match rfind_from c s 0 with
  | Some j => Z.of_nat j
  | None => -1
  end.

(** [PurePath.suffix] of a file name: the part from the last dot on,
    unless that dot opens or closes the name. *)
Definition suffix (name : string) : string :=
  let i := rfind "." name in
  if (0 <? i) && (i <? Z.of_nat (String.length name) - 1)
  then String.substring (Z.to_nat i) (String.length name - Z.to_nat i) name
  else EmptyString.

(** The one-character string ['\n']. *)
Definition newline : string := String (ascii_of_nat 10) EmptyString.

(** [sep.join(items)] *)
Fixpoint join (sep : string) (items : list string) : string :=
  match items with
  | [] => EmptyString
  | [x] => x
  | x :: rest => x +:+ sep +:+ join sep rest
  end.

(** Every character of [s] passes the test [ok]. *)
Fixpoint all_chars (ok : ascii -> bool) (s : string) : bool :=
  match s with
  | EmptyString => true
  | String c s' => ok c && all_chars ok s'
  end.

(** [os.path.join(a, b)] of [posixpath]: an absolute [b] replaces [a], and
    no separator is added to an empty [a] or to one that ends in a
    separator. *)
Definition os_path_join (a b : string) : string :=
  if String.prefix "/" b then b
  else if (String.length a =? 0)%nat || endswith a "/" then a +:+ b
  else a +:+ "/" +:+ b.

End PyStr.

Module PyList.

(** How a slice bound is brought into [0 .. len]. *)
Definition clamp_index (len i : Z) : Z :=
  if i <? 0 then Z.max 0 (i + len) else Z.min i len.

(** [l[lo:hi]]; [None] is an omitted bound. *)
Definition slice {A} (l : list A) (lo hi : option Z) : list A :=
  let len := Z.of_nat (length l) in
  let start := match lo with None => 0 | Some i => clamp_index len i end in
  let stop := match hi with None => len | Some i => clamp_index len i end in
  take (Z.to_nat (stop - start)) (drop (Z.to_nat start) l).

(** [x[i], x[j] = x[j], x[i]]; [None] where Python raises IndexError. *)
Definition swap {A} (x : list A) (i j : nat) : option (list A) :=
  match x !! j, x !! i with
  | Some xj, Some xi => Some (<[j:=xi]> (<[i:=xj]> x))
  | _, _ => None
  end.

End PyList.

(* ===================================================================== *)
(** * The world the script runs in                                        *)
(* ===================================================================== *)

(** A [pathlib.Path], as its components, innermost first:
    [base_dir / "input"] is ["input" :: base_dir].  The empty path is the
    directory all paths are relative to, [Path('.')]; it always exists. *)
Abbreviation path := (list string).

(** [str(p)]: the components joined by the separator; the empty path
    prints as a dot. *)
Definition path_str (p : path) : string :=
  match p with
  | [] => "."
  | _ => PyStr.join "/" (reverse p)
  end.

Definition path_name (p : path) : string :=
  match p with
  | [] => EmptyString
  | n :: _ => n
  end.

(** What a path can refer to.  [meta] stands for what [copystat] carries
    over (mode bits and time stamps).  Every entry is a directory or a
    regular file of its own: the filesystem has no symbolic links and no
    file under two names. *)
Inductive node :=
  | Dir
  | File (data : string) (meta : Z).

Global Instance node_eq_dec : EqDecision node.
Proof. solve_decision. Defined.

Abbreviation filesystem := (gmap (list string) node).

(** Metadata of a file the script itself creates. *)
Definition fresh_meta : Z := 0.

(** The exceptions of the script.  [OSError errno filename] is an
    [OSError] of another class than those listed by name. *)
Inductive exn :=
  | CalledProcessError (returncode : Z) (cmd : list string)
  | FileNotFoundError (filename : string)
  | FileExistsError (filename : string)
  | NotADirectoryError (filename : string)
  | IsADirectoryError (filename : string)
  | SameFileError (filename : string)
  | PermissionError (filename : string)
  | OSError (errno : Z) (filename : string)
  | UnicodeEncodeError (object : string)
  | ValueError (msg : string)
  | OverflowError (msg : string)
  | IndexError
  | SystemExit (code : Z).

Inductive result (A : Type) :=
  | Ok (a : A)
  | Raise (e : exn).
Arguments Ok {A} a.
Arguments Raise {A} e.

(** How a subprocess ends: with an exit status, or not at all because the
    program could not be started: there is no such program, the program
    is there and may not be executed, or the system refuses it for
    another reason ([errno]). *)
Inductive proc_outcome :=
  | Exited (returncode : Z)
  | NotFound
  | NotPermitted
  | ExecFailed (errno : Z).

(** What the script observably does, in order. *)
Inductive event :=
  | EvPrint (line : string)
  | EvExec (cmd : list string)
  | EvWrite (p : path) (data : string)
  | EvCopy (src dst : path).

Global Instance event_eq_dec : EqDecision event.
Proof. solve_decision. Defined.

(** The collaborators the script does not define: the generator behind
    the [random] module, the programs behind [subprocess.run] and the
    encoding of text files (that of the locale).  A program may depend on
    and change both the filesystem and state of its own ([ext_state]);
    [encodable c] tells whether the encoding has the character [c]. *)
Class Runtime := {
  rng_state : Type;
  rng_seed : Z -> rng_state;
  randbelow : nat -> rng_state -> nat * rng_state;
  ext_state : Type;
  exec : list string -> ext_state -> filesystem -> proc_outcome * ext_state * filesystem;
  encodable : ascii -> bool;
}.

(** [randbelow n] answers below [n], as [Random._randbelow] documents. *)
Definition randbelow_in_range (R : Runtime) : Prop :=
  forall (n : nat) (g : rng_state), (0 < n)%nat -> (fst (randbelow n g) < n)%nat.

Record World {R : Runtime} := {
  w_fs : filesystem;
  w_rng : rng_state;
  w_ext : ext_state;
  w_log : list event;
}.

(** ** Filesystem primitives *)

Module FS.

(** What resolving a path gives: the node it names, or the reason there is
    none.  Every component above the last must be a directory. *)
Inductive resolved :=
  | Found (n : node)
  | Missing
  | Blocked.

Fixpoint stat (fs : filesystem) (p : path) : resolved :=
  match p with
  | [] => Found Dir
  | _ :: parent =>
      match stat fs parent with
      | Found Dir =>
          match fs !! p with
          | Some n => Found n
          | None => Missing
          end
      | Found (File _ _) => Blocked
      | Missing => Missing
      | Blocked => Blocked
      end
  end.

Definition exists_ (fs : filesystem) (p : path) : bool :=
  match stat fs p with
  | Found _ => true
  | _ => false
  end.

Definition is_dir (fs : filesystem) (p : path) : bool :=
  match stat fs p with
  | Found Dir => true
  | _ => false
  end.

Definition is_file (fs : filesystem) (p : path) : bool :=
  match stat fs p with
  | Found (File _ _) => true
  | _ => false
  end.

(** Everything that resolves in [fs] resolves to the same node in [fs']:
    nothing was deleted, replaced or hidden. *)
Definition extends (fs fs' : filesystem) : Prop :=
  forall q nd, stat fs q = Found nd -> stat fs' q = Found nd.

(** The names directly inside [p], in the order the filesystem
    enumerates them. *)
Definition child_name (p : path) (entry : path * node) : option string :=
  match entry.1 with
  | n :: parent => if decide (parent = p) then Some n else None
  | [] => None
  end.

Definition children (fs : filesystem) (p : path) : list string :=
  omap (child_name p) (map_to_list fs).

(** [os.mkdir(p)] *)
Definition os_mkdir (p : path) (fs : filesystem) : result filesystem :=
  match p with
  | [] => Raise (FileExistsError (path_str p))
  | _ :: parent =>
      match stat fs parent with
      | Missing => Raise (FileNotFoundError (path_str p))
      | Blocked | Found (File _ _) => Raise (NotADirectoryError (path_str p))
      | Found Dir =>
          match fs !! p with
          | Some _ => Raise (FileExistsError (path_str p))
          | None => Ok (<[p := Dir]> fs)
          end
      end
  end.

(** [Path.mkdir(parents=False, exist_ok=...)] *)
Definition mkdir_flat (p : path) (exist_ok : bool) (fs : filesystem)
  : result filesystem :=
  match os_mkdir p fs with
  | Ok fs' => Ok fs'
  | Raise (FileNotFoundError f) => Raise (FileNotFoundError f)
  | Raise e => if exist_ok && is_dir fs p then Ok fs else Raise e
  end.

(** [Path.mkdir(parents=True, exist_ok=...)]: on a missing parent, make
    the parent (with [parents=True, exist_ok=True]) and try again. *)
Fixpoint mkdir_parents (p : path) (exist_ok : bool) (fs : filesystem)
  : result filesystem :=
  match os_mkdir p fs with
  | Ok fs' => Ok fs'
  | Raise (FileNotFoundError f) =>
      match p with
      | [] => Raise (FileNotFoundError f)
      | _ :: parent =>
          match mkdir_parents parent true fs with
          | Ok fs1 => mkdir_flat p exist_ok fs1
          | Raise e => Raise e
          end
      end
  | Raise e => if exist_ok && is_dir fs p then Ok fs else Raise e
  end.

Definition path_mkdir (p : path) (parents exist_ok : bool) (fs : filesystem)
  : result filesystem :=
  if parents then mkdir_parents p exist_ok fs else mkdir_flat p exist_ok fs.

(** [os.makedirs(p, exist_ok=...)] *)
Fixpoint makedirs (p : path) (exist_ok : bool) (fs : filesystem)
  : result filesystem :=
  let finish fs1 :=
    match os_mkdir p fs1 with
    | Ok fs' => Ok fs'
    | Raise e => if exist_ok && is_dir fs1 p then Ok fs1 else Raise e
    end in
  match p with
  | [] => finish fs
  | _ :: head =>
      if bool_decide (head <> []) && negb (exists_ fs head) then
        match makedirs head exist_ok fs with
        | Ok fs1 => finish fs1
        | Raise (FileExistsError _) => finish fs
        | Raise e => Raise e
        end
      else finish fs
  end.

(** Opening [p] for writing and writing [data]: ['w'] truncates. *)
Definition write_file (p : path) (data : string) (fs : filesystem)
  : result filesystem :=
  match p with
  | [] => Raise (IsADirectoryError (path_str p))
  | _ :: parent =>
      match stat fs parent with
      | Missing => Raise (FileNotFoundError (path_str p))
      | Blocked | Found (File _ _) => Raise (NotADirectoryError (path_str p))
      | Found Dir =>
          match fs !! p with
          | Some Dir => Raise (IsADirectoryError (path_str p))
          | Some (File _ m) => Ok (<[p := File data m]> fs)
          | None => Ok (<[p := File data fresh_meta]> fs)
          end
      end
  end.

(** [shutil.copy2(src, dst)]: contents and metadata. *)
Definition copy2 (src dst : path) (fs : filesystem) : result filesystem :=
  let dst := if is_dir fs dst then path_name src :: dst else dst in
  if bool_decide (src = dst) && exists_ fs src
  then Raise (SameFileError (path_str src))
  else
    match stat fs src with
    | Missing => Raise (FileNotFoundError (path_str src))
    | Blocked => Raise (NotADirectoryError (path_str src))
    | Found Dir => Raise (IsADirectoryError (path_str src))
    | Found (File data meta) =>
        match dst with
        | [] => Raise (IsADirectoryError (path_str dst))
        | _ :: parent =>
            match stat fs parent with
            | Missing => Raise (FileNotFoundError (path_str dst))
            | Blocked | Found (File _ _) => Raise (NotADirectoryError (path_str dst))
            | Found Dir =>
                match fs !! dst with
                | Some Dir => Raise (IsADirectoryError (path_str dst))
                | _ => Ok (<[dst := File data meta]> fs)
                end
            end
        end
    end.

End FS.

(* ===================================================================== *)
(** * The script                                                          *)
(* ===================================================================== *)

(** The dictionary [split_images] returns.  Its keys are fixed and it is
    only read: a record, with [items] in insertion order. *)
Record Partition := {
  train : list string;
  val : list string;
  test : list string;
}.

Definition items (splits : Partition) : list (string * list string) :=
  [("train", train splits); ("val", val splits); ("test", test splits)].

(** A value a function of the script can return. *)
Inductive pyval :=
  | PyNone
  | PyInt (n : Z)
  | PyPath (p : path).

Inductive input_type := Video | Photos.

(** The [argparse] namespace of [main].  [input] and [output] are the
    paths the two strings name, and the strings are taken to be written
    the way [pathlib] prints them, [str(Path(s)) = s] (no doubled or
    trailing separator, no dot component). *)
Record Namespace := {
  input : path;
  output : path;
  type_ : input_type;
  fps : Z;
  train_ratio : spec_float;
  val_ratio : spec_float;
  skip_colmap : bool;
  skip_dependency_check : bool;
}.

Section Script.
Context {R : Runtime}.

(** ** State and exceptions *)

Definition M (A : Type) : Type := World -> result A * World.

Global Instance M_ret : MRet M := fun A (a : A) w => (Ok a, w).

Global Instance M_bind : MBind M := fun A B (k : A -> M B) (m : M A) w =>
  match m w with
  | (Ok a, w') => k a w'
  | (Raise e, w') => (Raise e, w')
  end.

Definition raise {A} (e : exn) : M A := fun w => (Raise e, w).

(** [try: body except <handles>: handler] *)
Definition try_except {A} (body : M A) (handles : exn -> bool) (handler : M A) : M A :=
  fun w =>
    match body w with
    | (Raise e, w') => if handles e then handler w' else (Raise e, w')
    | r => r
    end.

Definition set_fs (fs : filesystem) (w : World) : World :=
  {| w_fs := fs; w_rng := w_rng w; w_ext := w_ext w; w_log := w_log w |}.

Definition set_rng (g : rng_state) (w : World) : World :=
  {| w_fs := w_fs w; w_rng := g; w_ext := w_ext w; w_log := w_log w |}.

Definition set_ext (x : ext_state) (w : World) : World :=
  {| w_fs := w_fs w; w_rng := w_rng w; w_ext := x; w_log := w_log w |}.

Definition emit (ev : event) : M unit := fun w =>
  (Ok (), {| w_fs := w_fs w; w_rng := w_rng w; w_ext := w_ext w;
             w_log := w_log w ++ [ev] |}).

Definition lift_fs (op : filesystem -> result filesystem) : M unit := fun w =>
  match op (w_fs w) with
  | Ok fs' => (Ok (), set_fs fs' w)
  | Raise e => (Raise e, w)
  end.

Definition get_fs : M filesystem := fun w => (Ok (w_fs w), w).

(** ** Library calls *)

Definition print (line : string) : M unit := emit (EvPrint line).

Definition os_path_isfile (p : path) : M bool :=
  fs ← get_fs; mret (FS.is_file fs p).

Definition os_path_isdir (p : path) : M bool :=
  fs ← get_fs; mret (FS.is_dir fs p).

Definition path_exists (p : path) : M bool :=
  fs ← get_fs; mret (FS.exists_ fs p).

Definition path_mkdir (p : path) (parents exist_ok : bool) : M unit :=
  lift_fs (FS.path_mkdir p parents exist_ok).

Definition os_makedirs (p : path) (exist_ok : bool) : M unit :=
  lift_fs (FS.makedirs p exist_ok).

(** [os.listdir(p)] *)
Definition os_listdir (p : path) : M (list string) :=
  fs ← get_fs;
  match FS.stat fs p with
  | FS.Missing => raise (FileNotFoundError (path_str p))
  | FS.Blocked | FS.Found (File _ _) => raise (NotADirectoryError (path_str p))
  | FS.Found Dir => mret (FS.children fs p)
  end.

(** [p.glob('*')]: the direct entries of [p]; nothing when [p] is not a
    directory. *)
Definition path_glob_star (p : path) : M (list path) :=
  fs ← get_fs;
  mret (if FS.is_dir fs p then (fun n => n :: p) <$> FS.children fs p else []).

Definition shutil_copy2 (src dst : path) : M unit :=
  lift_fs (FS.copy2 src dst);; emit (EvCopy src dst).

(** Text that the encoding of text files can take: each of its
    characters is encodable. *)
Definition can_encode (data : string) : bool :=
  PyStr.all_chars encodable data.

(** [with open(p, 'w') as f: f.write(data)].  [open] creates or truncates
    the file; [f.write] encodes the text, and text that cannot be encoded
    raises [UnicodeEncodeError] and leaves the file empty. *)
Definition open_write (p : path) (data : string) : M unit :=
  if can_encode data
  then lift_fs (FS.write_file p data);; emit (EvWrite p data)
  else lift_fs (FS.write_file p EmptyString);; raise (UnicodeEncodeError data).

(** The exception of [subprocess.run(cmd, check=True)] for a program
    that could not be started or did not exit with status 0. *)
Definition process_error (cmd : list string) (outcome : proc_outcome) : option exn :=
  match outcome with
  | Exited c => if c =? 0 then None else Some (CalledProcessError c cmd)
  | NotFound => Some (FileNotFoundError (hd EmptyString cmd))
  | NotPermitted => Some (PermissionError (hd EmptyString cmd))
  | ExecFailed errno => Some (OSError errno (hd EmptyString cmd))
  end.

(** [subprocess.run(cmd, check=True)]: a program that ran leaves the
    filesystem and its own state as it made them; one that could not be
    started leaves everything as it was. *)
Definition wait_process (cmd : list string) : M unit := fun w =>
  match exec cmd (w_ext w) (w_fs w) with
  | (Exited c, x, fs) =>
      let w' := set_ext x (set_fs fs w) in
      if c =? 0 then (Ok (), w') else (Raise (CalledProcessError c cmd), w')
  | (NotFound, _, _) => (Raise (FileNotFoundError (hd EmptyString cmd)), w)
  | (NotPermitted, _, _) => (Raise (PermissionError (hd EmptyString cmd)), w)
  | (ExecFailed errno, _, _) => (Raise (OSError errno (hd EmptyString cmd)), w)
  end.

Definition subprocess_run (cmd : list string) : M unit :=
  emit (EvExec cmd);; wait_process cmd.

(** [random.seed(a)] *)
Definition random_seed (a : Z) : M unit := fun w => (Ok (), set_rng (rng_seed a) w).

(** [random.shuffle(x)]:
<<
    for i in reversed(range(1, len(x))):
        j = randbelow(i + 1)
        x[i], x[j] = x[j], x[i]
>>
    [shuffle_loop i] runs the iterations [i, i-1, .., 1]. *)
Fixpoint shuffle_loop {A} (i : nat) (x : list A) (g : rng_state)
  : result (list A) * rng_state :=
  match i with
  | O => (Ok x, g)
  | S i' =>
      let '(j, g') := randbelow (S i) g in
      match PyList.swap x i j with
      | Some x' => shuffle_loop i' x' g'
      | None => (Raise IndexError, g')
      end
  end.

Definition random_shuffle {A} (x : list A) : M (list A) := fun w =>
  let '(r, g) := shuffle_loop (length x - 1) x (w_rng w) in
  (r, set_rng g w).

(** ** [extract_frames_from_video] *)

(** [video_path] is the string the caller gives, handed to ffmpeg as it
    is; [output_dir] is the path the caller's string names, written the way
    [pathlib] prints it (the caller passes [str(frames_dir)]). *)
Definition extract_frames_from_video (video_path : string) (output_dir : path) (fps : Z)
  : M pyval :=
  os_makedirs output_dir true;;
  let cmd := [ "ffmpeg";
               "-i"; video_path;
               "-vf"; "fps=" +:+ pretty fps;
               "-qscale:v"; "2";
               PyStr.os_path_join (path_str output_dir) "frame_%04d.jpg" ] in
  print ("Extracting frames at " +:+ pretty fps +:+ " fps...");;
  subprocess_run cmd;;
  mret PyNone.

(** ** [split_images] *)

Definition image_suffixes : list string := [".png"; ".jpg"; ".jpeg"].

Definition is_image_name (f : string) : bool :=
  PyStr.endswith_any (PyStr.lower f) image_suffixes.

(** [int(total * ratio)] for an [int] and a [float]. *)
Definition int_of_product (total : Z) (ratio : spec_float) : M Z :=
  let x := Float64.of_int total in
  if Float64.is_inf x
  then raise (OverflowError "int too large to convert to float")
  else
    match Float64.mul x ratio with
    | S754_nan => raise (ValueError "cannot convert float NaN to integer")
    | S754_infinity _ => raise (OverflowError "cannot convert float infinity to integer")
    | y => mret (default 0 (Float64.trunc y))
    end.

Definition split_images (image_dir : path) (train_ratio val_ratio : spec_float)
  : M Partition :=
  names ← os_listdir image_dir;
  let images := filter (fun f => is_image_name f) names in
  images ← random_shuffle images;
  let total := Z.of_nat (length images) in
  train_end ← int_of_product total train_ratio;
  val_len ← int_of_product total val_ratio;
  let val_end := train_end + val_len in
  mret {| train := PyList.slice images None (Some train_end);
          val := PyList.slice images (Some train_end) (Some val_end);
          test := PyList.slice images (Some val_end) None |}.

(** The defaults of [split_images]'s keyword parameters. *)
Definition default_train_ratio : spec_float := Float64.lit_0_8.
Definition default_val_ratio : spec_float := Float64.lit_0_1.

(** ** [run_colmap_pipeline] *)

Definition cmd_extract (image_dir database_path : path) : list string :=
  [ "colmap"; "feature_extractor";
    "--database_path"; path_str database_path;
    "--image_path"; path_str image_dir;
    "--ImageReader.single_camera"; "1";
    "--ImageReader.camera_model"; "OPENCV";
    "--SiftExtraction.use_gpu"; "1" ].

Definition cmd_match (database_path : path) : list string :=
  [ "colmap"; "exhaustive_matcher";
    "--database_path"; path_str database_path;
    "--SiftMatching.use_gpu"; "1" ].

Definition cmd_mapper (image_dir database_path sparse_dir : path) : list string :=
  [ "colmap"; "mapper";
    "--database_path"; path_str database_path;
    "--image_path"; path_str image_dir;
    "--output_path"; path_str sparse_dir ].

Definition cmd_convert (model_dir : path) : list string :=
  [ "colmap"; "model_converter";
    "--input_path"; path_str model_dir;
    "--output_path"; path_str model_dir;
    "--output_type"; "TXT" ].

Definition run_colmap_pipeline (image_dir distorted_dir database_path sparse_dir : path)
  : M pyval :=
  print "Running feature extraction...";;
  subprocess_run (cmd_extract image_dir database_path);;
  print "Running feature matching...";;
  subprocess_run (cmd_match database_path);;
  print "Running sparse reconstruction...";;
  subprocess_run (cmd_mapper image_dir database_path sparse_dir);;
  let model_dir := "0" :: sparse_dir in
  found ← path_exists model_dir;
  (if found : bool then
     print "Converting to text format...";;
     subprocess_run (cmd_convert model_dir)
   else mret ());;
  print "COLMAP processing complete";;
  mret PyNone.

(** ** [create_colmap_structure] *)

(** Lines 41-52: the directory skeleton. *)
Definition build_layout (base_dir : path) : M unit :=
  path_mkdir base_dir true true;;
  let input_dir := "input" :: base_dir in
  path_mkdir input_dir false true;;
  let distorted_dir := "distorted" :: base_dir in
  let sparse_dir := "sparse" :: distorted_dir in
  path_mkdir distorted_dir false true;;
  path_mkdir sparse_dir false true.

(** Lines 62-64: the copy loop over the entries of the source. *)
Definition is_recognised (name : string) : bool :=
  bool_decide (PyStr.lower (PyStr.suffix name) ∈ image_suffixes).

Definition has_image_suffix (img : path) : bool := is_recognised (path_name img).

Fixpoint copy_loop (entries : list path) (input_dir : path) : M unit :=
  match entries with
  | [] => mret ()
  | img :: rest =>
      (if has_image_suffix img
       then shutil_copy2 img (path_name img :: input_dir)
       else mret ());;
      copy_loop rest input_dir
  end.

Definition copy_images (source_images input_dir : path) : M unit :=
  entries ← path_glob_star source_images;
  copy_loop entries input_dir.

(** Lines 68-70: one list file per split. *)
Fixpoint write_lists (base_dir : path) (kvs : list (string * list string)) : M unit :=
  match kvs with
  | [] => mret ()
  | (split_name, img_list) :: rest =>
      open_write ((split_name +:+ "_list.txt") :: base_dir)
        (PyStr.join PyStr.newline img_list);;
      write_lists base_dir rest
  end.

(** [output_dir] and [image_source] are the paths the caller's two
    strings name; the video branch hands the second string on as it is,
    [path_str image_source] for a string written as [pathlib] prints
    it. *)
Definition create_colmap_structure
    (output_dir image_source : path) (is_video : bool) (fps : Z) (run_colmap : bool)
  : M pyval :=
  let base_dir := output_dir in
  let input_dir := "input" :: base_dir in
  let distorted_dir := "distorted" :: base_dir in
  let sparse_dir := "sparse" :: distorted_dir in
  let database_path := "database.db" :: distorted_dir in
  build_layout base_dir;;
  source_images ←
    (if is_video then
       let frames_dir := "extracted_frames" :: base_dir in
       extract_frames_from_video (path_str image_source) frames_dir fps;;
       mret frames_dir
     else mret image_source);
  print "Copying images...";;
  copy_images source_images input_dir;;
  splits ← split_images input_dir default_train_ratio default_val_ratio;
  write_lists base_dir (items splits);;
  print ("Train: " +:+ pretty (length (train splits)) +:+
         " | Val: " +:+ pretty (length (val splits)) +:+
         " | Test: " +:+ pretty (length (test splits)));;
  (if run_colmap
   then run_colmap_pipeline input_dir distorted_dir database_path sparse_dir;; mret ()
   else mret ());;
  print ("Dataset ready: " +:+ path_str base_dir);;
  mret (PyPath base_dir).

(** ** [main] *)

Definition tool_missing (e : exn) : bool :=
  match e with
  | CalledProcessError _ _ | FileNotFoundError _ => true
  | _ => false
  end.

Definition sys_exit {A} (code : Z) : M A := raise (SystemExit code).

Definition main (args : Namespace) : M pyval :=
  (if negb (skip_dependency_check args) then
     (match type_ args with
      | Video =>
          try_except (subprocess_run ["ffmpeg"; "-version"]) tool_missing
            (print "ERROR: ffmpeg not found";;
             print "Install: sudo apt-get install ffmpeg";;
             sys_exit 1)
      | Photos => mret ()
      end);;
     (if negb (skip_colmap args) then
        try_except (subprocess_run ["colmap"; "-h"]) tool_missing
          (print "ERROR: COLMAP not found";;
           print "Install: sudo apt-get install colmap";;
           sys_exit 1)
      else mret ())
   else mret ());;
  random_seed 42;;
  (match type_ args with
   | Video =>
       ok ← os_path_isfile (input args);
       if ok : bool then mret ()
       else raise (ValueError ("Video file not found: " +:+ path_str (input args)))
   | Photos =>
       ok ← os_path_isdir (input args);
       if ok : bool then mret ()
       else raise (ValueError ("Image directory not found: " +:+ path_str (input args)))
   end);;
  create_colmap_structure (output args) (input args)
    (match type_ args with Video => true | Photos => false end)
    (fps args) (negb (skip_colmap args));;
  mret PyNone.

End Script.

(* ===================================================================== *)
(** * Notions the statements use                                          *)
(* ===================================================================== *)

(** ** Reading the event log *)

(** The lines printed, the commands run, the files written and the copies
    made, each in order. *)
Definition printed (log : list event) : list string :=
  omap (fun ev => match ev with EvPrint l => Some l | _ => None end) log.

Definition executed (log : list event) : list (list string) :=
  omap (fun ev => match ev with EvExec c => Some c | _ => None end) log.

Definition written (log : list event) : list (path * string) :=
  omap (fun ev => match ev with EvWrite p d => Some (p, d) | _ => None end) log.

Definition copied (log : list event) : list (path * path) :=
  omap (fun ev => match ev with EvCopy s d => Some (s, d) | _ => None end) log.

(** The exceptions [subprocess.run(..., check=True)] raises when the
    program fails or cannot be started: the specification's
    ExternalToolError. *)
Definition external_tool_error (e : exn) : bool :=
  match e with
  | CalledProcessError _ _ | FileNotFoundError _
  | PermissionError _ | OSError _ _ => true
  | _ => false
  end.

(** What the report of an exception says: the command of a
    [CalledProcessError], the file name of an [OSError], the message or
    the text of the others. *)
Definition reported_words (e : exn) : list string :=
  match e with
  | CalledProcessError _ cmd => cmd
  | FileNotFoundError f | FileExistsError f | NotADirectoryError f
  | IsADirectoryError f | SameFileError f | PermissionError f | OSError _ f => [f]
  | UnicodeEncodeError s => [s]
  | ValueError m | OverflowError m => [m]
  | IndexError | SystemExit _ => []
  end.

(** The reported failure names a stage: the colmap subcommand of the
    stage is among the words of the report. *)
Definition names_stage (stage : string) (e : exn) : Prop :=
  stage ∈ reported_words e.

(** The command lines of the four reconstruction stages. *)
Definition is_stage (cmd : list string) : bool :=
  bool_decide (nth 0 cmd EmptyString = "colmap") &&
  bool_decide (nth 1 cmd EmptyString ∈
    ["feature_extractor"; "exhaustive_matcher"; "mapper"; "model_converter"]).

(** Events among which no reconstruction stage is started. *)
Definition no_stage (evs : list event) : Prop :=
  forall cmd, EvExec cmd ∈ evs -> is_stage cmd = false.

(** Events that write no file and start no stage. *)
Definition quiet (evs : list event) : Prop := written evs = [] /\ no_stage evs.

(** Events that neither write nor copy a file. *)
Definition silent (evs : list event) : Prop := written evs = [] /\ copied evs = [].

(** The namespace with other ratios on the command line. *)
Definition with_ratios (args : Namespace) (tr vr : spec_float) : Namespace :=
  {| input := input args; output := output args; type_ := type_ args;
     fps := fps args; train_ratio := tr; val_ratio := vr;
     skip_colmap := skip_colmap args;
     skip_dependency_check := skip_dependency_check args |}.

Section Notions.
Context {R : Runtime}.

(** The world with more events in its log. *)
Definition log_add (evs : list event) (w : World) : World :=
  {| w_fs := w_fs w; w_rng := w_rng w; w_ext := w_ext w; w_log := w_log w ++ evs |}.

(** What [split_images] does once the directory is listed. *)
Definition split_listed (names : list string) (train_ratio val_ratio : spec_float)
  : M Partition :=
  let images := filter (fun f => is_image_name f) names in
  images ← random_shuffle images;
  let total := Z.of_nat (length images) in
  train_end ← int_of_product total train_ratio;
  val_len ← int_of_product total val_ratio;
  let val_end := train_end + val_len in
  mret {| train := PyList.slice images None (Some train_end);
          val := PyList.slice images (Some train_end) (Some val_end);
          test := PyList.slice images (Some val_end) None |}.

(** The skeleton is in place: the four directories exist. *)
Definition has_layout (base_dir : path) (fs : filesystem) : bool :=
  FS.is_dir fs base_dir && FS.is_dir fs ("input" :: base_dir) &&
  FS.is_dir fs ("distorted" :: base_dir) &&
  FS.is_dir fs ("sparse" :: "distorted" :: base_dir).

(** The reading of "returns the number of files it copied": the value
    returned is the count of the copies made during the call. *)
Definition returns_copied_count (w : World) (res : result pyval * World) : Prop :=
  res.1 = Ok (PyInt (Z.of_nat (length (copied (w_log res.2))
                               - length (copied (w_log w))))).

(** What a computation adds to the log, whatever its outcome. *)
Definition logs {A} (m : M A) (P : list event -> Prop) : Prop :=
  forall w, exists evs, w_log (m w).2 = w_log w ++ evs /\ P evs.

(** What [create_colmap_structure] does from the pipeline on, when
    [run_colmap] is set. *)
Definition pipeline_and_finish (base_dir : path) : M pyval :=
  (run_colmap_pipeline ("input" :: base_dir) ("distorted" :: base_dir)
     ("database.db" :: "distorted" :: base_dir) ("sparse" :: "distorted" :: base_dir);;
   mret ());;
  print ("Dataset ready: " +:+ path_str base_dir);;
  mret (PyPath base_dir).

(** The path and the text of a split-list file. *)
Definition list_file (base_dir : path) (split_name : string) : path :=
  (split_name +:+ "_list.txt") :: base_dir.

Definition list_text (names : list string) : string :=
  PyStr.join PyStr.newline names.

(** The events of every run of [c] fall into a first part in which no
    stage is started and a second part in which no file is written or
    copied; when there is a second part, the first one has written the
    three lists, they are on disk where it ends, and the second part is
    the pipeline started there. *)
Definition lists_first (base_dir : path) (c : M pyval) : Prop :=
  forall w : World, exists before after : list event,
    w_log (c w).2 = w_log w ++ before ++ after /\
    no_stage before /\
    silent after /\
    (after <> [] ->
     exists (splits : Partition) (w1 : World),
       w_log w1 = w_log w ++ before /\
       written before =
         [ (list_file base_dir "train", list_text (train splits));
           (list_file base_dir "val", list_text (val splits));
           (list_file base_dir "test", list_text (test splits)) ] /\
       (forall name names, (name, names) ∈ items splits ->
          exists m, w_fs w1 !! list_file base_dir name = Some (File (list_text names) m)) /\
       c w = pipeline_and_finish base_dir w1).

(** A computation that neither reads nor changes the generator. *)
Definition rng_blind {A} (m : M A) : Prop :=
  forall g w, m (set_rng g w) = ((m w).1, set_rng g (m w).2).

End Notions.


(* ===================================================================== *)
(** * Further notions                                                     *)
(* ===================================================================== *)

(** The four stage commands, in the order the pipeline runs them. *)
Definition stage_commands (image_dir database_path sparse_dir : path)
  : list (list string) :=
  [ cmd_extract image_dir database_path;
    cmd_match database_path;
    cmd_mapper image_dir database_path sparse_dir;
    cmd_convert ("0" :: sparse_dir) ].

(** The command line [extract_frames_from_video] builds for the string
    [video]. *)
Definition ffmpeg_command (video : string) (output_dir : path) (fps : Z) : list string :=
  [ "ffmpeg";
    "-i"; video;
    "-vf"; "fps=" +:+ pretty fps;
    "-qscale:v"; "2";
    PyStr.os_path_join (path_str output_dir) "frame_%04d.jpg" ].

(** The same for the input of a run, a path written as [pathlib] prints
    it. *)
Definition cmd_ffmpeg (video_path output_dir : path) (fps : Z) : list string :=
  ffmpeg_command (path_str video_path) output_dir fps.

(** [q] is the directory [base] or lies in it, at any depth. *)
Definition under (base q : path) : Prop := base `suffix_of` q.

(** [fs'] is [fs] with directories added and nothing else changed. *)
Definition grows (fs fs' : filesystem) : Prop :=
  forall q, fs' !! q = fs !! q \/ (fs !! q = None /\ fs' !! q = Some Dir).

(** [fs'] is [fs] with directories added, and whatever resolved in [fs]
    resolves to the same node in [fs']. *)
Definition added (fs fs' : filesystem) : Prop := grows fs fs' /\ FS.extends fs fs'.

(** Every entry outside [T] is bound in [fs'] as it is in [fs]: nothing
    outside [T] was changed or removed. *)
Definition kept (T : path -> Prop) (fs fs' : filesystem) : Prop :=
  forall q nd, ~ T q -> fs !! q = Some nd -> fs' !! q = Some nd.

(** The four directories of the skeleton, in the order they are made. *)
Definition skeleton (base_dir : path) : list path :=
  [ base_dir; "input" :: base_dir; "distorted" :: base_dir;
    "sparse" :: "distorted" :: base_dir ].

(** The last step of [os.makedirs]: [mkdir], where an existing directory
    is accepted under [exist_ok]. *)
Definition makedirs_finish (p : path) (exist_ok : bool) (fs1 : filesystem)
  : result filesystem :=
  match FS.os_mkdir p fs1 with
  | Ok fs' => Ok fs'
  | Raise e => if exist_ok && FS.is_dir fs1 p then Ok fs1 else Raise e
  end.

(** Events among which no command is run. *)
Definition no_exec (evs : list event) : Prop := executed evs = [].

(** Where the images of a run come from: the input directory for photos,
    the directory of extracted frames for a video. *)
Definition image_source (args : Namespace) : path :=
  match type_ args with
  | Video => "extracted_frames" :: output args
  | Photos => input args
  end.


(** The commands of a run of [main], in order: the probes of the
    dependency check, the frame extraction, the stages of the
    reconstruction; with the model converter or without it. *)
Definition planned_commands (args : Namespace) (convert : bool) : list (list string) :=
  let out := output args in
  let video := match type_ args with Video => true | Photos => false end in
  (if negb (skip_dependency_check args) && video
   then [["ffmpeg"; "-version"]] else []) ++
  (if negb (skip_dependency_check args) && negb (skip_colmap args)
   then [["colmap"; "-h"]] else []) ++
  (if video
   then [cmd_ffmpeg (input args) ("extracted_frames" :: out) (fps args)] else []) ++
  (if skip_colmap args then []
   else take (if convert then 4 else 3)
          (stage_commands ("input" :: out) ("database.db" :: "distorted" :: out)
             ("sparse" :: "distorted" :: out))).

Section MoreNotions.
Context {R : Runtime}.

(** The commands a computation runs are an initial part of [allowed];
    when it returns, they include all of [required]. *)
Definition runs {A} (m : M A) (required allowed : list (list string)) : Prop :=
  forall w, exists ran : list (list string),
    executed (w_log (m w).2) = executed (w_log w) ++ ran /\
    ran `prefix_of` allowed /\
    (forall a, (m w).1 = Ok a -> required `prefix_of` ran).

(** The commands [cmds], run one after the other from the state [x] of
    the programs and the filesystem [fs], each exit with status 0; the
    result is what the last of them leaves. *)
Fixpoint all_exit_0 (cmds : list (list string)) (x : ext_state) (fs : filesystem)
  : option (ext_state * filesystem) :=
  match cmds with
  | [] => Some (x, fs)
  | cmd :: rest =>
      match exec cmd x fs with
      | (Exited c, x', fs') => if c =? 0 then all_exit_0 rest x' fs' else None
      | _ => None
      end
  end.

(** Whatever its outcome, the computation takes a filesystem to one that
    is related to it by [Rel]. *)
Definition fs_rel {A} (m : M A) (Rel : filesystem -> filesystem -> Prop) : Prop :=
  forall w, Rel (w_fs w) (w_fs (m w).2).

(** The external programs leave every entry outside [T] bound as it
    was. *)
Definition tools_keep (T : path -> Prop) : Prop :=
  forall (cmd : list string) (x : ext_state) (fs : filesystem),
    kept T fs (exec cmd x fs).2.

(** Events among which [line] is not printed. *)
Definition unsaid (line : string) (evs : list event) : Prop := line ∉ printed evs.

(** The computation prints [line] when it returns and only then: a run
    that returns ends its events with [line], printed once; a run that
    raises has not printed it. *)
Definition closes {A} (m : M A) (line : string) : Prop :=
  forall w, exists evs : list event,
    w_log (m w).2 = w_log w ++ evs /\
    match (m w).1 with
    | Ok _ => exists pre, evs = pre ++ [EvPrint line] /\ line ∉ printed pre
    | Raise _ => line ∉ printed evs
    end.


(** A computation that leaves the filesystem, the external programs'
    state and the log as they are: it can only read them. *)
Definition reads_only {A} (m : M A) : Prop :=
  forall w, w_fs (m w).2 = w_fs w /\ w_ext (m w).2 = w_ext w /\ w_log (m w).2 = w_log w.

End MoreNotions.

(* ===================================================================== *)
(** * Stand-ins for the collaborators, to run the script on examples      *)
(* ===================================================================== *)

Module TestDouble.

(** A small linear congruential generator in place of the Mersenne
    Twister. *)
Definition lcg_next (s : N) : N := ((s * 1103515245 + 12345) mod 2147483648)%N.

Definition lcg_randbelow (n : nat) (s : N) : nat * N :=
  let s' := lcg_next s in
  (N.to_nat (s' mod N.of_nat n)%N, s').

(** Which colmap subcommand a command line names. *)
Definition subcommand (cmd : list string) : string := nth 1 cmd EmptyString.

(** Every program runs and exits with status 0, touching nothing. *)
Definition exec_ok (cmd : list string) (x : unit) (fs : filesystem)
  : proc_outcome * unit * filesystem :=
  (Exited 0, x, fs).

(** As [exec_ok], and the mapper writes a first model at [model_dir]. *)
Definition exec_with_model (model_dir : path) (cmd : list string) (x : unit)
    (fs : filesystem) : proc_outcome * unit * filesystem :=
  if String.eqb (subcommand cmd) "mapper"
  then (Exited 0, x, <[model_dir := Dir]> fs)
  else (Exited 0, x, fs).

(** The program [failing] exits with [status]; the others succeed. *)
Definition exec_failing (failing : string) (status : Z) (cmd : list string)
    (x : unit) (fs : filesystem) : proc_outcome * unit * filesystem :=
  if String.eqb (subcommand cmd) failing
  then (Exited status, x, fs)
  else (Exited 0, x, fs).

(** The program [missing] cannot be started; the others succeed. *)
Definition exec_missing (missing : string) (cmd : list string)
    (x : unit) (fs : filesystem) : proc_outcome * unit * filesystem :=
  if String.eqb (subcommand cmd) missing
  then (NotFound, x, fs)
  else (Exited 0, x, fs).

(** The program [program] is there and may not be executed; the others
    succeed. *)
Definition exec_unexecutable (program : string) (cmd : list string)
    (x : unit) (fs : filesystem) : proc_outcome * unit * filesystem :=
  if String.eqb (hd EmptyString cmd) program
  then (NotPermitted, x, fs)
  else (Exited 0, x, fs).

(** An encoding with the characters of ASCII and no other. *)
Definition ascii_only (c : ascii) : bool := (nat_of_ascii c <? 128)%nat.

Definition runtime
    (tool : list string -> unit -> filesystem -> proc_outcome * unit * filesystem)
  : Runtime :=
  {| rng_state := N;
     rng_seed := fun a => Z.to_N a;
     randbelow := lcg_randbelow;
     ext_state := unit;
     exec := tool;
     encodable := ascii_only |}.

Definition world (R : Runtime) (fs : filesystem) (g : @rng_state R) (x : @ext_state R)
  : @World R :=
  {| w_fs := fs; w_rng := g; w_ext := x; w_log := [] |}.

(** A photo folder with two images and two other files. *)
Definition photos_fs : filesystem :=
  list_to_map
    [ (["photos"], Dir);
      (["a.jpg"; "photos"], File "AAAA" 11);
      (["b.PNG"; "photos"], File "BBBB" 22);
      (["c.txt"; "photos"], File "CCCC" 33);
      (["d.bmp"; "photos"], File "DDDD" 44) ].

(** The same folder next to an output directory whose skeleton is in
    place and that holds files of an earlier run. *)
Definition reused_fs : filesystem :=
  list_to_map
    [ (["out"], Dir);
      (["input"; "out"], Dir);
      (["distorted"; "out"], Dir);
      (["sparse"; "distorted"; "out"], Dir);
      (["keep.txt"; "out"], File "notes" 5);
      (["old.jpg"; "input"; "out"], File "OLD" 9);
      (["photos"], Dir);
      (["a.jpg"; "photos"], File "AAAA" 11);
      (["b.PNG"; "photos"], File "BBBB" 22);
      (["c.txt"; "photos"], File "CCCC" 33);
      (["d.bmp"; "photos"], File "DDDD" 44);
      (["nested"; "photos"], Dir);
      (["e.jpg"; "nested"; "photos"], File "EEEE" 55) ].

(** The same, with a directory in the folder whose name ends in .jpg. *)
Definition album_fs : filesystem := <[ ["album.jpg"; "photos"] := Dir ]> reused_fs.

(** A photo folder with ten images, img0.jpg .. img9.jpg. *)
Definition ten_names : list string :=
  (fun i : nat => "img" +:+ pretty i +:+ ".jpg") <$> seq 0 10.

Definition ten_fs : filesystem :=
  list_to_map
    ((["shots"], Dir) ::
     ((fun n : string => ([n; "shots"], File n 7)) <$> ten_names)).

(** The same ten images, listed by a run that differs in everything
    else: other files around, another generator state, a log. *)
Definition ten_fs_busy : filesystem :=
  <[ ["notes.txt"] := File "remember" 3 ]> (<[ ["elsewhere"] := Dir ]> ten_fs).

Definition ten_world : @World (runtime exec_ok) :=
  world (runtime exec_ok) ten_fs 42%N tt.

Definition ten_world_busy : @World (runtime exec_ok) :=
  @Build_World (runtime exec_ok) ten_fs_busy 7%N tt [EvPrint "earlier output"].

Definition photo_args (src out : path) (tr vr : spec_float) : Namespace :=
  {| input := src; output := out; type_ := Photos; fps := 2;
     train_ratio := tr; val_ratio := vr;
     skip_colmap := false; skip_dependency_check := false |}.

End TestDouble.

(* ===================================================================== *)
(** * Further scenarios                                                   *)
(* ===================================================================== *)

Module Scenarios.
Import TestDouble.

(** Photos, without reconstruction. *)
Definition offline_args (src out : path) : Namespace :=
  {| input := src; output := out; type_ := Photos; fps := 2;
     train_ratio := Float64.lit_0_8; val_ratio := Float64.lit_0_1;
     skip_colmap := true; skip_dependency_check := false |}.


(** A clip next to the photo folder. *)
Definition clip_fs : filesystem := <[ ["clip.mp4"] := File "MP4" 66 ]> photos_fs.








End Scenarios.

(* ===================================================================== *)
(** * Facts about binary64 rounding                                       *)
(* ===================================================================== *)

Module Float64Facts.
Import Float64.

Lemma digits2_pos_log2 (p : positive) :
  Zpos (digits2_pos p) = Z.log2 (Zpos p) + 1.
Proof.
  assert (Hsize : forall q, digits2_pos q = Pos.size q)
    by (induction q; simpl; congruence).
  rewrite Hsize. destruct p; simpl; lia.
Qed.

Lemma Zdigits2_log2 (m : Z) : 0 < m -> Zdigits2 m = Z.log2 m + 1.
Proof. destruct m; try lia. intros _. apply digits2_pos_log2. Qed.

Lemma Zdigits2_nonneg (m : Z) : 0 <= Zdigits2 m.
Proof. destruct m; simpl; lia. Qed.

Lemma Zdigits2_le (a b : Z) : 0 <= a <= b -> Zdigits2 a <= Zdigits2 b.
Proof.
  intros [Ha Hab]. destruct (decide (a = 0)) as [->|Hne].
  - apply Zdigits2_nonneg.
  - rewrite !Zdigits2_log2 by lia.
    pose proof (Z.log2_le_mono a b). lia.
Qed.

Lemma Zdigits2_succ (a : Z) : 0 <= a -> Zdigits2 (a + 1) <= Zdigits2 a + 1.
Proof.
  intros Ha. destruct (decide (a = 0)) as [->|Hne]; [done|].
  rewrite !Zdigits2_log2 by lia.
  pose proof (Z.log2_succ_le a) as H. rewrite <- Z.add_1_r in H. lia.
Qed.

Lemma Zdigits2_mul (a b : Z) :
  0 < a -> 0 < b -> Zdigits2 (a * b) <= Zdigits2 a + Zdigits2 b.
Proof.
  intros Ha Hb. rewrite !Zdigits2_log2 by lia.
  pose proof (Z.log2_mul_above a b). lia.
Qed.

Lemma Zdigits2_div_pow2 (a k : Z) :
  0 <= a -> 0 <= k -> Zdigits2 (a / 2 ^ k) <= Z.max 0 (Zdigits2 a - k).
Proof.
  intros Ha Hk. destruct (decide (a / 2 ^ k = 0)) as [->|Hne]; [simpl; lia|].
  assert (0 <= a / 2 ^ k) by (apply Z.div_pos; lia).
  assert (0 < a) by (destruct (decide (a = 0)) as [->|]; [by rewrite Zdiv_0_l in Hne|lia]).
  assert (k <= Z.log2 a).
  { apply Z.log2_le_pow2; [done|].
    destruct (Z_lt_le_dec a (2 ^ k)) as [Hlt|]; [|done].
    rewrite Z.div_small in Hne by lia. done. }
  rewrite !Zdigits2_log2 by lia.
  rewrite <- Z.shiftr_div_pow2 by lia.
  rewrite Z.log2_shiftr by lia. lia.
Qed.

Lemma pow2_digits_le (p : positive) : 2 ^ (Zpos (digits2_pos p) - 1) <= Zpos p.
Proof.
  rewrite digits2_pos_log2. replace (Z.log2 (Z.pos p) + 1 - 1) with (Z.log2 (Z.pos p)) by lia.
  apply Z.log2_spec. lia.
Qed.

(** ** Shifting right *)

Lemma shr_1_m (mrs : shr_record) :
  0 <= shr_m mrs -> shr_m (shr_1 mrs) = shr_m mrs / 2 /\ 0 <= shr_m (shr_1 mrs).
Proof.
  destruct mrs as [m r s]. simpl. intros Hm.
  destruct m as [|p|p]; [done| |lia].
  destruct p; simpl.
  - split; [|lia]. rewrite Pos2Z.inj_xI.
    apply Z.div_unique with (r := 1); lia.
  - split; [|lia]. rewrite Pos2Z.inj_xO.
    apply Z.div_unique with (r := 0); lia.
  - done.
Qed.

Lemma iter_pos_nat {A} (f : A -> A) (p : positive) (x : A) :
  iter_pos f p x = Nat.iter (Pos.to_nat p) f x.
Proof.
  revert x. induction p as [p IH|p IH|]; intros x; cbn [iter_pos].
  - rewrite !IH, Pos2Nat.inj_xI.
    replace (S (2 * Pos.to_nat p)) with (Pos.to_nat p + S (Pos.to_nat p))%nat by lia.
    by rewrite Nat.iter_add, Nat.iter_succ_r.
  - rewrite !IH, Pos2Nat.inj_xO.
    replace (2 * Pos.to_nat p)%nat with (Pos.to_nat p + Pos.to_nat p)%nat by lia.
    by rewrite Nat.iter_add.
  - done.
Qed.

Lemma shr_iter_m (n : nat) (mrs : shr_record) :
  0 <= shr_m mrs ->
  shr_m (Nat.iter n shr_1 mrs) = shr_m mrs / 2 ^ Z.of_nat n.
Proof.
  intros Hm. induction n as [|n IH].
  - simpl. by rewrite Z.div_1_r.
  - rewrite Nat.iter_succ.
    assert (0 <= shr_m (Nat.iter n shr_1 mrs)).
    { rewrite IH. apply Z.div_pos; lia. }
    destruct (shr_1_m (Nat.iter n shr_1 mrs)) as [-> _]; [done|].
    rewrite IH, Nat2Z.inj_succ, Z.pow_succ_r by lia.
    rewrite Z.div_div by lia. f_equal. lia.
Qed.

(** The mantissa and exponent [shr] leaves: the mantissa divided by
    [2^k] and the exponent raised by [k], for the shift [k] clipped at 0. *)
Lemma shr_spec (mrs : shr_record) (e k : Z) :
  0 <= shr_m mrs ->
  let k' := Z.max 0 k in
  shr_m (shr mrs e k).1 = shr_m mrs / 2 ^ k' /\ (shr mrs e k).2 = e + k'.
Proof.
  intros Hm k'. subst k'. destruct k as [|p|p]; simpl.
  - rewrite Z.div_1_r. split; lia.
  - rewrite iter_pos_nat, shr_iter_m by done.
    rewrite positive_nat_Z. split; [done|lia].
  - rewrite Z.div_1_r. split; lia.
Qed.

(** ** Rounding an exact product or integer *)

Lemma fexp_eq (x : Z) : fexp prec emax x = Z.max (x - 53) (-1074).
Proof. reflexivity. Qed.

Lemma round_nearest_even_bounds (m : Z) (l : location) :
  m <= round_nearest_even m l <= m + 1.
Proof.
  unfold round_nearest_even. destruct l as [|[]]; try lia.
  destruct (Z.even m); lia.
Qed.

(** What [binary_round_aux] can return for a positive integer mantissa
    given exactly, with [d] its number of digits: the sign is kept, NaN
    never comes out, and exponent and magnitude grow by one at most. *)
Lemma binary_round_aux_exact (s : bool) (m : positive) (e : Z) :
  let d := Zpos (digits2_pos m) in
  let B := Z.max e (fexp prec emax (d + e)) in
  match binary_round_aux prec emax s (Zpos m) e loc_Exact with
  | S754_zero s' => s' = s
  | S754_finite s' m' e' =>
      s' = s /\ e' <= B + 1 /\ e' <= emax - prec /\
      Zpos (digits2_pos m') + e' <= Z.max (d + e) B + 1
  | S754_infinity s' => s' = s /\ emax - prec < B + 1
  | S754_nan => False
  end.
Proof.
  intros d B. unfold binary_round_aux, shr_fexp.
  change (Zdigits2 (Z.pos m)) with d.
  pose proof (shr_spec (shr_record_of_loc (Z.pos m) loc_Exact) e
                (fexp prec emax (d + e) - e)) as H1.
  destruct (shr _ e _) as [mrs1 e1]. simpl in H1.
  destruct H1 as [Hm1 He1]; [lia|].
  set (m1 := round_nearest_even (shr_m mrs1) (loc_of_shr_record mrs1)).
  pose proof (round_nearest_even_bounds (shr_m mrs1) (loc_of_shr_record mrs1)) as Hr.
  fold m1 in Hr.
  assert (Hpos1 : 0 <= shr_m mrs1) by (rewrite Hm1; apply Z.div_pos; lia).
  pose proof (shr_spec (shr_record_of_loc m1 loc_Exact) e1
                (fexp prec emax (Zdigits2 m1 + e1) - e1)) as H2.
  destruct (shr _ e1 _) as [mrs2 e2]. simpl in H2.
  destruct H2 as [Hm2 He2]; [lia|].
  assert (Hpos2 : 0 <= shr_m mrs2) by (rewrite Hm2; apply Z.div_pos; lia).
  pose proof (Zdigits2_div_pow2 (Z.pos m) (Z.max 0 (fexp prec emax (d + e) - e))) as D1.
  rewrite <- Hm1 in D1. change (Zdigits2 (Z.pos m)) with d in D1.
  pose proof (Zdigits2_le m1 (shr_m mrs1 + 1)) as D2.
  pose proof (Zdigits2_succ (shr_m mrs1)) as D2'.
  pose proof (Zdigits2_div_pow2 m1 (Z.max 0 (fexp prec emax (Zdigits2 m1 + e1) - e1))) as D3.
  rewrite <- Hm2 in D3.
  subst B. rewrite fexp_eq in *. unfold emax, prec.
  destruct (shr_m mrs2) as [|m2|m2] eqn:Em2; [done| |lia].
  change (Zdigits2 (Z.pos m2)) with (Z.pos (digits2_pos m2)) in D3.
  destruct (Z.leb_spec e2 (1024 - 53)).
  - split; [done|]. lia.
  - split; [done|]. lia.
Qed.

Lemma digits2_pos_iter_xO (m d : positive) :
  Zpos (digits2_pos (Pos.iter xO m d)) = Zpos (digits2_pos m) + Zpos d.
Proof.
  induction d as [|d IH] using Pos.peano_ind.
  - simpl. lia.
  - rewrite Pos.iter_succ. cbn [digits2_pos]. lia.
Qed.

Lemma shl_align_spec (mx : positive) (ex ex' : Z) :
  let '(mz, ez) := shl_align mx ex ex' in
  ez = Z.min ex ex' /\
  Zpos (digits2_pos mz) + ez = Zpos (digits2_pos mx) + ex.
Proof.
  unfold shl_align. destruct (ex' - ex) as [|d|d] eqn:E.
  - lia.
  - lia.
  - rewrite digits2_pos_iter_xO. lia.
Qed.

(** [float(n)] for a list length: a number, not negative, below 2^64. *)
Lemma of_int_cases (n : Z) :
  0 <= n < 2 ^ 63 ->
  match of_int n with
  | S754_zero _ => True
  | S754_finite s m e => s = false /\ e <= 11 /\ Zpos (digits2_pos m) + e <= 64
  | _ => False
  end.
Proof.
  intros [Hn0 Hn]. unfold of_int, binary_normalize.
  destruct n as [|p|p]; [done| |lia].
  unfold binary_round.
  pose proof (shl_align_spec p 0 (fexp prec emax (Z.pos (digits2_pos p) + 0))) as Ha.
  destruct (shl_align _ _ _) as [mz ez]. destruct Ha as [Hez Hdz].
  pose proof (binary_round_aux_exact false mz ez) as Hr. cbv zeta in Hr.
  assert (Hd : Z.pos (digits2_pos p) <= 63).
  { rewrite digits2_pos_log2.
    assert (Z.log2 (Z.pos p) < 63) by (apply Z.log2_lt_pow2; lia). lia. }
  rewrite !fexp_eq in *. unfold emax, prec in *.
  clear Hn Hn0.
  destruct (binary_round_aux _ _ _ _ _ _); [done|lia|done|].
  destruct Hr as [-> Hr]. split; [done|lia].
Qed.

(** A ratio is zero, or positive with exponent at most -52 and
    magnitude at most 1. *)
Lemma ratio_cases (r : spec_float) :
  is_ratio r = true ->
  match r with
  | S754_zero _ => True
  | S754_finite s m e => s = false /\ e <= -52 /\ Zpos (digits2_pos m) + e <= 1
  | _ => False
  end.
Proof.
  unfold is_ratio, is_number. destruct r as [s|s| |s m e]; cbn [is_finite andb]; try done.
  cbn [valid_binary scaled]. unfold bounded, canonical_mantissa.
  rewrite fexp_eq. intros H.
  repeat (apply andb_prop in H as [H ?]).
  assert (He : (Z.pos (digits2_pos m) + e - 53) `max` (-1074) = e) by lia.
  assert (Hpow : 0 < 2 ^ (e + 1074)) by (apply Z.pow_pos_nonneg; lia).
  assert (Hs : s = false).
  { destruct s; [|done]. cbn [cond_Zopp] in *.
    assert (0 < Z.pos m * 2 ^ (e + 1074)) by (apply Z.mul_pos_pos; lia). lia. }
  subst s. cbn [cond_Zopp] in *. split; [done|].
  assert (Hd : Z.pos (digits2_pos m) - 1 + (e + 1074) <= 1074).
  { apply (Z.pow_le_mono_r_iff 2); [lia|lia|].
    rewrite Z.pow_add_r by lia.
    pose proof (pow2_digits_le m) as Hm.
    apply Z.leb_le in H0.
    etrans; [|exact H0]. apply Z.mul_le_mono_nonneg_r; lia. }
  clear -He Hd. lia.
Qed.

(** The product [float(n) * r] of a list length and a ratio is a number
    and is not negative. *)
Lemma mul_ratio_cases (n : Z) (r : spec_float) :
  0 <= n < 2 ^ 63 -> is_ratio r = true ->
  match mul (of_int n) r with
  | S754_zero _ => True
  | S754_finite s _ _ => s = false
  | _ => False
  end.
Proof.
  intros Hn Hr. pose proof (of_int_cases n Hn) as Hx.
  pose proof (ratio_cases r Hr) as Hy. clear Hn Hr. unfold mul.
  destruct (of_int n) as [sx|sx| |sx mx ex], r as [sy|sy| |sy my ey];
    try done.
  destruct Hx as (-> & Hex & Hdx), Hy as (-> & Hey & Hdy).
  cbn [SFmul xorb].
  pose proof (binary_round_aux_exact false (mx * my) (ex + ey)) as Hb.
  cbv zeta in Hb. rewrite fexp_eq in Hb. unfold emax, prec in Hb.
  pose proof (Zdigits2_mul (Z.pos mx) (Z.pos my)) as Hd.
  change (Zdigits2 (Z.pos mx * Z.pos my)) with (Z.pos (digits2_pos (mx * my))) in Hd.
  cbn [Zdigits2] in Hd.
  destruct (binary_round_aux _ _ _ _ _ _); [done|lia|done|].
  by destruct Hb.
Qed.

(** On a float that is not negative, [int] is [floor]. *)
Lemma trunc_floor (x : spec_float) :
  match x with S754_finite s _ _ => s = false | _ => True end ->
  trunc x = floor x.
Proof.
  destruct x as [| | |s m e]; try done. intros ->.
  unfold trunc, floor, magnitude_trunc. cbn [cond_Zopp]. by destruct (0 <=? e).
Qed.

Lemma trunc_nonneg (x : spec_float) (z : Z) :
  match x with S754_finite s _ _ => s = false | _ => True end ->
  trunc x = Some z -> 0 <= z.
Proof.
  destruct x as [| | |s m e]; try done.
  - intros _ [= <-]. done.
  - intros -> [= <-]. unfold magnitude_trunc. cbn [cond_Zopp].
    destruct (Z.leb_spec 0 e).
    + apply Z.mul_nonneg_nonneg; [lia|]. apply Z.pow_nonneg. lia.
    + apply Z.div_pos; [lia|]. apply Z.pow_pos_nonneg; lia.
Qed.

Lemma valid_ratios_each (tr vr : spec_float) :
  valid_ratios tr vr = true -> is_ratio tr = true /\ is_ratio vr = true.
Proof.
  unfold valid_ratios, is_ratio. rewrite !andb_true_iff, !Z.leb_le.
  intros ((((Ht & Hv) & H0t) & H0v) & Hsum).
  repeat split; try done; lia.
Qed.

End Float64Facts.

(* ===================================================================== *)
(** * Slices and the shuffle                                              *)
(* ===================================================================== *)

Module PyListFacts.
Import PyList.

Section Slices.
Context {A : Type}.
Implicit Types (l : list A) (a b : Z).

Lemma slice_prefix l a :
  0 <= a -> slice l None (Some a) = take (Z.to_nat a) l.
Proof.
  intros Ha. unfold slice, clamp_index.
  destruct (Z.ltb_spec a 0); [lia|].
  change (drop (Z.to_nat 0) l) with l. rewrite Z.sub_0_r.
  destruct (Z.le_ge_cases a (Z.of_nat (length l))).
  - by rewrite Z.min_l.
  - rewrite Z.min_r, Nat2Z.id, !take_ge by lia. done.
Qed.

Lemma slice_middle l a b :
  0 <= a -> a <= b ->
  slice l (Some a) (Some b) = take (Z.to_nat b - Z.to_nat a) (drop (Z.to_nat a) l).
Proof.
  intros Ha Hab. unfold slice, clamp_index.
  destruct (Z.ltb_spec a 0), (Z.ltb_spec b 0); try lia.
  destruct (Z.le_ge_cases a (Z.of_nat (length l))).
  - rewrite (Z.min_l a) by lia.
    destruct (Z.le_ge_cases b (Z.of_nat (length l))).
    + rewrite Z.min_l by lia. f_equal. lia.
    + rewrite Z.min_r by lia.
      rewrite !take_ge; [done|rewrite length_drop; lia..].
  - rewrite !drop_ge by lia. by rewrite !take_nil.
Qed.

Lemma slice_suffix l b :
  0 <= b -> slice l (Some b) None = drop (Z.to_nat b) l.
Proof.
  intros Hb. unfold slice, clamp_index.
  destruct (Z.ltb_spec b 0); [lia|].
  destruct (Z.le_ge_cases b (Z.of_nat (length l))).
  - rewrite Z.min_l by lia. apply take_ge. rewrite length_drop. lia.
  - rewrite !drop_ge by lia. by rewrite take_nil.
Qed.

(** Three consecutive slices put the list together again. *)
Lemma slices_app l a b :
  0 <= a -> a <= b ->
  slice l None (Some a) ++ slice l (Some a) (Some b) ++ slice l (Some b) None = l.
Proof.
  intros Ha Hab.
  rewrite slice_prefix, slice_middle, slice_suffix by lia.
  replace (Z.to_nat b) with (Z.to_nat a + (Z.to_nat b - Z.to_nat a))%nat at 2 by lia.
  rewrite <- drop_drop, take_drop. apply take_drop.
Qed.

Lemma swap_Permutation l (i j : nat) l' : swap l i j = Some l' -> l' ≡ₚ l.
Proof.
  unfold swap. destruct (l !! j) as [xj|] eqn:Ej; [|done].
  destruct (l !! i) as [xi|] eqn:Ei; [|done].
  intros [= <-]. by apply Permutation_insert_swap.
Qed.

Lemma swap_is_Some l (i j : nat) :
  (i < length l)%nat -> (j < length l)%nat -> is_Some (swap l i j).
Proof.
  intros [xi Hi]%lookup_lt_is_Some [xj Hj]%lookup_lt_is_Some.
  unfold swap. rewrite Hi, Hj. eauto.
Qed.
End Slices.

End PyListFacts.

Section ShuffleFacts.
Context {R : Runtime} {A : Type}.
Implicit Types (x : list A) (g : rng_state).

(** Whatever the generator answers, a shuffle that ends normally has
    rearranged the list. *)
Lemma shuffle_loop_Permutation (i : nat) x g x' g' :
  shuffle_loop i x g = (Ok x', g') -> x' ≡ₚ x.
Proof.
  revert x g. induction i as [|i IH]; intros x g; cbn [shuffle_loop].
  - by intros [= <- _].
  - destruct (randbelow (S (S i)) g) as [j g1].
    destruct (PyList.swap x (S i) j) as [x1|] eqn:Es; [|done].
    intros H%IH. rewrite H. by eapply PyListFacts.swap_Permutation.
Qed.

(** With a generator that keeps to its range no index is out of bounds. *)
Lemma shuffle_loop_ok (i : nat) x g :
  randbelow_in_range R -> (i < length x)%nat \/ (i = 0)%nat ->
  exists x', (shuffle_loop i x g).1 = Ok x'.
Proof.
  intros Hr. revert x g. induction i as [|i IH]; intros x g Hi; cbn [shuffle_loop].
  - eauto.
  - pose proof (Hr (S (S i)) g ltac:(lia)) as Hj.
    destruct (randbelow (S (S i)) g) as [j g1]. cbn [fst] in Hj.
    destruct (PyListFacts.swap_is_Some x (S i) j) as [x1 Hs]; [lia..|].
    rewrite Hs. apply IH. left.
    apply PyListFacts.swap_Permutation, Permutation_length in Hs. lia.
Qed.
End ShuffleFacts.

(* ===================================================================== *)
(** * Directory listings                                                  *)
(* ===================================================================== *)

Module FSFacts.
Import FS.

Lemma child_name_Some (p : path) (entry : path * node) (n : string) :
  child_name p entry = Some n <-> entry.1 = n :: p.
Proof.
  unfold child_name. destruct entry as [[|n' parent] v]; cbn [fst].
  - split; [done|done].
  - destruct (decide (parent = p)) as [->|Hne].
    + split; [by intros [= ->]|by intros [= ->]].
    + split; [done|]. intros [= _ ?]. done.
Qed.


Lemma NoDup_omap_inj {A B} (f : A -> option B) (l : list A) :
  NoDup l ->
  (forall x y z, x ∈ l -> y ∈ l -> f x = Some z -> f y = Some z -> x = y) ->
  NoDup (omap f l).
Proof.
  induction 1 as [|x l Hx Hl IH]; intros Hinj; simpl.
  - constructor.
  - assert (NoDup (omap f l)).
    { apply IH. intros x' y' z ? ?. apply Hinj; by right. }
    destruct (f x) as [z|] eqn:Ez; [|done].
    constructor; [|done].
    intros (y & Hy & Efy)%list_elem_of_omap.
    assert (x = y) by (eapply Hinj; eauto; [by left|by right]).
    by subst y.
Qed.

(** No name is listed twice. *)
Lemma NoDup_children (fs : filesystem) (p : path) : NoDup (children fs p).
Proof.
  apply NoDup_omap_inj; [apply NoDup_map_to_list|].
  intros [k1 v1] [k2 v2] n H1 H2 E1%child_name_Some E2%child_name_Some.
  cbn [fst] in *. subst k1 k2.
  apply elem_of_map_to_list in H1, H2. congruence.
Qed.

End FSFacts.

(* ===================================================================== *)
(** * Running the monad                                                   *)
(* ===================================================================== *)

Section MonadFacts.
Context {R : Runtime}.

Lemma bind_unfold {A B} (m : M A) (k : A -> M B) (w : World) :
  (m ≫= k) w =
  match m w with
  | (Ok a, w') => k a w'
  | (Raise e, w') => (Raise e, w')
  end.
Proof. reflexivity. Qed.

Lemma bind_ok {A B} (m : M A) (k : A -> M B) (w w' : World) (a : A) :
  m w = (Ok a, w') -> (m ≫= k) w = k a w'.
Proof. intros H. by rewrite bind_unfold, H. Qed.

Lemma bind_raise {A B} (m : M A) (k : A -> M B) (w w' : World) (e : exn) :
  m w = (Raise e, w') -> (m ≫= k) w = (Raise e, w').
Proof. intros H. by rewrite bind_unfold, H. Qed.

Lemma ret_unfold {A} (a : A) (w : World) : (mret a : M A) w = (Ok a, w).
Proof. reflexivity. Qed.

Lemma os_listdir_dir (p : path) (w : World) :
  FS.is_dir (w_fs w) p = true ->
  os_listdir p w = (Ok (FS.children (w_fs w) p), w).
Proof.
  unfold FS.is_dir. intros H. unfold os_listdir. rewrite bind_unfold. cbn [get_fs].
  by destruct (FS.stat (w_fs w) p) as [[|]| |].
Qed.

(** [int(total * ratio)] for a list length and a ratio: no exception,
    and the result is the floor of the float product. *)
Lemma int_of_product_ratio (total : Z) (ratio : spec_float) (w : World) :
  0 <= total < 2 ^ 63 -> Float64.is_ratio ratio = true ->
  exists z, int_of_product total ratio w = (Ok z, w) /\ 0 <= z /\
    Float64.floor (Float64.mul (Float64.of_int total) ratio) = Some z.
Proof.
  intros Ht Hr. unfold int_of_product.
  pose proof (Float64Facts.of_int_cases total Ht) as Hx.
  pose proof (Float64Facts.mul_ratio_cases total ratio Ht Hr) as Hy.
  pose proof (Float64Facts.trunc_floor (Float64.mul (Float64.of_int total) ratio)) as Hf.
  pose proof (Float64Facts.trunc_nonneg (Float64.mul (Float64.of_int total) ratio)) as Hn.
  assert (Hinf : Float64.is_inf (Float64.of_int total) = false)
    by (by destruct (Float64.of_int total)).
  rewrite Hinf.
  destruct (Float64.mul (Float64.of_int total) ratio) as [s|s| |s m e] eqn:E;
    try done.
  - exists 0. by rewrite <- Hf.
  - rewrite <- Hf by done. cbn [Float64.trunc default].
    eexists. split; [done|]. split; [|done]. by apply Hn.
Qed.
End MonadFacts.

(* ===================================================================== *)
(** * The dataset splitter                                                *)
(* ===================================================================== *)

Section SplitFacts.
Context {R : Runtime}.

Lemma random_shuffle_unfold {A} (x : list A) (w : World) :
  random_shuffle x w =
  ((shuffle_loop (length x - 1) x (w_rng w)).1,
   set_rng (shuffle_loop (length x - 1) x (w_rng w)).2 w).
Proof. unfold random_shuffle. by destruct (shuffle_loop _ _ _). Qed.

(** What [split_images] returns on a directory, for two ratios: the
    shuffled listing cut at the floors of the two float products. *)
Lemma split_images_ok (image_dir : path) (tr vr : spec_float) (w : World) :
  randbelow_in_range R ->
  FS.is_dir (w_fs w) image_dir = true ->
  Float64.is_ratio tr = true -> Float64.is_ratio vr = true ->
  let images := filter (fun f => is_image_name f) (FS.children (w_fs w) image_dir) in
  let total := Z.of_nat (length images) in
  total < 2 ^ 63 ->
  exists (shuffled : list string) (g : rng_state) (train_end val_len : Z),
    shuffle_loop (length images - 1) images (w_rng w) = (Ok shuffled, g) /\
    Float64.floor (Float64.mul (Float64.of_int total) tr) = Some train_end /\
    Float64.floor (Float64.mul (Float64.of_int total) vr) = Some val_len /\
    0 <= train_end /\ 0 <= val_len /\
    split_images image_dir tr vr w =
      (Ok {| train := PyList.slice shuffled None (Some train_end);
             val := PyList.slice shuffled (Some train_end) (Some (train_end + val_len));
             test := PyList.slice shuffled (Some (train_end + val_len)) None |},
       set_rng g w).
Proof.
  intros Hr Hdir Htr Hvr images total Htot.
  destruct (shuffle_loop_ok (length images - 1) images (w_rng w) Hr)
    as [shuffled Hsh]; [lia|].
  destruct (shuffle_loop (length images - 1) images (w_rng w)) as [r g] eqn:Eloop.
  cbn [fst] in Hsh. subst r.
  assert (Hlen : length shuffled = length images)
    by (by apply shuffle_loop_Permutation, Permutation_length in Eloop).
  destruct (int_of_product_ratio total tr (set_rng g w)) as (te & Hte & Hte0 & Hfte);
    [lia|done|].
  destruct (int_of_product_ratio total vr (set_rng g w)) as (vl & Hvl & Hvl0 & Hfvl);
    [lia|done|].
  exists shuffled, g, te, vl. repeat (split; [done|]).
  unfold split_images.
  rewrite (bind_ok _ _ _ _ _ (os_listdir_dir image_dir w Hdir)).
  fold images. rewrite bind_unfold, random_shuffle_unfold, Eloop. cbn [fst snd].
  rewrite Hlen. fold total.
  rewrite (bind_ok _ _ _ _ _ Hte), (bind_ok _ _ _ _ _ Hvl). done.
Qed.

Lemma slice_from_zero {A} (l : list A) (a : Z) :
  PyList.slice l (Some 0) (Some a) = PyList.slice l None (Some a).
Proof.
  unfold PyList.slice.
  assert (PyList.clamp_index (Z.of_nat (length l)) 0 = 0) as ->; [|done].
  unfold PyList.clamp_index. change (0 <? 0) with false. cbv iota. lia.
Qed.

Lemma slice_to_len {A} (l : list A) (b : Z) :
  PyList.slice l (Some b) (Some (Z.of_nat (length l))) = PyList.slice l (Some b) None.
Proof.
  unfold PyList.slice.
  assert (PyList.clamp_index (Z.of_nat (length l)) (Z.of_nat (length l))
          = Z.of_nat (length l)) as ->; [|done].
  unfold PyList.clamp_index.
  destruct (Z.ltb_spec (Z.of_nat (length l)) 0); lia.
Qed.
End SplitFacts.

Section SplitClaims.
Context {R : Runtime}.

(** C1. Partition completeness: on a directory, with a generator that
    keeps to its range and valid split ratios, [split_images] returns;
    the three subsets have [n] names in all, no name is in two of them,
    and together they hold exactly the image names of the directory. *)
Theorem partition_complete
    (image_dir : path) (train_ratio val_ratio : spec_float) (w : World) :
  randbelow_in_range R ->
  FS.is_dir (w_fs w) image_dir = true ->
  Float64.valid_ratios train_ratio val_ratio = true ->
  let images := filter (fun f => is_image_name f) (FS.children (w_fs w) image_dir) in
  Z.of_nat (length images) < 2 ^ 63 ->
  exists (splits : Partition) (w' : World),
    split_images image_dir train_ratio val_ratio w = (Ok splits, w') /\
    (length (train splits) + length (val splits) + length (test splits)
     = length images)%nat /\
    (forall f, f ∈ train splits -> f ∉ val splits) /\
    (forall f, f ∈ train splits -> f ∉ test splits) /\
    (forall f, f ∈ val splits -> f ∉ test splits) /\
    (forall f, f ∈ train splits \/ f ∈ val splits \/ f ∈ test splits <-> f ∈ images) /\
    train splits ++ val splits ++ test splits ≡ₚ images.
Proof.
  intros Hr Hdir Hvalid images Hlen.
  destruct (Float64Facts.valid_ratios_each _ _ Hvalid) as [Htr Hvr].
  destruct (split_images_ok image_dir train_ratio val_ratio w Hr Hdir Htr Hvr Hlen)
    as (shuffled & g & te & vl & Hloop & _ & _ & Hte & Hvl & Hsplit).
  fold images in Hloop.
  eexists _, _. split; [exact Hsplit|]. cbn [train val test].
  pose proof (PyListFacts.slices_app shuffled te (te + vl) Hte ltac:(lia)) as Happ.
  pose proof (shuffle_loop_Permutation _ _ _ _ _ Hloop) as Hperm.
  set (tr := PyList.slice shuffled None (Some te)) in *.
  set (va := PyList.slice shuffled (Some te) (Some (te + vl))) in *.
  set (ts := PyList.slice shuffled (Some (te + vl)) None) in *.
  assert (Hall : tr ++ va ++ ts ≡ₚ images) by (by rewrite Happ).
  assert (Hnd : NoDup (tr ++ va ++ ts)).
  { rewrite Hall. apply NoDup_filter, FSFacts.NoDup_children. }
  apply NoDup_app in Hnd as (_ & Htr_out & Hnd).
  apply NoDup_app in Hnd as (_ & Hva_out & _).
  split; [rewrite <- (Permutation_length Hall), !length_app; lia|].
  split; [intros f Hf Hf'; apply (Htr_out f Hf), elem_of_app; by left|].
  split; [intros f Hf Hf'; apply (Htr_out f Hf), elem_of_app; by right|].
  split; [exact Hva_out|].
  split; [|done].
  intros f. rewrite <- Hall, !elem_of_app. done.
Qed.

(** C3. The cut points: [train] is [images[0:train_end]], [val] is
    [images[train_end:val_end]] and [test] is [images[val_end:n]] of the
    shuffled list, with [train_end = floor(n * train_ratio)] and
    [val_end = train_end + floor(n * val_ratio)], the products being the
    float products the script computes; ten images split 8, 1, 1 with
    the ratios 0.8 and 0.1. *)
Theorem split_cut_points
    (image_dir : path) (train_ratio val_ratio : spec_float) (w : World) :
  randbelow_in_range R ->
  FS.is_dir (w_fs w) image_dir = true ->
  Float64.is_ratio train_ratio = true -> Float64.is_ratio val_ratio = true ->
  let images := filter (fun f => is_image_name f) (FS.children (w_fs w) image_dir) in
  let n := Z.of_nat (length images) in
  n < 2 ^ 63 ->
  exists (shuffled : list string) (g : rng_state) (train_end val_end : Z),
    random_shuffle images w = (Ok shuffled, set_rng g w) /\
    Float64.floor (Float64.mul (Float64.of_int n) train_ratio) = Some train_end /\
    (exists v, Float64.floor (Float64.mul (Float64.of_int n) val_ratio) = Some v /\
               val_end = train_end + v) /\
    split_images image_dir train_ratio val_ratio w =
      (Ok {| train := PyList.slice shuffled (Some 0) (Some train_end);
             val := PyList.slice shuffled (Some train_end) (Some val_end);
             test := PyList.slice shuffled (Some val_end) (Some n) |},
       set_rng g w) /\
    (n = 10 -> train_ratio = Float64.lit_0_8 -> val_ratio = Float64.lit_0_1 ->
     length (PyList.slice shuffled (Some 0) (Some train_end)) = 8%nat /\
     length (PyList.slice shuffled (Some train_end) (Some val_end)) = 1%nat /\
     length (PyList.slice shuffled (Some val_end) (Some n)) = 1%nat).
Proof.
  intros Hr Hdir Htr Hvr images n Hlen.
  destruct (split_images_ok image_dir train_ratio val_ratio w Hr Hdir Htr Hvr Hlen)
    as (shuffled & g & te & vl & Hloop & Hfte & Hfvl & Hte & Hvl & Hsplit).
  fold images in Hloop, Hfte, Hfvl. fold n in Hfte, Hfvl.
  assert (Hn : Z.of_nat (length shuffled) = n).
  { apply shuffle_loop_Permutation, Permutation_length in Hloop. subst n. lia. }
  exists shuffled, g, te, (te + vl).
  split; [by rewrite random_shuffle_unfold, Hloop|].
  split; [done|]. split; [by exists vl|].
  rewrite slice_from_zero, <- Hn, slice_to_len. split; [done|].
  intros Hten -> ->. rewrite Hn in Hten. rewrite Hten in Hfte, Hfvl.
  vm_compute in Hfte. vm_compute in Hfvl.
  injection Hfte as <-. injection Hfvl as <-.
  rewrite PyListFacts.slice_prefix, PyListFacts.slice_middle,
    PyListFacts.slice_suffix by lia.
  rewrite !length_take, !length_drop. lia.
Qed.
End SplitClaims.

Section SplitDeterminism.
Context {R : Runtime}.

Lemma os_listdir_world (p : path) (w : World) :
  os_listdir p w = ((os_listdir p w).1, w).
Proof.
  unfold os_listdir. rewrite bind_unfold. cbn [get_fs].
  by destruct (FS.stat (w_fs w) p) as [[|]| |].
Qed.

Lemma os_listdir_set_rng (p : path) (g : rng_state) (w : World) :
  (os_listdir p (set_rng g w)).1 = (os_listdir p w).1.
Proof.
  unfold os_listdir. rewrite !bind_unfold. cbn [get_fs set_rng w_fs].
  by destruct (FS.stat (w_fs w) p) as [[|]| |].
Qed.

Lemma int_of_product_world (total : Z) (ratio : spec_float) (w w0 : World) :
  int_of_product total ratio w = ((int_of_product total ratio w0).1, w).
Proof.
  unfold int_of_product. destruct (Float64.is_inf _); [done|].
  by destruct (Float64.mul _ _).
Qed.

Lemma split_images_listed (image_dir : path) (tr vr : spec_float) (w : World) :
  split_images image_dir tr vr w =
  match (os_listdir image_dir w).1 with
  | Ok names => split_listed names tr vr w
  | Raise e => (Raise e, w)
  end.
Proof.
  unfold split_images. rewrite bind_unfold, os_listdir_world.
  by destruct (os_listdir image_dir w).1.
Qed.

(** The outcome of the split depends on the generator only. *)
Lemma split_listed_rng (names : list string) (tr vr : spec_float) (w1 w2 : World) :
  w_rng w1 = w_rng w2 ->
  (split_listed names tr vr w1).1 = (split_listed names tr vr w2).1.
Proof.
  intros Hg. unfold split_listed.
  rewrite !bind_unfold, !random_shuffle_unfold, Hg.
  destruct (shuffle_loop _ _ _) as [[shuffled|e] g]; cbn [fst snd]; [|done].
  rewrite !bind_unfold.
  rewrite (int_of_product_world _ tr (set_rng g w2) w1).
  rewrite (int_of_product_world _ tr (set_rng g w1) w1).
  destruct (int_of_product _ tr w1).1 as [te|e]; [|done].
  rewrite !bind_unfold.
  rewrite (int_of_product_world _ vr (set_rng g w2) w1).
  rewrite (int_of_product_world _ vr (set_rng g w1) w1).
  by destruct (int_of_product _ vr w1).1 as [vl|e].
Qed.

(** C4. Determinism: two runs that seed the generator alike and list the
    same names in the same order produce the same partition (or stop
    with the same exception), whatever else differs between them. *)
Theorem split_deterministic
    (seed : Z) (image_dir : path) (tr vr : spec_float) (w1 w2 : World) :
  (os_listdir image_dir w1).1 = (os_listdir image_dir w2).1 ->
  ((random_seed seed;; split_images image_dir tr vr) w1).1 =
  ((random_seed seed;; split_images image_dir tr vr) w2).1.
Proof.
  intros Hls. rewrite !bind_unfold. cbn [random_seed].
  rewrite !split_images_listed, !os_listdir_set_rng, Hls.
  destruct (os_listdir image_dir w2).1 as [names|e]; [|done].
  by apply split_listed_rng.
Qed.
End SplitDeterminism.

(* ===================================================================== *)
(** * The splitter on ten images                                          *)
(* ===================================================================== *)

Module SplitExamples.
Import TestDouble.

Lemma lcg_in_range tool : randbelow_in_range (runtime tool).
Proof.
  intros n g Hn. cbn. unfold lcg_randbelow. cbn [fst].
  pose proof (N.mod_lt (lcg_next g) (N.of_nat n)). lia.
Qed.

Lemma partition_complete_witness :
  let w := ten_world in
  let images := filter (fun f => is_image_name f) (FS.children (w_fs w) ["shots"]) in
  randbelow_in_range (runtime exec_ok) /\
  FS.is_dir (w_fs w) ["shots"] = true /\
  Float64.valid_ratios Float64.lit_0_8 Float64.lit_0_1 = true /\
  Z.of_nat (length images) < 2 ^ 63 /\
  exists (splits : Partition) (w' : World),
    split_images ["shots"] Float64.lit_0_8 Float64.lit_0_1 w = (Ok splits, w') /\
    (length (train splits) + length (val splits) + length (test splits)
     = length images)%nat /\
    (forall f, f ∈ train splits -> f ∉ val splits) /\
    (forall f, f ∈ train splits -> f ∉ test splits) /\
    (forall f, f ∈ val splits -> f ∉ test splits) /\
    (forall f, f ∈ train splits \/ f ∈ val splits \/ f ∈ test splits <-> f ∈ images) /\
    train splits ++ val splits ++ test splits ≡ₚ images.
Proof.
  cbv zeta.
  split; [apply lcg_in_range|].
  split; [vm_compute; reflexivity|].
  split; [vm_compute; reflexivity|].
  split; [vm_compute; reflexivity|].
  apply (partition_complete ["shots"] Float64.lit_0_8 Float64.lit_0_1 ten_world).
  - apply lcg_in_range.
  - vm_compute; reflexivity.
  - vm_compute; reflexivity.
  - vm_compute; reflexivity.
Defined.

Lemma split_cut_points_witness :
  let w := ten_world in
  let images := filter (fun f => is_image_name f) (FS.children (w_fs w) ["shots"]) in
  let n := Z.of_nat (length images) in
  randbelow_in_range (runtime exec_ok) /\
  FS.is_dir (w_fs w) ["shots"] = true /\
  Float64.is_ratio Float64.lit_0_8 = true /\
  Float64.is_ratio Float64.lit_0_1 = true /\
  n < 2 ^ 63 /\
  exists (shuffled : list string) (g : rng_state) (train_end val_end : Z),
    random_shuffle images w = (Ok shuffled, set_rng g w) /\
    Float64.floor (Float64.mul (Float64.of_int n) Float64.lit_0_8) = Some train_end /\
    (exists v, Float64.floor (Float64.mul (Float64.of_int n) Float64.lit_0_1) = Some v /\
               val_end = train_end + v) /\
    split_images ["shots"] Float64.lit_0_8 Float64.lit_0_1 w =
      (Ok {| train := PyList.slice shuffled (Some 0) (Some train_end);
             val := PyList.slice shuffled (Some train_end) (Some val_end);
             test := PyList.slice shuffled (Some val_end) (Some n) |},
       set_rng g w) /\
    (n = 10 -> Float64.lit_0_8 = Float64.lit_0_8 -> Float64.lit_0_1 = Float64.lit_0_1 ->
     length (PyList.slice shuffled (Some 0) (Some train_end)) = 8%nat /\
     length (PyList.slice shuffled (Some train_end) (Some val_end)) = 1%nat /\
     length (PyList.slice shuffled (Some val_end) (Some n)) = 1%nat).
Proof.
  cbv zeta.
  split; [apply lcg_in_range|].
  split; [vm_compute; reflexivity|].
  split; [vm_compute; reflexivity|].
  split; [vm_compute; reflexivity|].
  split; [vm_compute; reflexivity|].
  apply (split_cut_points ["shots"] Float64.lit_0_8 Float64.lit_0_1 ten_world).
  - apply lcg_in_range.
  - vm_compute; reflexivity.
  - vm_compute; reflexivity.
  - vm_compute; reflexivity.
  - vm_compute; reflexivity.
Defined.

Lemma split_deterministic_witness :
  (os_listdir ["shots"] ten_world).1 = (os_listdir ["shots"] ten_world_busy).1 /\
  ((random_seed 42;; split_images ["shots"] Float64.lit_0_8 Float64.lit_0_1) ten_world).1 =
  ((random_seed 42;; split_images ["shots"] Float64.lit_0_8 Float64.lit_0_1) ten_world_busy).1.
Proof.
  split; [vm_compute; reflexivity|].
  apply (split_deterministic 42 ["shots"] Float64.lit_0_8 Float64.lit_0_1
           ten_world ten_world_busy).
  vm_compute; reflexivity.
Defined.
End SplitExamples.

(* ===================================================================== *)
(** * The reconstruction pipeline                                         *)
(* ===================================================================== *)

Section PipelineSteps.
Context {R : Runtime}.

Lemma print_run (line : string) (w : World) :
  print line w = (Ok (), log_add [EvPrint line] w).
Proof. reflexivity. Qed.

(** A subprocess that exits with status 0. *)
Lemma subprocess_run_ok (cmd : list string) (w : World) x fs :
  exec cmd (w_ext w) (w_fs w) = (Exited 0, x, fs) ->
  subprocess_run cmd w = (Ok (), set_ext x (set_fs fs (log_add [EvExec cmd] w))).
Proof.
  intros H. unfold subprocess_run. rewrite bind_unfold. cbn [emit].
  unfold wait_process. cbn [w_ext w_fs]. by rewrite H.
Qed.

End PipelineSteps.

(** One step of a computation whose first action is known to succeed. *)
Tactic Notation "mstep" uconstr(H) := rewrite (bind_ok _ _ _ _ _ H); cbv beta.

(** The same step, for a subprocess call in the world the goal has reached. *)
Ltac mstep_run H :=
  match goal with
  | |- context [(subprocess_run ?c ≫= ?k) ?W] =>
      rewrite (bind_ok (subprocess_run c) k W _ _ (subprocess_run_ok c W _ _ H));
      cbv beta
  end.

Section PipelineFacts.
Context {R : Runtime}.

(** A subprocess that fails: [check=True] turns a non-zero status into
    [CalledProcessError]; a program that cannot be started is the
    [OSError] of the refusal, naming the program. *)
Lemma subprocess_run_failed (cmd : list string) (w : World) :
  (exec cmd (w_ext w) (w_fs w)).1.1 <> Exited 0 ->
  exists e w',
    subprocess_run cmd w = (Raise e, w') /\
    w_log w' = w_log w ++ [EvExec cmd] /\
    process_error cmd (exec cmd (w_ext w) (w_fs w)).1.1 = Some e /\
    match (exec cmd (w_ext w) (w_fs w)).1.1 with
    | Exited c => c <> 0
    | _ => w_fs w' = w_fs w
    end.
Proof.
  intros H. unfold subprocess_run. rewrite bind_unfold. cbn [emit].
  unfold wait_process. cbn [w_ext w_fs].
  destruct (exec cmd (w_ext w) (w_fs w)) as [[[c| | |n] x] fs];
    cbn [fst process_error] in *.
  - destruct (Z.eqb_spec c 0) as [->|Hc]; [done|].
    eexists _, _. split; [done|]. cbn. done.
  - eexists _, _. split; [done|]. cbn. done.
  - eexists _, _. split; [done|]. cbn. done.
  - eexists _, _. split; [done|]. cbn. done.
Qed.

(** The exception of a failed subprocess is an external tool error. *)
Lemma process_error_external cmd outcome e :
  process_error cmd outcome = Some e -> external_tool_error e = true.
Proof.
  destruct outcome as [c| | |n]; cbn [process_error].
  - destruct (c =? 0); [done|]. by intros [= <-].
  - by intros [= <-].
  - by intros [= <-].
  - by intros [= <-].
Qed.

(** C5, as amended.  When feature extraction fails, whether by a
    non-zero exit status or because colmap cannot be started, the
    pipeline stops with the exception of [subprocess.run]; the only
    command run is the feature extractor, so matching, mapping and
    conversion are never started.  On a non-zero status the exception
    carries the feature-extractor command and so names the stage; when
    colmap cannot be started the exception names the program and not the
    stage, which only the line printed last tells. *)
Theorem extraction_failure_halts
    (image_dir distorted_dir database_path sparse_dir : path) (w : World) :
  let cmd := cmd_extract image_dir database_path in
  let outcome := (exec cmd (w_ext w) (w_fs w)).1.1 in
  outcome <> Exited 0 ->
  exists e w',
    run_colmap_pipeline image_dir distorted_dir database_path sparse_dir w = (Raise e, w') /\
    process_error cmd outcome = Some e /\
    external_tool_error e = true /\
    w_log w' = w_log w ++ [EvPrint "Running feature extraction..."; EvExec cmd] /\
    executed (w_log w') = executed (w_log w) ++ [cmd] /\
    last (printed (w_log w')) = Some "Running feature extraction..." /\
    match outcome with
    | Exited c =>
        e = CalledProcessError c cmd /\ c <> 0 /\ names_stage "feature_extractor" e
    | NotFound =>
        e = FileNotFoundError "colmap" /\ ~ names_stage "feature_extractor" e
    | NotPermitted =>
        e = PermissionError "colmap" /\ ~ names_stage "feature_extractor" e
    | ExecFailed errno =>
        e = OSError errno "colmap" /\ ~ names_stage "feature_extractor" e
    end.
Proof.
  intros cmd outcome Hfail. unfold run_colmap_pipeline.
  mstep (print_run "Running feature extraction..." w).
  destruct (subprocess_run_failed cmd (log_add [EvPrint "Running feature extraction..."] w))
    as (e & w' & Hrun & Hlog & Herr & Hout); [done|].
  cbn [log_add w_ext w_fs w_log] in Hlog, Herr, Hout. fold outcome in Herr, Hout.
  exists e, w'. split; [by rewrite (bind_raise _ _ _ _ _ Hrun)|].
  rewrite Hlog, <- app_assoc. cbn [app].
  split; [done|].
  split; [by apply (process_error_external cmd outcome)|].
  split; [done|].
  split; [unfold executed; by rewrite omap_app|].
  split; [unfold printed; by rewrite omap_app, last_app|].
  assert (Hno : forall f, f = "colmap" -> "feature_extractor" ∉ [f]).
  { intros f -> [=]%list_elem_of_singleton. }
  destruct outcome as [c| | |n]; cbn [process_error] in Herr.
  - destruct (Z.eqb_spec c 0) as [->|Hc]; [done|]. injection Herr as <-.
    split; [done|]. split; [done|].
    unfold names_stage, reported_words, cmd, cmd_extract.
    apply list_elem_of_further, list_elem_of_here.
  - injection Herr as <-. split; [done|]. by apply Hno.
  - injection Herr as <-. split; [done|]. by apply Hno.
  - injection Herr as <-. split; [done|]. by apply Hno.
Qed.

(** C6. When the three stages succeed and the mapper leaves no
    [sparse_dir/0], the pipeline returns normally and the model converter
    is never run: the commands run are the extractor, the matcher and the
    mapper. *)
Theorem no_model_no_conversion
    (image_dir distorted_dir database_path sparse_dir : path) (w : World)
    x1 fs1 x2 fs2 x3 fs3 :
  exec (cmd_extract image_dir database_path) (w_ext w) (w_fs w) = (Exited 0, x1, fs1) ->
  exec (cmd_match database_path) x1 fs1 = (Exited 0, x2, fs2) ->
  exec (cmd_mapper image_dir database_path sparse_dir) x2 fs2 = (Exited 0, x3, fs3) ->
  FS.exists_ fs3 ("0" :: sparse_dir) = false ->
  exists w',
    run_colmap_pipeline image_dir distorted_dir database_path sparse_dir w = (Ok PyNone, w') /\
    executed (w_log w') =
      executed (w_log w) ++
      [cmd_extract image_dir database_path; cmd_match database_path;
       cmd_mapper image_dir database_path sparse_dir] /\
    (cmd_convert ("0" :: sparse_dir)
       ∉ drop (length (executed (w_log w))) (executed (w_log w'))) /\
    last (printed (w_log w')) = Some "COLMAP processing complete" /\
    w_fs w' = fs3.
Proof.
  intros H1 H2 H3 Hno. unfold run_colmap_pipeline.
  mstep (print_run "Running feature extraction..." w).
  mstep_run H1.
  mstep (print_run "Running feature matching..." _).
  mstep_run H2.
  mstep (print_run "Running sparse reconstruction..." _).
  mstep_run H3.
  unfold path_exists. rewrite !bind_unfold. cbn [get_fs set_ext set_fs log_add w_fs].
  unfold mret, M_ret. rewrite Hno. cbv beta iota.
  rewrite !bind_unfold, print_run. cbv beta iota.
  eexists. split; [done|]. cbn [log_add set_ext set_fs w_log w_fs].
  unfold executed, printed. rewrite !omap_app. cbn [omap list_omap].
  rewrite !app_nil_r, <- !app_assoc. cbn [app].
  split; [done|]. split; [|by rewrite last_app].
  rewrite drop_app_length. unfold cmd_convert, cmd_extract, cmd_match, cmd_mapper.
  rewrite !elem_of_cons, elem_of_nil. intros [?|[?|[?|[]]]]; discriminate.
Qed.
End PipelineFacts.

Module PipelineExamples.
Import TestDouble.

(** Feature extraction exits with status 1. *)
Lemma extraction_failure_halts_witness :
  let R := runtime (exec_failing "feature_extractor" 1) in
  let w := world R photos_fs 42%N tt in
  let cmd := cmd_extract ["input"; "out"] ["database.db"; "distorted"; "out"] in
  (exec cmd (w_ext w) (w_fs w)).1.1 <> Exited 0 /\
  exists e w',
    run_colmap_pipeline ["input"; "out"] ["distorted"; "out"]
      ["database.db"; "distorted"; "out"] ["sparse"; "distorted"; "out"] w = (Raise e, w') /\
    process_error cmd (exec cmd (w_ext w) (w_fs w)).1.1 = Some e /\
    external_tool_error e = true /\
    w_log w' = w_log w ++ [EvPrint "Running feature extraction..."; EvExec cmd] /\
    executed (w_log w') = executed (w_log w) ++ [cmd] /\
    last (printed (w_log w')) = Some "Running feature extraction..." /\
    match (exec cmd (w_ext w) (w_fs w)).1.1 with
    | Exited c =>
        e = CalledProcessError c cmd /\ c <> 0 /\ names_stage "feature_extractor" e
    | NotFound =>
        e = FileNotFoundError "colmap" /\ ~ names_stage "feature_extractor" e
    | NotPermitted =>
        e = PermissionError "colmap" /\ ~ names_stage "feature_extractor" e
    | ExecFailed errno =>
        e = OSError errno "colmap" /\ ~ names_stage "feature_extractor" e
    end.
Proof.
  cbv zeta.
  split; [vm_compute; discriminate|].
  apply (@extraction_failure_halts (runtime (exec_failing "feature_extractor" 1))).
  vm_compute; discriminate.
Defined.

(** Feature extraction cannot be started, there being no colmap: the
    run stops with an external tool error after the one command, and the
    reported failure does not name the stage. *)
Lemma failure_names_only_the_program :
  let R := runtime (exec_missing "feature_extractor") in
  let w := world R reused_fs 42%N tt in
  let cmd := cmd_extract ["input"; "out"] ["database.db"; "distorted"; "out"] in
  let res := run_colmap_pipeline ["input"; "out"] ["distorted"; "out"]
               ["database.db"; "distorted"; "out"] ["sparse"; "distorted"; "out"] w in
  (exec cmd (w_ext w) (w_fs w)).1.1 <> Exited 0 /\
  res.1 = Raise (FileNotFoundError "colmap") /\
  external_tool_error (FileNotFoundError "colmap") = true /\
  executed (w_log res.2) = [cmd] /\
  reported_words (FileNotFoundError "colmap") = ["colmap"] /\
  ~ names_stage "feature_extractor" (FileNotFoundError "colmap").
Proof.
  cbv zeta. split; [vm_compute; discriminate|].
  split; [vm_compute; reflexivity|]. split; [reflexivity|].
  split; [vm_compute; reflexivity|]. split; [reflexivity|].
  unfold names_stage. cbn [reported_words].
  by intros [=]%list_elem_of_singleton.
Qed.

(** The same with a colmap that is there and may not be executed. *)
Lemma failure_of_unexecutable_program :
  let R := runtime (exec_unexecutable "colmap") in
  let w := world R reused_fs 42%N tt in
  let res := run_colmap_pipeline ["input"; "out"] ["distorted"; "out"]
               ["database.db"; "distorted"; "out"] ["sparse"; "distorted"; "out"] w in
  res.1 = Raise (PermissionError "colmap") /\
  printed (w_log res.2) = ["Running feature extraction..."] /\
  executed (w_log res.2)
    = [cmd_extract ["input"; "out"] ["database.db"; "distorted"; "out"]].
Proof. cbv zeta. repeat split; vm_compute; reflexivity. Qed.

(** All stages succeed and the mapper writes no model. *)
Lemma no_model_no_conversion_witness :
  let R := runtime exec_ok in
  let w := world R photos_fs 42%N tt in
  let image_dir := ["input"; "out"] in
  let distorted_dir := ["distorted"; "out"] in
  let database_path := ["database.db"; "distorted"; "out"] in
  let sparse_dir := ["sparse"; "distorted"; "out"] in
  exec (cmd_extract image_dir database_path) (w_ext w) (w_fs w) = (Exited 0, tt, photos_fs) /\
  exec (cmd_match database_path) tt photos_fs = (Exited 0, tt, photos_fs) /\
  exec (cmd_mapper image_dir database_path sparse_dir) tt photos_fs
    = (Exited 0, tt, photos_fs) /\
  FS.exists_ photos_fs ("0" :: sparse_dir) = false /\
  exists w',
    run_colmap_pipeline image_dir distorted_dir database_path sparse_dir w = (Ok PyNone, w') /\
    executed (w_log w') =
      executed (w_log w) ++
      [cmd_extract image_dir database_path; cmd_match database_path;
       cmd_mapper image_dir database_path sparse_dir] /\
    (cmd_convert ("0" :: sparse_dir)
       ∉ drop (length (executed (w_log w))) (executed (w_log w'))) /\
    last (printed (w_log w')) = Some "COLMAP processing complete" /\
    w_fs w' = photos_fs.
Proof.
  cbv zeta.
  split; [reflexivity|]. split; [reflexivity|]. split; [reflexivity|].
  split; [vm_compute; reflexivity|].
  apply (@no_model_no_conversion (runtime exec_ok) _ _ _ _ _ tt photos_fs tt photos_fs tt).
  - reflexivity.
  - reflexivity.
  - reflexivity.
  - vm_compute; reflexivity.
Defined.
End PipelineExamples.

(* ===================================================================== *)
(** * Creating directories                                                *)
(* ===================================================================== *)

Module MkdirFacts.
Import FS.

Lemma extends_refl fs : extends fs fs.
Proof. by intros q nd. Qed.

Lemma extends_trans fs1 fs2 fs3 : extends fs1 fs2 -> extends fs2 fs3 -> extends fs1 fs3.
Proof. intros H12 H23 q nd H. by apply H23, H12. Qed.

Lemma stat_Found_cons fs n parent nd :
  stat fs (n :: parent) = Found nd <->
  stat fs parent = Found Dir /\ fs !! (n :: parent) = Some nd.
Proof.
  cbn [stat]. destruct (stat fs parent) as [[|]| |]; try (split; [done|by intros [? _]]).
  destruct (fs !! (n :: parent)); split; try done.
  - by intros [= ->].
  - by intros [_ [= ->]].
  - by intros [_ ?].
Qed.

(** A new entry hides nothing. *)
Lemma extends_insert_new fs p x : fs !! p = None -> extends fs (<[p := x]> fs).
Proof.
  intros Hp q. induction q as [|n parent IH]; intros nd; [done|].
  rewrite !stat_Found_cons. intros [Hpar Hq]. split; [by apply IH|].
  rewrite lookup_insert_ne; [done|]. intros ->. congruence.
Qed.

Lemma os_mkdir_Ok p fs fs' :
  os_mkdir p fs = Ok fs' ->
  exists n parent, p = n :: parent /\ stat fs parent = Found Dir /\
    fs !! p = None /\ fs' = <[p := Dir]> fs.
Proof.
  unfold os_mkdir. destruct p as [|n parent]; [done|].
  destruct (stat fs parent) as [[|]| |] eqn:Es; try done.
  destruct (fs !! (n :: parent)) eqn:El; [done|].
  intros [= <-]. by exists n, parent.
Qed.

Lemma os_mkdir_post p fs fs' :
  os_mkdir p fs = Ok fs' -> is_dir fs' p = true /\ extends fs fs'.
Proof.
  intros (n & parent & -> & Hpar & Hnone & ->)%os_mkdir_Ok.
  pose proof (extends_insert_new fs (n :: parent) Dir Hnone) as Hext.
  split; [|done]. unfold is_dir.
  assert (stat (<[n :: parent := Dir]> fs) (n :: parent) = Found Dir) as ->; [|done].
  apply stat_Found_cons. split; [by apply Hext|]. apply lookup_insert_eq.
Qed.

(** On a directory that is there, [os.mkdir] raises [FileExistsError]. *)
Lemma os_mkdir_is_dir p fs :
  is_dir fs p = true -> os_mkdir p fs = Raise (FileExistsError (path_str p)).
Proof.
  unfold is_dir, os_mkdir. destruct p as [|n parent]; [done|].
  destruct (stat fs (n :: parent)) as [[|]| |] eqn:Es; try done.
  apply stat_Found_cons in Es as [-> ->]. done.
Qed.

Lemma mkdir_flat_is_dir p fs : is_dir fs p = true -> mkdir_flat p true fs = Ok fs.
Proof.
  intros H. unfold mkdir_flat. rewrite (os_mkdir_is_dir p fs H). by rewrite H.
Qed.

Lemma mkdir_parents_is_dir p fs : is_dir fs p = true -> mkdir_parents p true fs = Ok fs.
Proof.
  intros H. destruct p; cbn [mkdir_parents]; rewrite (os_mkdir_is_dir _ fs H); by rewrite H.
Qed.

Lemma mkdir_flat_post p fs fs' :
  mkdir_flat p true fs = Ok fs' -> is_dir fs' p = true /\ extends fs fs'.
Proof.
  unfold mkdir_flat. destruct (os_mkdir p fs) as [fs1|e] eqn:E.
  - intros [= <-]. by apply os_mkdir_post.
  - destruct e; try done; cbn [andb];
      destruct (is_dir fs p) eqn:Ed; try done;
      intros [= <-]; (split; [done|apply extends_refl]).
Qed.

Lemma mkdir_parents_post p fs fs' :
  mkdir_parents p true fs = Ok fs' -> is_dir fs' p = true /\ extends fs fs'.
Proof.
  revert fs fs'. induction p as [|n parent IH]; intros fs fs'.
  - cbn. intros [= <-]. split; [done|apply extends_refl].
  - cbn [mkdir_parents]. destruct (os_mkdir (n :: parent) fs) as [fs1|e] eqn:E.
    + intros [= <-]. by apply os_mkdir_post.
    + destruct e; try done; cbn [andb];
        try (destruct (is_dir fs (n :: parent)) eqn:Ed; try done;
             intros [= <-]; (split; [done|apply extends_refl])).
      destruct (mkdir_parents parent true fs) as [fs1|e] eqn:Ep; [|done].
      apply IH in Ep as [_ Hext1]. intros [Hd Hext2]%mkdir_flat_post.
      split; [done|by eapply extends_trans].
Qed.

Lemma extends_is_dir fs fs' p : extends fs fs' -> is_dir fs p = true -> is_dir fs' p = true.
Proof.
  unfold is_dir. intros Hext H.
  destruct (stat fs p) as [[|]| |] eqn:Es; try done. by rewrite (Hext _ _ Es).
Qed.

End MkdirFacts.

Section LayoutFacts.
Context {R : Runtime}.

Lemma bind_Ok_inv {A B} (m : M A) (k : A -> M B) (w w' : World) (b : B) :
  (m ≫= k) w = (Ok b, w') -> exists a w1, m w = (Ok a, w1) /\ k a w1 = (Ok b, w').
Proof.
  rewrite bind_unfold. destruct (m w) as [[a|e] w1]; [|done]. intros H. by exists a, w1.
Qed.

Lemma set_fs_same (w : World) : set_fs (w_fs w) w = w.
Proof. by destruct w. Qed.

Lemma lift_fs_Ok (op : filesystem -> result filesystem) (w : World) fs' :
  op (w_fs w) = Ok fs' -> lift_fs op w = (Ok (), set_fs fs' w).
Proof. intros H. unfold lift_fs. by rewrite H. Qed.

Lemma lift_fs_Ok_inv (op : filesystem -> result filesystem) (w w' : World) u :
  lift_fs op w = (Ok u, w') -> exists fs', op (w_fs w) = Ok fs' /\ w' = set_fs fs' w.
Proof.
  unfold lift_fs. destruct (op (w_fs w)) as [fs'|e]; [|done].
  intros [= _ <-]. by exists fs'.
Qed.

(** On a skeleton that is in place [build_layout] changes nothing. *)
Lemma build_layout_has_layout (base_dir : path) (w : World) :
  has_layout base_dir (w_fs w) = true -> build_layout base_dir w = (Ok (), w).
Proof.
  unfold has_layout. rewrite !andb_true_iff. intros [[[Hb Hi] Hd] Hs].
  unfold build_layout, path_mkdir, FS.path_mkdir. cbv zeta.
  mstep (lift_fs_Ok _ w _ (MkdirFacts.mkdir_parents_is_dir _ _ Hb)).
  rewrite set_fs_same.
  mstep (lift_fs_Ok _ w _ (MkdirFacts.mkdir_flat_is_dir _ _ Hi)).
  rewrite set_fs_same.
  mstep (lift_fs_Ok _ w _ (MkdirFacts.mkdir_flat_is_dir _ _ Hd)).
  rewrite set_fs_same.
  rewrite (lift_fs_Ok (fun fs => FS.mkdir_flat _ true fs) w _
             (MkdirFacts.mkdir_flat_is_dir _ _ Hs)).
  by rewrite set_fs_same.
Qed.

(** A run of [build_layout] that returns leaves the skeleton in place,
    keeps every node there was, and touches the filesystem only. *)
Lemma build_layout_post (base_dir : path) (w w1 : World) :
  build_layout base_dir w = (Ok (), w1) ->
  has_layout base_dir (w_fs w1) = true /\ FS.extends (w_fs w) (w_fs w1) /\
  w1 = set_fs (w_fs w1) w.
Proof.
  unfold build_layout, path_mkdir, FS.path_mkdir. cbv zeta.
  intros ([] & wa & (fa & Ha & ->)%lift_fs_Ok_inv & H)%bind_Ok_inv.
  apply bind_Ok_inv in H as ([] & wb & (fb & Hb & ->)%lift_fs_Ok_inv & H).
  apply bind_Ok_inv in H as ([] & wc & (fc & Hc & ->)%lift_fs_Ok_inv & H).
  apply lift_fs_Ok_inv in H as (fd & Hd & ->).
  cbn [set_fs w_fs] in *.
  apply MkdirFacts.mkdir_parents_post in Ha as [Da Ea].
  apply MkdirFacts.mkdir_flat_post in Hb as [Db Eb].
  apply MkdirFacts.mkdir_flat_post in Hc as [Dc Ec].
  apply MkdirFacts.mkdir_flat_post in Hd as [Dd Ed].
  split; [|split; [|done]].
  - unfold has_layout. rewrite !andb_true_iff. repeat split.
    + eauto using MkdirFacts.extends_is_dir.
    + eauto using MkdirFacts.extends_is_dir.
    + eauto using MkdirFacts.extends_is_dir.
    + done.
  - eauto using MkdirFacts.extends_trans.
Qed.

(** C9. Idempotent layout creation: on an output directory that has the
    layout, be it found there or left by an earlier run, [build_layout]
    returns without raising and leaves the world as it is; no directory is
    added, no file removed or emptied. *)
Theorem layout_idempotent (base_dir : path) (w : World) :
  has_layout base_dir (w_fs w) = true \/
    (exists w0, build_layout base_dir w0 = (Ok (), w)) ->
  build_layout base_dir w = (Ok (), w).
Proof.
  intros [H|[w0 H]]; apply build_layout_has_layout; [done|].
  by apply build_layout_post in H as [? _].
Qed.
End LayoutFacts.

Module LayoutExamples.
Import TestDouble.

Lemma layout_idempotent_witness :
  let R := runtime exec_ok in
  let w := world R reused_fs 42%N tt in
  (has_layout ["out"] (w_fs w) = true \/
     (exists w0, build_layout ["out"] w0 = (Ok (), w))) /\
  build_layout ["out"] w = (Ok (), w).
Proof.
  cbv zeta.
  assert (H : has_layout ["out"] reused_fs = true) by (vm_compute; reflexivity).
  split; [by left|].
  apply (@layout_idempotent (runtime exec_ok) ["out"] (world (runtime exec_ok) reused_fs 42%N tt)).
  by left.
Defined.
End LayoutExamples.

(* ===================================================================== *)
(** * The image collector                                                 *)
(* ===================================================================== *)

Module CopyFacts.
Import FS.

Lemma cons_neq_self {A} (x : A) (l : list A) : x :: l <> l.
Proof. intros H. apply (f_equal length) in H. cbn in H. lia. Qed.

Lemma is_dir_cons fs n parent :
  is_dir fs (n :: parent) = true <->
  stat fs parent = Found Dir /\ fs !! (n :: parent) = Some Dir.
Proof.
  unfold is_dir. rewrite <- MkdirFacts.stat_Found_cons.
  destruct (stat fs (n :: parent)) as [[|]| |]; split; by try intros [=].
Qed.

(** Binding a path that was not a directory leaves every other node that
    resolved where it was. *)
Lemma stat_insert_other fs p x q nd :
  fs !! p <> Some Dir -> q <> p ->
  stat fs q = Found nd -> stat (<[p := x]> fs) q = Found nd.
Proof.
  intros Hp. revert nd. induction q as [|n parent IH]; intros nd Hq; [done|].
  rewrite !MkdirFacts.stat_Found_cons. intros [Hpar Hl]. split.
  - destruct parent as [|n' pp]; [done|]. apply IH; [|done].
    intros <-. apply MkdirFacts.stat_Found_cons in Hpar as [_ ?]. done.
  - by rewrite lookup_insert_ne.
Qed.

(** Copying a regular file into a directory under a name that is not a
    directory there. *)
Lemma copy2_file fs src n input_dir d m :
  src <> n :: input_dir ->
  stat fs src = Found (File d m) ->
  is_dir fs input_dir = true ->
  is_dir fs (n :: input_dir) = false ->
  copy2 src (n :: input_dir) fs = Ok (<[n :: input_dir := File d m]> fs).
Proof.
  intros Hne Hsrc Hin Hdst. unfold copy2. rewrite Hdst.
  rewrite bool_decide_eq_false_2 by done. cbn [andb]. rewrite Hsrc.
  unfold is_dir in Hin. destruct (stat fs input_dir) as [[|]| |] eqn:Ei; try done.
  destruct (fs !! (n :: input_dir)) as [[|]|] eqn:El; try done.
  assert (is_dir fs (n :: input_dir) = true) by (by apply is_dir_cons).
  congruence.
Qed.

End CopyFacts.

Section CollectorFacts.
Context {R : Runtime}.
Import FS.

Lemma shutil_copy2_Ok (src dst : path) (w : World) fs' :
  copy2 src dst (w_fs w) = Ok fs' ->
  shutil_copy2 src dst w = (Ok (), log_add [EvCopy src dst] (set_fs fs' w)).
Proof.
  intros H. unfold shutil_copy2. by mstep (lift_fs_Ok _ w _ H).
Qed.

(** The copy loop over the names of a source directory: every recognised
    name is copied, in order, with contents and metadata; nothing else
    changes. *)
Lemma copy_loop_spec (source input_dir : path) (names : list string) :
  source <> input_dir ->
  forall w : World,
    is_dir (w_fs w) input_dir = true ->
    (forall n, n ∈ names -> is_recognised n ->
       is_file (w_fs w) (n :: source) = true /\
       is_dir (w_fs w) (n :: input_dir) = false) ->
    exists fs',
      copy_loop ((fun n => n :: source) <$> names) input_dir w =
        (Ok (), log_add ((fun n => EvCopy (n :: source) (n :: input_dir)) <$>
                           filter (fun n => is_recognised n) names)
                  (set_fs fs' w)) /\
      (forall n, n ∈ names -> is_recognised n ->
         fs' !! (n :: input_dir) = w_fs w !! (n :: source)) /\
      (forall q, (forall n, n ∈ names -> is_recognised n -> q <> n :: input_dir) ->
         fs' !! q = w_fs w !! q).
Proof.
  intros Hdirs. induction names as [|n names IH]; intros w Hin Hfiles.
  - exists (w_fs w). split; [|split; [|done]].
    { destruct w. cbn. unfold log_add, set_fs. cbn. by rewrite app_nil_r. }
    intros n Hn. by apply elem_of_nil in Hn.
  - cbn [fmap list_fmap copy_loop]. unfold has_image_suffix. cbn [path_name].
    destruct (is_recognised n) eqn:Er.
    + destruct (Hfiles n) as [Hsrc Hdst]; [by left|by rewrite Er|].
      unfold is_file in Hsrc.
      destruct (stat (w_fs w) (n :: source)) as [[|d m]| |] eqn:Es; try done.
      assert (Hcopy : copy2 (n :: source) (n :: input_dir) (w_fs w)
                      = Ok (<[n :: input_dir := File d m]> (w_fs w))).
      { apply CopyFacts.copy2_file; try done. congruence. }
      mstep (shutil_copy2_Ok _ _ w _ Hcopy).
      set (fs1 := <[n :: input_dir := File d m]> (w_fs w)).
      set (w1 := log_add _ (set_fs fs1 w)).
      assert (Hnotdir : w_fs w !! (n :: input_dir) <> Some Dir).
      { intros Hl. unfold is_dir in Hin.
        destruct (stat (w_fs w) input_dir) as [[|]| |] eqn:Ei; try done.
        assert (is_dir (w_fs w) (n :: input_dir) = true)
          by (by apply CopyFacts.is_dir_cons). congruence. }
      assert (Hkeep : forall q nd, q <> n :: input_dir ->
                stat (w_fs w) q = Found nd -> stat fs1 q = Found nd).
      { intros q nd Hq. by apply CopyFacts.stat_insert_other. }
      destruct (IH w1) as (fs' & Hloop & Hcopied & Hframe).
      { cbn [w1 log_add set_fs w_fs]. unfold is_dir in *.
        destruct (stat (w_fs w) input_dir) as [[|]| |] eqn:Ei; try done.
        rewrite (Hkeep input_dir Dir); [done| |done].
        intros H. symmetry in H. by apply CopyFacts.cons_neq_self in H. }
      { cbn [w1 log_add set_fs w_fs]. intros n' Hn' Hr'.
        destruct (Hfiles n') as [Hs' Hd']; [by right|done|]. split.
        - unfold is_file in *.
          destruct (stat (w_fs w) (n' :: source)) as [[|d' m']| |] eqn:Es'; try done.
          rewrite (Hkeep (n' :: source) (File d' m')); [done| |done].
          congruence.
        - destruct (is_dir fs1 (n' :: input_dir)) eqn:Ed1; [|done].
          apply CopyFacts.is_dir_cons in Ed1 as [_ Ed1].
          destruct (decide (n' = n)) as [->|Hnn].
          + subst fs1. by rewrite lookup_insert_eq in Ed1.
          + subst fs1. rewrite lookup_insert_ne in Ed1 by congruence.
            unfold is_dir in Hin.
            destruct (stat (w_fs w) input_dir) as [[|]| |] eqn:Ei; try done.
            assert (is_dir (w_fs w) (n' :: input_dir) = true)
              by (by apply CopyFacts.is_dir_cons). congruence. }
      exists fs'. split; [|split].
      * rewrite Hloop. rewrite filter_cons_True by (by rewrite Er).
        cbn [fmap list_fmap]. subst w1. unfold log_add, set_fs.
        cbn [w_fs w_rng w_ext w_log]. by rewrite <- app_assoc.
      * intros n' Hn' Hr'. cbn [w1 log_add set_fs w_fs] in *.
        destruct (decide (n' ∈ names)) as [Hel|Hnel].
        -- rewrite (Hcopied n' Hel Hr'). subst fs1.
           rewrite lookup_insert_ne; [done|]. congruence.
        -- apply elem_of_cons in Hn' as [->|?]; [|done].
           rewrite Hframe.
           ++ subst fs1. rewrite lookup_insert_eq.
              by apply MkdirFacts.stat_Found_cons in Es as [_ ->].
           ++ intros n' Hel _ [= ->]. done.
      * intros q Hq. cbn [w1 log_add set_fs w_fs] in *. rewrite Hframe.
        -- subst fs1. rewrite lookup_insert_ne; [done|].
           intros <-. eapply (Hq n); [by left|by rewrite Er|done].
        -- intros n' Hel Hr'. apply Hq; [by right|done].
    + rewrite bind_unfold, ret_unfold.
      destruct (IH w) as (fs' & Hloop & Hcopied & Hframe); [done| |].
      { intros n' Hn'. apply Hfiles. by right. }
      exists fs'. split; [|split].
      * rewrite Hloop. by rewrite filter_cons_False by (rewrite Er; intros []).
      * intros n' [->|Hel]%elem_of_cons Hr'; [by rewrite Er in Hr'|]. by apply Hcopied.
      * intros q Hq. apply Hframe. intros n' Hel. apply Hq. by right.
Qed.
End CollectorFacts.

Section CollectorClaims.
Context {R : Runtime}.
Import FS.

Lemma copied_copy_events (source input_dir : path) (names : list string) :
  copied ((fun n => EvCopy (n :: source) (n :: input_dir)) <$> names) =
  (fun n => (n :: source, n :: input_dir)) <$> names.
Proof. induction names as [|n names IH]; [done|]. cbn. by f_equal. Qed.

(** C7. The collector copies into the input location exactly the direct
    entries of the source whose extension, lower-cased, is .png, .jpg or
    .jpeg, each under its own name and with its contents and metadata;
    every other path is as it was, so nothing else is copied; of a.jpg,
    b.PNG, c.txt and d.bmp it copies a.jpg and b.PNG.  The recognised
    entries have to be regular files and their names must not be
    directories in the input location: otherwise [shutil.copy2] raises. *)
Theorem collector_copies_recognised (source input_dir : path) (w : World) :
  source <> input_dir ->
  is_dir (w_fs w) source = true ->
  is_dir (w_fs w) input_dir = true ->
  (forall n, n ∈ children (w_fs w) source -> is_recognised n ->
     is_file (w_fs w) (n :: source) = true /\
     is_dir (w_fs w) (n :: input_dir) = false) ->
  let names := filter (fun n => is_recognised n) (children (w_fs w) source) in
  exists w' : World,
    copy_images source input_dir w = (Ok (), w') /\
    copied (w_log w') =
      copied (w_log w) ++ ((fun n => (n :: source, n :: input_dir)) <$> names) /\
    (forall n, n ∈ names ->
       exists d m, w_fs w !! (n :: source) = Some (File d m) /\
                   w_fs w' !! (n :: input_dir) = Some (File d m)) /\
    (forall q, (forall n, n ∈ names -> q <> n :: input_dir) ->
       w_fs w' !! q = w_fs w !! q) /\
    (children (w_fs w) source ≡ₚ ["a.jpg"; "b.PNG"; "c.txt"; "d.bmp"] ->
     names ≡ₚ ["a.jpg"; "b.PNG"]).
Proof.
  intros Hne Hsrc Hin Hfiles names.
  destruct (copy_loop_spec source input_dir (children (w_fs w) source) Hne w Hin Hfiles)
    as (fs' & Hloop & Hcopied & Hframe).
  eexists. split; [|split; [|split; [|split]]].
  - unfold copy_images, path_glob_star. rewrite !bind_unfold. cbn [get_fs].
    rewrite ret_unfold, Hsrc. exact Hloop.
  - cbn [log_add w_log set_fs]. unfold copied at 1. rewrite omap_app.
    f_equal. apply copied_copy_events.
  - intros n [Hr Hn]%list_elem_of_filter. cbn [log_add set_fs w_fs].
    rewrite (Hcopied n Hn Hr).
    destruct (Hfiles n Hn Hr) as [Hf _]. unfold is_file in Hf.
    destruct (stat (w_fs w) (n :: source)) as [[|d m]| |] eqn:Es; try done.
    apply MkdirFacts.stat_Found_cons in Es as [_ Es]. by exists d, m.
  - intros q Hq. cbn [log_add set_fs w_fs]. apply Hframe.
    intros n Hn Hr. apply Hq. by apply list_elem_of_filter.
  - intros Hperm. subst names. by rewrite Hperm.
Qed.

(** C8, as amended.  The copy loop is a statement inside
    [create_colmap_structure] and yields no value; no count of copied
    files is computed anywhere.  The function that holds the loop returns
    its base directory on every call that returns. *)
Theorem create_colmap_structure_returns_path
    (output_dir image_source : path) (is_video : bool) (fps : Z) (run_colmap : bool)
    (w w' : World) (v : pyval) :
  create_colmap_structure output_dir image_source is_video fps run_colmap w = (Ok v, w') ->
  v = PyPath output_dir.
Proof.
  unfold create_colmap_structure. cbv zeta.
  intros (? & ? & _ & H)%bind_Ok_inv.
  apply bind_Ok_inv in H as (? & ? & _ & H).
  apply bind_Ok_inv in H as (? & ? & _ & H).
  apply bind_Ok_inv in H as (? & ? & _ & H).
  apply bind_Ok_inv in H as (? & ? & _ & H).
  apply bind_Ok_inv in H as (? & ? & _ & H).
  apply bind_Ok_inv in H as (? & ? & _ & H).
  apply bind_Ok_inv in H as (? & ? & _ & H).
  apply bind_Ok_inv in H as (? & ? & _ & H).
  by injection H as <- _.
Qed.
End CollectorClaims.

Module CollectorExamples.
Import TestDouble.

(** The folder of the specification's example, with a subdirectory, next
    to an output directory that holds an older image. *)
Lemma collector_copies_recognised_witness :
  let R := runtime exec_ok in
  let w := world R reused_fs 42%N tt in
  let source := ["photos"] in
  let input_dir := ["input"; "out"] in
  let names := filter (fun n => is_recognised n) (FS.children (w_fs w) source) in
  source <> input_dir /\
  FS.is_dir (w_fs w) source = true /\
  FS.is_dir (w_fs w) input_dir = true /\
  (forall n, n ∈ FS.children (w_fs w) source -> is_recognised n ->
     FS.is_file (w_fs w) (n :: source) = true /\
     FS.is_dir (w_fs w) (n :: input_dir) = false) /\
  exists w' : World,
    copy_images source input_dir w = (Ok (), w') /\
    copied (w_log w') =
      copied (w_log w) ++ ((fun n => (n :: source, n :: input_dir)) <$> names) /\
    (forall n, n ∈ names ->
       exists d m, w_fs w !! (n :: source) = Some (File d m) /\
                   w_fs w' !! (n :: input_dir) = Some (File d m)) /\
    (forall q, (forall n, n ∈ names -> q <> n :: input_dir) ->
       w_fs w' !! q = w_fs w !! q) /\
    (FS.children (w_fs w) source ≡ₚ ["a.jpg"; "b.PNG"; "c.txt"; "d.bmp"] ->
     names ≡ₚ ["a.jpg"; "b.PNG"]).
Proof.
  cbv zeta.
  assert (Hne : ["photos"] <> ["input"; "out"]) by discriminate.
  assert (Hfiles : forall n, n ∈ FS.children reused_fs ["photos"] -> is_recognised n ->
            FS.is_file reused_fs [n; "photos"] = true /\
            FS.is_dir reused_fs [n; "input"; "out"] = false).
  { intros n Hn Hr.
    assert (Hc : FS.children reused_fs ["photos"]
                 = ["c.txt"; "d.bmp"; "a.jpg"; "nested"; "b.PNG"])
      by (vm_compute; reflexivity).
    rewrite Hc in Hn. clear Hc.
    repeat (apply elem_of_cons in Hn as [->|Hn]); try (by vm_compute).
    by apply elem_of_nil in Hn. }
  split; [exact Hne|].
  split; [vm_compute; reflexivity|].
  split; [vm_compute; reflexivity|].
  split; [exact Hfiles|].
  apply (@collector_copies_recognised (runtime exec_ok) ["photos"] ["input"; "out"]
           (world (runtime exec_ok) reused_fs 42%N tt) Hne).
  - vm_compute; reflexivity.
  - vm_compute; reflexivity.
  - exact Hfiles.
Defined.

(** The same run, evaluated: a.jpg and b.PNG arrive with contents and
    metadata; c.txt, d.bmp and the image in the subdirectory do not; the
    older image stays. *)
Lemma collector_on_example_folder :
  let R := runtime exec_ok in
  let res := copy_images ["photos"] ["input"; "out"] (world R reused_fs 42%N tt) in
  res.1 = Ok () /\
  copied (w_log res.2) =
    [ (["a.jpg"; "photos"], ["a.jpg"; "input"; "out"]);
      (["b.PNG"; "photos"], ["b.PNG"; "input"; "out"]) ] /\
  w_fs res.2 !! ["a.jpg"; "input"; "out"] = Some (File "AAAA" 11) /\
  w_fs res.2 !! ["b.PNG"; "input"; "out"] = Some (File "BBBB" 22) /\
  w_fs res.2 !! ["c.txt"; "input"; "out"] = None /\
  w_fs res.2 !! ["d.bmp"; "input"; "out"] = None /\
  w_fs res.2 !! ["e.jpg"; "input"; "out"] = None /\
  w_fs res.2 !! ["old.jpg"; "input"; "out"] = Some (File "OLD" 9).
Proof. cbv zeta. repeat split; vm_compute; reflexivity. Qed.

(** The function that holds the collector returns a path, not a count. *)
Lemma collector_returns_no_count :
  let R := runtime exec_ok in
  let w := world R reused_fs 42%N tt in
  let res := create_colmap_structure ["out"] ["photos"] false 2 false w in
  length (copied (w_log res.2)) = 2%nat /\
  res.1 = Ok (PyPath ["out"]) /\
  ~ returns_copied_count w res.
Proof.
  cbv zeta. split; [vm_compute; reflexivity|]. split; [vm_compute; reflexivity|].
  unfold returns_copied_count. vm_compute. discriminate.
Qed.

Lemma create_colmap_structure_returns_path_witness :
  let R := runtime exec_ok in
  let w := world R reused_fs 42%N tt in
  let res := create_colmap_structure ["out"] ["photos"] false 2 false w in
  res = (Ok (PyPath ["out"]), res.2) /\ PyPath ["out"] = PyPath ["out"].
Proof.
  cbv zeta. split; [vm_compute; reflexivity|].
  apply (@create_colmap_structure_returns_path (runtime exec_ok)
           ["out"] ["photos"] false 2 false (world (runtime exec_ok) reused_fs 42%N tt)
           (create_colmap_structure ["out"] ["photos"] false 2 false
              (world (runtime exec_ok) reused_fs 42%N tt)).2).
  vm_compute; reflexivity.
Defined.
End CollectorExamples.

(* ===================================================================== *)
(** * The ratios on the command line                                      *)
(* ===================================================================== *)

Section RatioFacts.
Context {R : Runtime}.

(** [main] never reads [args.train_ratio] or [args.val_ratio]: a run is
    the same whatever they are. *)
Lemma main_ignores_ratios (args : Namespace) (tr vr : spec_float) (w : World) :
  main (with_ratios args tr vr) w = main args w.
Proof. reflexivity. Qed.
End RatioFacts.

Module RatioExamples.
Import TestDouble.

(** C2, at [--train_ratio 0.5 --val_ratio 0.25] on ten images: the run
    splits 8, 1, 1, the split of the defaults 0.8 and 0.1, where the
    ratios given would split 5, 2, 3. *)
Lemma cli_ratios_have_no_effect :
  let R := runtime exec_ok in
  let w := world R ten_fs 0%N tt in
  let args := photo_args ["shots"] ["out"] Float64.lit_0_5 Float64.lit_0_25 in
  let res := main args w in
  res.1 = Ok PyNone /\
  "Train: 8 | Val: 1 | Test: 1" ∈ printed (w_log res.2) /\
  match (split_listed ten_names (train_ratio args) (val_ratio args) w).1 with
  | Ok p => (length (train p), length (val p), length (test p)) = (5, 2, 3)%nat
  | Raise _ => False
  end.
Proof.
  cbv zeta. split; [vm_compute; reflexivity|]. split; [|vm_compute; reflexivity].
  assert (H : printed (w_log (main (photo_args ["shots"] ["out"] Float64.lit_0_5
                                      Float64.lit_0_25)
                                (world (runtime exec_ok) ten_fs 0%N tt)).2)
              !! 1%nat = Some "Train: 8 | Val: 1 | Test: 1")
    by (vm_compute; reflexivity).
  by apply list_elem_of_lookup_2 in H.
Qed.
End RatioExamples.

(* ===================================================================== *)
(** * The order of events in a run                                        *)
(* ===================================================================== *)

Section LogFacts.
Context {R : Runtime}.

Lemma quiet_nil : quiet [].
Proof. split; [done|]. intros cmd H. by apply elem_of_nil in H. Qed.

Lemma no_stage_app a b : no_stage a -> no_stage b -> no_stage (a ++ b).
Proof. intros Ha Hb cmd [?|?]%elem_of_app; eauto. Qed.

Lemma quiet_app a b : quiet a -> quiet b -> quiet (a ++ b).
Proof.
  intros [Wa Sa] [Wb Sb]. split; [|by apply no_stage_app].
  unfold written in *. by rewrite omap_app, Wa, Wb.
Qed.

Lemma silent_nil : silent [].
Proof. done. Qed.

Lemma silent_app a b : silent a -> silent b -> silent (a ++ b).
Proof.
  intros [Wa Ca] [Wb Cb]. unfold silent, written, copied in *.
  by rewrite !omap_app, Wa, Wb, Ca, Cb.
Qed.

(** ** What each action logs *)

Section Closed.
Context (P : list event -> Prop).
Hypothesis P_nil : P [].
Hypothesis P_app : forall a b, P a -> P b -> P (a ++ b).

Lemma logs_silent_action {A} (m : M A) :
  (forall w, w_log (m w).2 = w_log w) -> logs m P.
Proof. intros H w. exists []. by rewrite H, app_nil_r. Qed.

Lemma logs_ret {A} (a : A) : logs (mret a) P.
Proof. by apply logs_silent_action. Qed.

Lemma logs_raise {A} (e : exn) : logs (raise e : M A) P.
Proof. by apply logs_silent_action. Qed.

Lemma logs_get_fs : logs get_fs P.
Proof. by apply logs_silent_action. Qed.

Lemma logs_lift_fs op : logs (lift_fs op) P.
Proof.
  apply logs_silent_action. intros w. unfold lift_fs. by destruct (op (w_fs w)).
Qed.

Lemma logs_wait_process cmd : logs (wait_process cmd) P.
Proof.
  apply logs_silent_action. intros w. unfold wait_process.
  destruct (exec cmd (w_ext w) (w_fs w)) as [[[c| | |n] x] fs]; [|done..].
  by destruct (c =? 0).
Qed.

Lemma logs_random_shuffle {A} (x : list A) : logs (random_shuffle x) P.
Proof. apply logs_silent_action. intros w. by rewrite random_shuffle_unfold. Qed.

Lemma logs_int_of_product total ratio : logs (int_of_product total ratio) P.
Proof.
  apply logs_silent_action. intros w. by rewrite (int_of_product_world _ _ w w).
Qed.

Lemma logs_emit ev : P [ev] -> logs (emit ev) P.
Proof. intros H w. by exists [ev]. Qed.

Lemma logs_bind {A B} (m : M A) (k : A -> M B) :
  logs m P -> (forall a, logs (k a) P) -> logs (m ≫= k) P.
Proof.
  intros Hm Hk w. destruct (Hm w) as (e1 & H1 & P1). rewrite bind_unfold.
  destruct (m w) as [[a|e] w1]; cbn [snd] in *.
  - destruct (Hk a w1) as (e2 & H2 & P2). exists (e1 ++ e2).
    split; [|by apply P_app]. by rewrite H2, H1, app_assoc.
  - by exists e1.
Qed.
End Closed.
End LogFacts.

(** Breaks a goal [logs m P] down along the structure of [m]. *)
Ltac logs_step :=
  match goal with
  | |- logs (_ ≫= _) _ => apply logs_bind; [assumption..| |intros ?]
  | |- logs (mret _) _ => apply logs_ret; assumption
  | |- logs (raise _) _ => apply logs_raise; assumption
  | |- logs get_fs _ => apply logs_get_fs; assumption
  | |- logs (lift_fs _) _ => apply logs_lift_fs; assumption
  | |- logs (wait_process _) _ => apply logs_wait_process; assumption
  | |- logs (random_shuffle _) _ => apply logs_random_shuffle; assumption
  | |- logs (int_of_product _ _) _ => apply logs_int_of_product; assumption
  | |- logs (if ?b then _ else _) _ => destruct b
  | |- logs (match ?x with _ => _ end) _ => destruct x
  end.

Section RunLogs.
Context {R : Runtime}.
Context (P : list event -> Prop).
Hypothesis P_nil : P [].
Hypothesis P_app : forall a b, P a -> P b -> P (a ++ b).

Lemma logs_print line : P [EvPrint line] -> logs (print line) P.
Proof. apply logs_emit. Qed.

Lemma logs_subprocess_run cmd : P [EvExec cmd] -> logs (subprocess_run cmd) P.
Proof.
  intros H. unfold subprocess_run. logs_step; [by apply logs_emit|]. logs_step.
Qed.

Lemma logs_build_layout base_dir : logs (build_layout base_dir) P.
Proof. unfold build_layout, path_mkdir. cbv zeta. repeat logs_step. Qed.

Lemma logs_split_images image_dir tr vr : logs (split_images image_dir tr vr) P.
Proof. unfold split_images, os_listdir. repeat logs_step. Qed.

Lemma logs_copy_loop entries input_dir :
  (forall s d, P [EvCopy s d]) -> logs (copy_loop entries input_dir) P.
Proof.
  intros H. induction entries as [|img rest IH]; cbn [copy_loop]; [logs_step|].
  logs_step; [|done]. logs_step; [|logs_step].
  unfold shutil_copy2. logs_step; [logs_step|]. by apply logs_emit.
Qed.

Lemma logs_copy_images source input_dir :
  (forall s d, P [EvCopy s d]) -> logs (copy_images source input_dir) P.
Proof.
  intros H. unfold copy_images, path_glob_star.
  logs_step; [repeat logs_step|]. by apply logs_copy_loop.
Qed.

Lemma logs_extract_frames video_path output_dir fps :
  (forall l, P [EvPrint l]) -> (forall cmd, is_stage cmd = false -> P [EvExec cmd]) ->
  logs (extract_frames_from_video video_path output_dir fps) P.
Proof.
  intros Hp He. unfold extract_frames_from_video, os_makedirs. cbv zeta.
  logs_step; [logs_step|]. logs_step; [by apply logs_print|].
  logs_step; [|logs_step]. apply logs_subprocess_run. by apply He.
Qed.

Lemma logs_run_colmap_pipeline image_dir distorted_dir database_path sparse_dir :
  (forall l, P [EvPrint l]) -> (forall cmd, P [EvExec cmd]) ->
  logs (run_colmap_pipeline image_dir distorted_dir database_path sparse_dir) P.
Proof.
  intros Hp He. unfold run_colmap_pipeline, path_exists. cbv zeta.
  repeat first [ apply logs_print; [assumption..|apply Hp]
               | apply logs_subprocess_run; [assumption..|apply He]
               | logs_step ].
Qed.
End RunLogs.

Section ListsFirst.
Context {R : Runtime}.

Lemma open_write_run (p : path) (data : string) (w : World) :
  open_write p data w =
  if can_encode data then
    match FS.write_file p data (w_fs w) with
    | Ok fs' => (Ok (), log_add [EvWrite p data] (set_fs fs' w))
    | Raise e => (Raise e, w)
    end
  else
    match FS.write_file p EmptyString (w_fs w) with
    | Ok fs' => (Raise (UnicodeEncodeError data), set_fs fs' w)
    | Raise e => (Raise e, w)
    end.
Proof.
  unfold open_write. destruct (can_encode data); rewrite bind_unfold; unfold lift_fs.
  - by destruct (FS.write_file p data (w_fs w)).
  - by destruct (FS.write_file p EmptyString (w_fs w)).
Qed.

(** A write that returns has put the text in the file and logged it; one
    that raises has logged nothing. *)
Lemma open_write_outcome (p : path) (data : string) (w : World) :
  match open_write p data w with
  | (Ok _, w1) =>
      exists fs', FS.write_file p data (w_fs w) = Ok fs' /\
                  w1 = log_add [EvWrite p data] (set_fs fs' w)
  | (Raise _, w1) => w_log w1 = w_log w
  end.
Proof.
  rewrite open_write_run. destruct (can_encode data).
  - destruct (FS.write_file p data (w_fs w)) as [fs'|e]; eauto.
  - by destruct (FS.write_file p EmptyString (w_fs w)).
Qed.

Lemma write_file_Ok (p : path) (data : string) (fs fs' : filesystem) :
  FS.write_file p data fs = Ok fs' -> exists m, fs' = <[p := File data m]> fs.
Proof.
  unfold FS.write_file. destruct p as [|n parent]; [done|].
  destruct (FS.stat fs parent) as [[|]| |]; try done.
  destruct (fs !! (n :: parent)) as [[|d m]|]; [done| |]; intros [= <-]; eauto.
Qed.

(** The three list files: written in the order train, val, test; when the
    last write has returned, each file holds its subset, one name a line. *)
Lemma write_lists_items (base_dir : path) (splits : Partition) (w : World) :
  match write_lists base_dir (items splits) w with
  | (Ok _, w2) =>
      w_log w2 = w_log w ++ [ EvWrite (list_file base_dir "train") (list_text (train splits));
                              EvWrite (list_file base_dir "val") (list_text (val splits));
                              EvWrite (list_file base_dir "test") (list_text (test splits)) ] /\
      forall name names, (name, names) ∈ items splits ->
        exists m, w_fs w2 !! list_file base_dir name = Some (File (list_text names) m)
  | (Raise _, w2) =>
      exists evs, w_log w2 = w_log w ++ evs /\ no_stage evs /\
                  forall ev, ev ∈ evs -> exists p d, ev = EvWrite p d
  end.
Proof.
  unfold items. cbn [write_lists].
  change (("train" +:+ "_list.txt") :: base_dir) with (list_file base_dir "train").
  change (("val" +:+ "_list.txt") :: base_dir) with (list_file base_dir "val").
  change (("test" +:+ "_list.txt") :: base_dir) with (list_file base_dir "test").
  fold (list_text (train splits)) (list_text (val splits)) (list_text (test splits)).
  set (e1 := EvWrite (list_file base_dir "train") (list_text (train splits))).
  set (e2 := EvWrite (list_file base_dir "val") (list_text (val splits))).
  set (e3 := EvWrite (list_file base_dir "test") (list_text (test splits))).
  assert (Hev : forall evs : list event,
     Forall (fun ev => exists p d, ev = EvWrite p d) evs ->
     forall w2 : World, w_log w2 = w_log w ++ evs ->
     exists evs, w_log w2 = w_log w ++ evs /\ no_stage evs /\
                 forall ev, ev ∈ evs -> exists p d, ev = EvWrite p d).
  { intros evs HF w2 Hl. exists evs. rewrite Forall_forall in HF.
    split; [done|]. split; [|done].
    intros cmd Hin. by destruct (HF _ Hin) as (? & ? & ?). }
  rewrite bind_unfold.
  pose proof (open_write_outcome (list_file base_dir "train")
                (list_text (train splits)) w) as H1.
  destruct (open_write (list_file base_dir "train") _ w) as [[[]|e] w1].
  2:{ apply (Hev []); [constructor|by rewrite H1, app_nil_r]. }
  destruct H1 as (fs1 & E1 & ->).
  rewrite bind_unfold.
  pose proof (open_write_outcome (list_file base_dir "val") (list_text (val splits))
                (log_add [e1] (set_fs fs1 w))) as H2.
  destruct (open_write (list_file base_dir "val") _ _) as [[[]|e] w2].
  2:{ apply (Hev [e1]); [|by rewrite H2]. repeat constructor. subst e1. eauto. }
  destruct H2 as (fs2 & E2 & ->). cbn [log_add set_fs w_fs] in E2.
  rewrite bind_unfold.
  pose proof (open_write_outcome (list_file base_dir "test") (list_text (test splits))
                (log_add [e2] (set_fs fs2 (log_add [e1] (set_fs fs1 w))))) as H3.
  destruct (open_write (list_file base_dir "test") _ _) as [[[]|e] w3].
  2:{ apply (Hev [e1; e2]).
      - repeat constructor; subst e1 e2; eauto.
      - rewrite H3. cbn [log_add set_fs w_log]. by rewrite <- app_assoc. }
  destruct H3 as (fs3 & E3 & ->). cbn [log_add set_fs w_fs] in E3.
  rewrite ret_unfold. cbn [log_add set_fs w_fs w_log].
  split; [by rewrite <- !app_assoc|].
  apply write_file_Ok in E1 as [m1 ->], E2 as [m2 ->], E3 as [m3 ->].
  intros name names Hin.
  rewrite !elem_of_cons, elem_of_nil in Hin.
  destruct Hin as [[= -> ->]|[[= -> ->]|[[= -> ->]|[]]]].
  - exists m1. rewrite !lookup_insert_ne by (intros [= H]; vm_compute in H; discriminate H).
    apply lookup_insert_eq.
  - exists m2. rewrite !lookup_insert_ne by (intros [= H]; vm_compute in H; discriminate H).
    apply lookup_insert_eq.
  - exists m3. apply lookup_insert_eq.
Qed.

Lemma no_stage_no_exec (evs : list event) :
  executed evs = [] -> no_stage evs.
Proof.
  intros H cmd Hin. assert (cmd ∈ executed evs); [|by rewrite H in *; set_solver].
  unfold executed. apply list_elem_of_omap. by exists (EvExec cmd).
Qed.

Lemma logs_pipeline_and_finish (base_dir : path) :
  logs (pipeline_and_finish base_dir) silent.
Proof.
  unfold pipeline_and_finish.
  apply logs_bind; [apply silent_app| |intros ?].
  - apply logs_bind; [apply silent_app| |intros ?].
    + apply logs_run_colmap_pipeline; [apply silent_nil|apply silent_app|done|done].
    + apply logs_ret, silent_nil.
  - apply logs_bind; [apply silent_app| |intros ?].
    + by apply logs_print.
    + apply logs_ret, silent_nil.
Qed.

(** A step that is quiet may come first. *)
Lemma lists_first_bind {A} (base_dir : path) (m : M A) (k : A -> M pyval) :
  logs m quiet -> (forall a, lists_first base_dir (k a)) ->
  lists_first base_dir (m ≫= k).
Proof.
  intros Hm Hk w. destruct (Hm w) as (evs & Hl & Hw & Hs).
  rewrite bind_unfold. destruct (m w) as [[a|e] wm]; cbn [snd] in Hl.
  - destruct (Hk a wm) as (before & after & Hlog & Hns & Hsil & Hrest).
    exists (evs ++ before), after. split; [by rewrite Hlog, Hl, !app_assoc|].
    split; [by apply no_stage_app|]. split; [done|].
    intros Hne. destruct (Hrest Hne) as (splits & w1 & H1 & H2 & H3 & H4).
    exists splits, w1. split; [by rewrite H1, Hl, app_assoc|].
    split; [|done]. unfold written in *. by rewrite omap_app, Hw, H2.
  - exists evs, []. rewrite app_nil_r. cbn [snd]. done.
Qed.

(** From the writing of the lists on. *)
Lemma lists_first_tail (base_dir : path) (splits : Partition) (run_colmap : bool) :
  lists_first base_dir
    (write_lists base_dir (items splits);;
     print ("Train: " +:+ pretty (length (train splits)) +:+
            " | Val: " +:+ pretty (length (val splits)) +:+
            " | Test: " +:+ pretty (length (test splits)));;
     (if run_colmap
      then run_colmap_pipeline ("input" :: base_dir) ("distorted" :: base_dir)
             ("database.db" :: "distorted" :: base_dir)
             ("sparse" :: "distorted" :: base_dir);; mret ()
      else mret ());;
     print ("Dataset ready: " +:+ path_str base_dir);;
     mret (PyPath base_dir)).
Proof.
  intros w. pose proof (write_lists_items base_dir splits w) as Hw.
  rewrite bind_unfold.
  destruct (write_lists base_dir (items splits) w) as [[[]|e] w2].
  2:{ destruct Hw as (evs & Hl & Hns & _). exists evs, []. by rewrite app_nil_r. }
  destruct Hw as [Hl Hfs].
  set (line := ("Train: " +:+ _)%string).
  mstep (print_run line w2).
  set (e1 := EvWrite (list_file base_dir "train") (list_text (train splits))) in *.
  set (e2 := EvWrite (list_file base_dir "val") (list_text (val splits))) in *.
  set (e3 := EvWrite (list_file base_dir "test") (list_text (test splits))) in *.
  destruct run_colmap.
  - fold (pipeline_and_finish base_dir).
    destruct (logs_pipeline_and_finish base_dir (log_add [EvPrint line] w2))
      as (after & Hafter & Hsil).
    exists [e1; e2; e3; EvPrint line], after.
    split; [rewrite Hafter; cbn [log_add w_log]; by rewrite Hl, <- !app_assoc|].
    split; [by apply no_stage_no_exec|]. split; [done|].
    intros _. exists splits, (log_add [EvPrint line] w2).
    split; [cbn [log_add w_log]; by rewrite Hl, <- !app_assoc|]. done.
  - set (ready := ("Dataset ready: " +:+ path_str base_dir)%string).
    assert (Heq : forall W : World,
              ((mret () : M ()) ≫= fun _ => print ready ≫= fun _ => mret (PyPath base_dir)) W
              = (Ok (PyPath base_dir), log_add [EvPrint ready] W)) by done.
    rewrite Heq. cbn [snd log_add w_log].
    exists [e1; e2; e3; EvPrint line; EvPrint ready], [].
    split; [by rewrite Hl, <- !app_assoc|].
    split; [by apply no_stage_no_exec|]. done.
Qed.

(** C10. In every run of [create_colmap_structure], whatever its outcome,
    no reconstruction stage is started before the three split lists are
    written: the events are a part without a stage command followed by a
    part without a write or a copy, and when that second part is there,
    the first has written [train_list.txt], [val_list.txt] and
    [test_list.txt] with the names of the partition, the files are on
    disk with those contents where it ends, and the rest of the run is
    the pipeline, started in that state. *)
Theorem lists_written_before_stages
    (output_dir image_source : path) (is_video : bool) (fps : Z) (run_colmap : bool)
    (w : World) :
  let run := create_colmap_structure output_dir image_source is_video fps run_colmap in
  exists before after : list event,
    w_log (run w).2 = w_log w ++ before ++ after /\
    no_stage before /\
    silent after /\
    (after <> [] ->
     exists (splits : Partition) (w1 : World),
       w_log w1 = w_log w ++ before /\
       written before =
         [ (list_file output_dir "train", list_text (train splits));
           (list_file output_dir "val", list_text (val splits));
           (list_file output_dir "test", list_text (test splits)) ] /\
       (forall name names, (name, names) ∈ items splits ->
          exists m, w_fs w1 !! list_file output_dir name
                    = Some (File (list_text names) m)) /\
       run w = pipeline_and_finish output_dir w1).
Proof.
  cbv zeta. revert w. change (lists_first output_dir
    (create_colmap_structure output_dir image_source is_video fps run_colmap)).
  assert (Hprint : forall l, quiet [EvPrint l])
    by (intros l; split; [done|by apply no_stage_no_exec]).
  assert (Hcopy : forall s d, quiet [EvCopy s d])
    by (intros s d; split; [done|by apply no_stage_no_exec]).
  assert (Hexec : forall cmd, is_stage cmd = false -> quiet [EvExec cmd]).
  { intros cmd Hc. split; [done|]. intros c [[= ->]|[]%elem_of_nil]%elem_of_cons. done. }
  unfold create_colmap_structure. cbv zeta.
  apply lists_first_bind; [apply logs_build_layout; [apply quiet_nil|apply quiet_app]|].
  intros _. apply lists_first_bind.
  { destruct is_video.
    - apply logs_bind; [apply quiet_app| |intros ?].
      + apply logs_extract_frames; [apply quiet_nil|apply quiet_app|done..].
      + apply logs_ret, quiet_nil.
    - apply logs_ret, quiet_nil. }
  intros source_images. apply lists_first_bind; [by apply logs_print|].
  intros _. apply lists_first_bind.
  { apply logs_copy_images; [apply quiet_nil|apply quiet_app|done]. }
  intros _. apply lists_first_bind.
  { apply logs_split_images; [apply quiet_nil|apply quiet_app]. }
  intros splits. apply lists_first_tail.
Qed.
End ListsFirst.

Module OrderExamples.
Import TestDouble.

(** A run in which the mapper exits with status 1: the run stops with
    [CalledProcessError], and the three lists are on disk. *)
Lemma lists_survive_failed_mapper :
  let R := runtime (exec_failing "mapper" 1) in
  let args := photo_args ["photos"] ["out"] Float64.lit_0_8 Float64.lit_0_1 in
  let res := main args (world R photos_fs 0%N tt) in
  res.1 = Raise (CalledProcessError 1
            (cmd_mapper ["input"; "out"] ["database.db"; "distorted"; "out"]
               ["sparse"; "distorted"; "out"])) /\
  w_fs res.2 !! ["train_list.txt"; "out"] = Some (File "a.jpg" 0) /\
  w_fs res.2 !! ["val_list.txt"; "out"] = Some (File EmptyString 0) /\
  w_fs res.2 !! ["test_list.txt"; "out"] = Some (File "b.PNG" 0).
Proof. cbv zeta. repeat split; vm_compute; reflexivity. Qed.
End OrderExamples.

(* ===================================================================== *)
(** * The seed                                                            *)
(* ===================================================================== *)

Section SeedFacts.
Context {R : Runtime}.

Lemma rng_blind_ret {A} (a : A) : rng_blind (mret a).
Proof. done. Qed.

Lemma rng_blind_raise {A} (e : exn) : rng_blind (raise e : M A).
Proof. done. Qed.

Lemma rng_blind_emit (ev : event) : rng_blind (emit ev).
Proof. done. Qed.

Lemma rng_blind_wait_process (cmd : list string) : rng_blind (wait_process cmd).
Proof.
  intros g w. unfold wait_process. cbn [set_rng w_ext w_fs].
  destruct (exec cmd (w_ext w) (w_fs w)) as [[[c| | |n] x] fs]; [|done..].
  by destruct (c =? 0).
Qed.

Lemma rng_blind_bind {A B} (m : M A) (k : A -> M B) :
  rng_blind m -> (forall a, rng_blind (k a)) -> rng_blind (m ≫= k).
Proof.
  intros Hm Hk g w. rewrite !bind_unfold, Hm.
  destruct (m w) as [[a|e] w1]; cbn [fst snd]; [apply Hk|done].
Qed.

Lemma rng_blind_try_except {A} (body : M A) handles (handler : M A) :
  rng_blind body -> rng_blind handler -> rng_blind (try_except body handles handler).
Proof.
  intros Hb Hh g w. unfold try_except. rewrite Hb.
  destruct (body w) as [[a|e] w1]; cbn [fst snd]; [done|].
  destruct (handles e); [apply Hh|done].
Qed.

Lemma rng_blind_tool_check (cmd : list string) (l1 l2 : string) :
  rng_blind (try_except (subprocess_run cmd) tool_missing
               (print l1;; print l2;; sys_exit 1 : M ())).
Proof.
  apply rng_blind_try_except.
  - apply rng_blind_bind; [apply rng_blind_emit|]. intros _. apply rng_blind_wait_process.
  - repeat (apply rng_blind_bind; [apply rng_blind_emit|intros _]). apply rng_blind_raise.
Qed.

(** X21.  [main] seeds the generator itself: the state the generator was in
    before the run has no influence on the outcome, on the files or on the
    log. *)
Lemma main_seeds_generator (args : Namespace) (g : rng_state) (w : World) :
  (main args (set_rng g w)).1 = (main args w).1 /\
  w_fs (main args (set_rng g w)).2 = w_fs (main args w).2 /\
  w_log (main args (set_rng g w)).2 = w_log (main args w).2.
Proof.
  unfold main. rewrite !bind_unfold.
  match goal with
  | |- context [match ?pre (set_rng g w) with _ => _ end] =>
      assert (Hpre : rng_blind pre)
  end.
  { destruct (negb (skip_dependency_check args)); [|apply rng_blind_ret].
    apply rng_blind_bind.
    - destruct (type_ args); [apply rng_blind_tool_check|apply rng_blind_ret].
    - intros _. destruct (negb (skip_colmap args));
        [apply rng_blind_tool_check|apply rng_blind_ret]. }
  rewrite Hpre.
  match goal with
  | |- context [match ?pre w with _ => _ end] => destruct (pre w) as [[[]|e] w1]
  end; cbn [fst snd]; [|done].
  rewrite !bind_unfold. cbn [random_seed].
  assert (set_rng (rng_seed 42) (set_rng g w1) = set_rng (rng_seed 42) w1) as -> by done.
  done.
Qed.
End SeedFacts.

Module MoreExamples.
Import TestDouble.

(** The literals are the binary64 numbers nearest to 0.8 and 0.1: each is
    within half a unit in the last place (2^-53 and 2^-56) of the decimal. *)
Lemma literals_nearest :
  2 * Z.abs (10 * Float64.scaled Float64.lit_0_8 - 8 * 2 ^ 1074) <= 10 * 2 ^ 1021 /\
  2 * Z.abs (10 * Float64.scaled Float64.lit_0_1 - 1 * 2 ^ 1074) <= 10 * 2 ^ 1018 /\
  Float64.is_ratio Float64.lit_0_8 = true /\ Float64.is_ratio Float64.lit_0_1 = true.
Proof. repeat split; by vm_compute. Qed.

(** The product is the rounded one: ten times the binary64 number nearest
    to 0.7 is below 7, and [10 * 0.7] is the float 7.0, so the cut point
    is 7. *)
Lemma product_is_rounded :
  10 * Float64.scaled Float64.lit_0_7 < 7 * 2 ^ 1074 /\
  Float64.trunc (Float64.mul (Float64.of_int 10) Float64.lit_0_7) = Some 7.
Proof. split; by vm_compute. Qed.

(** Nine images split 7, 0, 2: each cut point is floored on its own. *)
Lemma nine_images_split :
  Float64.floor (Float64.mul (Float64.of_int 9) Float64.lit_0_8) = Some 7 /\
  Float64.floor (Float64.mul (Float64.of_int 9) Float64.lit_0_1) = Some 0.
Proof. split; by vm_compute. Qed.

(** One image goes to the test subset; no image at all gives three empty
    subsets and no exception. *)
Lemma small_directories_split :
  let R := runtime exec_ok in
  (split_images ["input"; "out"] default_train_ratio default_val_ratio
     (world R reused_fs 42%N tt)).1
  = Ok {| train := []; val := []; test := ["old.jpg"] |} /\
  (split_images ["sparse"; "distorted"; "out"] default_train_ratio default_val_ratio
     (world R reused_fs 42%N tt)).1
  = Ok {| train := []; val := []; test := [] |}.
Proof. cbv zeta. split; vm_compute; reflexivity. Qed.

(** A directory whose name carries a recognised extension is handed to
    [shutil.copy2] like a file, and the copy raises. *)
Lemma directory_named_like_an_image :
  let R := runtime exec_ok in
  (copy_images ["photos"] ["input"; "out"] (world R album_fs 42%N tt)).1
  = Raise (IsADirectoryError "photos/album.jpg").
Proof. cbv zeta. vm_compute. reflexivity. Qed.

(** When the mapper writes a first model, the converter runs on it. *)
Lemma conversion_follows_model :
  let model_dir := ["0"; "sparse"; "distorted"; "out"] in
  let R := runtime (exec_with_model model_dir) in
  let res := run_colmap_pipeline ["input"; "out"] ["distorted"; "out"]
               ["database.db"; "distorted"; "out"] ["sparse"; "distorted"; "out"]
               (world R reused_fs 42%N tt) in
  res.1 = Ok PyNone /\
  last (executed (w_log res.2)) = Some (cmd_convert model_dir) /\
  length (executed (w_log res.2)) = 4%nat.
Proof. cbv zeta. repeat split; vm_compute; reflexivity. Qed.

(** When colmap cannot be started, the exception names the program and
    the log the stage. *)
Lemma extraction_cannot_start :
  let R := runtime (exec_missing "feature_extractor") in
  let res := run_colmap_pipeline ["input"; "out"] ["distorted"; "out"]
               ["database.db"; "distorted"; "out"] ["sparse"; "distorted"; "out"]
               (world R reused_fs 42%N tt) in
  res.1 = Raise (FileNotFoundError "colmap") /\
  printed (w_log res.2) = ["Running feature extraction..."] /\
  executed (w_log res.2)
    = [cmd_extract ["input"; "out"] ["database.db"; "distorted"; "out"]].
Proof. cbv zeta. repeat split; vm_compute; reflexivity. Qed.
End MoreExamples.


(* ===================================================================== *)
(** * Which names count as images                                         *)
(* ===================================================================== *)

Module NameFacts.
Import PyStr.

Lemma app_empty (b : string) : EmptyString +:+ b = b.
Proof. reflexivity. Qed.

Lemma app_cons (c : ascii) (a b : string) : String c a +:+ b = String c (a +:+ b).
Proof. reflexivity. Qed.

Lemma length_app (a b : string) :
  String.length (a +:+ b) = (String.length a + String.length b)%nat.
Proof.
  induction a as [|c a IH]; [done|]. rewrite app_cons. simpl. by rewrite IH.
Qed.

Lemma substring_all (s : string) : String.substring 0 (String.length s) s = s.
Proof. induction s as [|c s IH]; simpl; [done|]. by rewrite IH. Qed.

Lemma substring_app_r (a b : string) :
  String.substring (String.length a) (String.length b) (a +:+ b) = b.
Proof.
  induction a as [|c a IH]; [apply substring_all|]. rewrite app_cons. simpl. done.
Qed.

(** A string is its first [n] characters followed by the rest. *)
Lemma substring_split (s : string) (n k : nat) :
  (n + k = String.length s)%nat ->
  s = String.substring 0 n s +:+ String.substring n k s.
Proof.
  revert n k. induction s as [|c s IH]; intros n k H; simpl in H.
  - assert (n = 0%nat) as -> by lia. assert (k = 0%nat) as -> by lia. done.
  - destruct n as [|n].
    + simpl in H. subst k. simpl. rewrite app_empty. f_equal.
      symmetry. apply substring_all.
    + simpl. rewrite app_cons. f_equal. apply IH. lia.
Qed.

Lemma lower_app (a b : string) : lower (a +:+ b) = lower a +:+ lower b.
Proof.
  induction a as [|c a IH]; [done|]. rewrite app_cons. simpl.
  by rewrite app_cons, IH.
Qed.

Lemma endswith_app (a b : string) : endswith (a +:+ b) b = true.
Proof.
  unfold endswith. rewrite length_app.
  replace (String.length a + String.length b - String.length b)%nat
    with (String.length a) by lia.
  rewrite substring_app_r, String.eqb_refl.
  apply andb_true_iff. split; [|done]. apply Nat.leb_le. lia.
Qed.

Lemma endswith_inv (s suffix : string) :
  endswith s suffix = true -> exists stem, s = stem +:+ suffix.
Proof.
  unfold endswith. intros [Hlen Heq]%andb_true_iff.
  apply Nat.leb_le in Hlen. apply String.eqb_eq in Heq.
  exists (String.substring 0 (String.length s - String.length suffix) s).
  etrans; [apply (substring_split s (String.length s - String.length suffix)
                    (String.length suffix)); lia|].
  by rewrite Heq.
Qed.

(** The splitter's test looks at the end of the lower-cased name only. *)
Lemma image_name_iff (f : string) :
  is_image_name f = true <->
  exists stem ext, ext ∈ image_suffixes /\ lower f = stem +:+ ext.
Proof.
  unfold is_image_name, endswith_any. rewrite existsb_exists. split.
  - intros (ext & Hin & (stem & Hs)%endswith_inv).
    exists stem, ext. split; [by apply list_elem_of_In|done].
  - intros (stem & ext & Hin & Hs). exists ext.
    split; [by apply list_elem_of_In|]. rewrite Hs. apply endswith_app.
Qed.

Lemma length_lower (s : string) : String.length (lower s) = String.length s.
Proof. induction s as [|c s IH]; simpl; [done|]. by rewrite IH. Qed.

Lemma lower_substring (n k : nat) (s : string) :
  lower (String.substring n k s) = String.substring n k (lower s).
Proof.
  revert n k. induction s as [|c s IH]; intros n k.
  - by destruct n, k.
  - destruct n as [|n]; simpl.
    + destruct k as [|k]; [done|]. simpl. by rewrite IH.
    + apply IH.
Qed.

Lemma lower_ascii_dot (a : ascii) : Ascii.eqb (lower_ascii a) "." = Ascii.eqb a ".".
Proof. destruct a as [[] [] [] [] [] [] [] []]; reflexivity. Qed.

Lemma rfind_from_lower (s : string) (i : nat) :
  rfind_from "." (lower s) i = rfind_from "." s i.
Proof.
  revert i. induction s as [|a s IH]; intros i; [done|].
  simpl. by rewrite IH, lower_ascii_dot.
Qed.

Lemma rfind_from_app (c : ascii) (a b : string) (i : nat) :
  rfind_from c (a +:+ b) i =
  match rfind_from c b (i + String.length a) with
  | Some j => Some j
  | None => rfind_from c a i
  end.
Proof.
  revert i. induction a as [|x a IH]; intros i.
  - rewrite app_empty. simpl. rewrite Nat.add_0_r. by destruct (rfind_from c b i).
  - rewrite app_cons. simpl. rewrite IH.
    replace (S i + String.length a)%nat with (i + S (String.length a))%nat by lia.
    by destruct (rfind_from c b _).
Qed.

(** In a name that ends in one of the three extensions, the last dot is
    the one of the extension. *)
Lemma rfind_ext (stem ext : string) :
  ext ∈ image_suffixes ->
  rfind "." (stem +:+ ext) = Z.of_nat (String.length stem).
Proof.
  intros Hext. unfold rfind. rewrite rfind_from_app. unfold image_suffixes in Hext.
  repeat (apply elem_of_cons in Hext as [->|Hext]); [..|by apply elem_of_nil in Hext];
    simpl; done.
Qed.

Lemma ext_length (ext : string) :
  ext ∈ image_suffixes -> (4 <= String.length ext)%nat.
Proof.
  unfold image_suffixes. intros Hext.
  repeat (apply elem_of_cons in Hext as [->|Hext]); [..|by apply elem_of_nil in Hext];
    simpl; lia.
Qed.

(** X1.  The two tests of the script.  The splitter takes a name whose
    lower-cased form ends in .png, .jpg or .jpeg; the collector takes a
    file whose [Path.suffix], lower-cased, is one of the three.  They
    agree on every name but the three extensions themselves, in any case
    of letters: a file named [.jpg] has no suffix for [pathlib], so the
    collector skips it, while the splitter lists it.  In particular every
    name the collector copies is an image name for the splitter. *)
Theorem image_tests_compared (name : string) :
  is_image_name name = true <->
  is_recognised name = true \/ lower name ∈ image_suffixes.
Proof.
  rewrite image_name_iff. unfold is_recognised. rewrite bool_decide_eq_true. split.
  - intros (stem & ext & Hext & Hl).
    destruct stem as [|c stem]; [right; by rewrite Hl|left].
    assert (Hlen : String.length name = (String.length (String c stem)
                                         + String.length ext)%nat)
      by (by rewrite <- length_lower, Hl, length_app).
    pose proof (ext_length ext Hext) as H4.
    assert (Hr : rfind "." name = Z.of_nat (String.length (String c stem))).
    { unfold rfind. rewrite <- rfind_from_lower, Hl. by apply rfind_ext. }
    unfold suffix. rewrite Hr.
    assert ((0 <? Z.of_nat (String.length (String c stem))) &&
            (Z.of_nat (String.length (String c stem))
               <? Z.of_nat (String.length name) - 1) = true) as ->.
    { apply andb_true_iff. split; apply Z.ltb_lt; simpl String.length in *; lia. }
    rewrite Nat2Z.id, lower_substring, Hl, Hlen.
    replace (String.length (String c stem) + String.length ext
             - String.length (String c stem))%nat
      with (String.length ext) by lia.
    by rewrite substring_app_r.
  - intros [H|H].
    + unfold suffix in H.
      destruct ((0 <? rfind "." name)
                && (rfind "." name <? Z.of_nat (String.length name) - 1)) eqn:E.
      * apply andb_true_iff in E as [E1%Z.ltb_lt E2%Z.ltb_lt].
        exists (lower (String.substring 0 (Z.to_nat (rfind "." name)) name)).
        eexists. split; [exact H|].
        rewrite <- lower_app. f_equal. apply substring_split. lia.
      * exfalso. unfold image_suffixes in H.
        repeat (apply elem_of_cons in H as [H|H]; [discriminate H|]).
        by apply elem_of_nil in H.
    + exists EmptyString, (lower name). by rewrite app_empty.
Qed.
End NameFacts.


(* ===================================================================== *)
(** * The pipeline, stage by stage                                        *)
(* ===================================================================== *)

Section PipelineCases.
Context {R : Runtime}.

(** The two ways [subprocess.run(cmd, check=True)] ends. *)
Lemma subprocess_run_cases (cmd : list string) (w : World) :
  (exists x fs,
     exec cmd (w_ext w) (w_fs w) = (Exited 0, x, fs) /\
     subprocess_run cmd w = (Ok (), set_ext x (set_fs fs (log_add [EvExec cmd] w)))) \/
  (exists e w',
     (exec cmd (w_ext w) (w_fs w)).1.1 <> Exited 0 /\
     subprocess_run cmd w = (Raise e, w') /\
     w_log w' = w_log w ++ [EvExec cmd] /\
     external_tool_error e = true /\
     process_error cmd (exec cmd (w_ext w) (w_fs w)).1.1 = Some e).
Proof.
  destruct (exec cmd (w_ext w) (w_fs w)) as [[out x] fs] eqn:E.
  assert (Hcase : out = Exited 0 \/ out <> Exited 0).
  { destruct out as [c| | |n]; [|by right..].
    destruct (Z.eq_dec c 0) as [->|]; [by left|right; congruence]. }
  destruct Hcase as [->|Hne].
  - left. exists x, fs. split; [done|]. by apply subprocess_run_ok.
  - right. destruct (subprocess_run_failed cmd w) as (e & w' & Hrun & Hlog & Herr & _).
    { by rewrite E. }
    exists e, w'. rewrite E in Herr. cbn [fst] in Herr.
    split; [done|]. split; [done|]. split; [done|].
    split; [by apply (process_error_external cmd out)|done].
Qed.

(** A [CalledProcessError] comes from a program that ran: it carries the
    exit status, which is not 0, and the command. *)
Lemma process_error_status cmd outcome c cmd' :
  process_error cmd outcome = Some (CalledProcessError c cmd') ->
  outcome = Exited c /\ c <> 0 /\ cmd' = cmd.
Proof.
  destruct outcome as [c0| | |n]; cbn [process_error]; try done.
  destruct (Z.eqb_spec c0 0) as [->|Hc]; [done|]. by intros [= -> ->].
Qed.

Lemma all_exit_0_snoc cmds cmd x fs x1 fs1 x2 fs2 :
  all_exit_0 cmds x fs = Some (x1, fs1) ->
  exec cmd x1 fs1 = (Exited 0, x2, fs2) ->
  all_exit_0 (cmds ++ [cmd]) x fs = Some (x2, fs2).
Proof.
  revert x fs. induction cmds as [|c0 cmds IH]; intros x fs; cbn [all_exit_0 app].
  - intros [= -> ->] ->. done.
  - destruct (exec c0 x fs) as [[[c| | |n] x'] fs']; try done.
    destruct (c =? 0); [|done]. apply IH.
Qed.
End PipelineCases.

(** Brings the log of a world built by the steps of a run into the form
    [w_log w ++ events]. *)
Ltac simpl_log :=
  cbn [log_add set_ext set_fs set_rng w_log w_fs w_ext w_rng];
  unfold executed, printed, written, copied;
  rewrite ?omap_app; cbn [omap list_omap];
  rewrite ?app_nil_r, <- ?app_assoc; cbn [app].

(** Runs the next [subprocess.run] of the goal both ways. *)
Ltac run_stage Hexec :=
  match goal with
  | |- context [(subprocess_run ?c ≫= ?k) ?W] =>
      let Hrun := fresh "Hrun" in
      let Hlog := fresh "Hlog" in
      let Hext := fresh "Hext" in
      let Herr := fresh "Herr" in
      destruct (subprocess_run_cases c W)
        as [(? & ? & Hexec & Hrun)|(? & ? & _ & Hrun & Hlog & Hext & Herr)];
      [ rewrite (bind_ok _ _ _ _ _ Hrun); cbv beta zeta;
        cbn [log_add set_ext set_fs w_ext w_fs] in Hexec
      | rewrite (bind_raise _ _ _ _ _ Hrun);
        cbn [log_add set_ext set_fs w_ext w_fs] in Herr ]
  end.

Section PipelineOutcomes.
Context {R : Runtime}.

Lemma bind_assoc {A B C} (m : M A) (f : A -> M B) (g : B -> M C) (w : World) :
  ((m ≫= f) ≫= g) w = (m ≫= (fun a => f a ≫= g)) w.
Proof. rewrite !bind_unfold. by destruct (m w) as [[a|e] w1]. Qed.

Lemma last_two {A} (l : list A) (x y : A) : last (l ++ [x; y]) = Some y.
Proof. by rewrite (last_app l [x; y]). Qed.

Lemma not_among (line : string) (ls : list string) :
  Forall (fun l => l <> line) ls -> line ∉ ls.
Proof. intros Hls Hin. rewrite Forall_forall in Hls. by apply (Hls _ Hin). Qed.

(** X2.  The pipeline stops at the first stage that fails.  The commands it
    runs are an initial part of extractor, matcher, mapper, converter,
    each started in the state its predecessor left.  If it returns, every
    command run exited with status 0: the first three, and the converter
    exactly when the mapper left [sparse_dir/0]; the programs' state and
    the filesystem are as the last one left them and the line printed
    last is the completion message.  If it raises, the commands before
    the last one run exited with status 0, the last one did not (or could
    not be started), the exception is that of [subprocess.run] for it,
    and the completion message has not been printed; when the last one is
    the converter, the mapper had left [sparse_dir/0]. *)
Theorem pipeline_stops_at_first_failure
    (image_dir distorted_dir database_path sparse_dir : path) (w : World) :
  let res := run_colmap_pipeline image_dir distorted_dir database_path sparse_dir w in
  exists (ran : list (list string)) (lines : list string),
    executed (w_log res.2) = executed (w_log w) ++ ran /\
    printed (w_log res.2) = printed (w_log w) ++ lines /\
    ran `prefix_of` stage_commands image_dir database_path sparse_dir /\
    match res.1 with
    | Ok v =>
        v = PyNone /\ ((3 <= length ran)%nat) /\
        all_exit_0 ran (w_ext w) (w_fs w) = Some (w_ext res.2, w_fs res.2) /\
        (exists x3 fs3,
           all_exit_0 (take 3 (stage_commands image_dir database_path sparse_dir))
             (w_ext w) (w_fs w) = Some (x3, fs3) /\
           ran = take (if FS.exists_ fs3 ("0" :: sparse_dir) then 4 else 3)
                   (stage_commands image_dir database_path sparse_dir)) /\
        last lines = Some "COLMAP processing complete"
    | Raise e =>
        exists (before : list (list string)) (cmd : list string) x fs,
          ran = before ++ [cmd] /\
          all_exit_0 before (w_ext w) (w_fs w) = Some (x, fs) /\
          (exec cmd x fs).1.1 <> Exited 0 /\
          process_error cmd (exec cmd x fs).1.1 = Some e /\
          external_tool_error e = true /\
          (length before = 3%nat -> FS.exists_ fs ("0" :: sparse_dir) = true) /\
          ("COLMAP processing complete" ∉ lines)
    end.
Proof.
  cbv zeta. unfold run_colmap_pipeline, stage_commands. cbv zeta.
  set (c1 := cmd_extract image_dir database_path).
  set (c2 := cmd_match database_path).
  set (c3 := cmd_mapper image_dir database_path sparse_dir).
  set (c4 := cmd_convert ("0" :: sparse_dir)).
  assert (Hne : forall cmd x fs e,
            process_error cmd (exec cmd x fs).1.1 = Some e ->
            (exec cmd x fs).1.1 <> Exited 0).
  { intros cmd x fs e He Heq. by rewrite Heq in He. }
  mstep (print_run "Running feature extraction..." w).
  run_stage H1.
  2:{ exists [c1], ["Running feature extraction..."]. cbn [fst snd]. rewrite Hlog.
      simpl_log. split_and!; try done.
      { repeat apply prefix_cons; apply prefix_nil. }
      exists [], c1, (w_ext w), (w_fs w). split_and!; try done.
      - by eapply Hne.
      - apply not_among. by repeat constructor. }
  pose proof (all_exit_0_snoc [] c1 _ _ _ _ _ _ eq_refl H1) as A1. cbn [app] in A1.
  mstep (print_run "Running feature matching..." _).
  run_stage H2.
  2:{ exists [c1; c2], ["Running feature extraction..."; "Running feature matching..."].
      cbn [fst snd]. rewrite Hlog. simpl_log. split_and!; try done.
      { repeat apply prefix_cons; apply prefix_nil. }
      eexists [c1], c2, _, _. split_and!; try done.
      - by eapply Hne.
      - apply not_among. by repeat constructor. }
  pose proof (all_exit_0_snoc _ c2 _ _ _ _ _ _ A1 H2) as A2. cbn [app] in A2.
  mstep (print_run "Running sparse reconstruction..." _).
  run_stage H3.
  2:{ exists [c1; c2; c3],
        ["Running feature extraction..."; "Running feature matching...";
         "Running sparse reconstruction..."].
      cbn [fst snd]. rewrite Hlog. simpl_log. split_and!; try done.
      { repeat apply prefix_cons; apply prefix_nil. }
      eexists [c1; c2], c3, _, _. split_and!; try done.
      - by eapply Hne.
      - apply not_among. by repeat constructor. }
  pose proof (all_exit_0_snoc _ c3 _ _ _ _ _ _ A2 H3) as A3. cbn [app] in A3.
  unfold path_exists. rewrite bind_unfold. rewrite (bind_unfold get_fs).
  cbn [get_fs]. rewrite ret_unfold.
  cbn [log_add set_ext set_fs w_fs].
  match goal with |- context [FS.exists_ ?fs ?p] => destruct (FS.exists_ fs p) eqn:Emodel end.
  - rewrite bind_assoc. mstep (print_run "Converting to text format..." _).
    run_stage H4.
    2:{ exists [c1; c2; c3; c4],
          ["Running feature extraction..."; "Running feature matching...";
           "Running sparse reconstruction..."; "Converting to text format..."].
        cbn [fst snd]. rewrite Hlog. simpl_log. split_and!; try done.
        eexists [c1; c2; c3], c4, _, _. split_and!; try done.
        - by eapply Hne.
        - apply not_among. by repeat constructor. }
    pose proof (all_exit_0_snoc _ c4 _ _ _ _ _ _ A3 H4) as A4. cbn [app] in A4.
    mstep (print_run "COLMAP processing complete" _). rewrite ret_unfold.
    exists [c1; c2; c3; c4],
      ["Running feature extraction..."; "Running feature matching...";
       "Running sparse reconstruction..."; "Converting to text format...";
       "COLMAP processing complete"].
    cbn [fst snd]. simpl_log. split_and!; try done; [cbn; lia|].
    eexists _, _. split; [exact A3|]. by rewrite Emodel.
  - rewrite bind_unfold, ret_unfold.
    mstep (print_run "COLMAP processing complete" _). rewrite ret_unfold.
    exists [c1; c2; c3],
      ["Running feature extraction..."; "Running feature matching...";
       "Running sparse reconstruction..."; "COLMAP processing complete"].
    cbn [fst snd]. simpl_log. split_and!; try done.
    { repeat apply prefix_cons. apply prefix_nil. }
    eexists _, _. split; [exact A3|]. by rewrite Emodel.
Qed.
End PipelineOutcomes.

Section ConverterFacts.
Context {R : Runtime}.

(** X3.  When the three stages succeed and the mapper has left [sparse_dir/0],
    the converter is run on that directory after them, so that the four
    stage commands run in order; its exit status decides the outcome: with
    status 0 the pipeline returns and the completion line is the last
    printed, with any other status [CalledProcessError] carries that status
    and the converter's command.  The filesystem is the one the converter
    left. *)
Theorem model_is_converted
    (image_dir distorted_dir database_path sparse_dir : path) (w : World)
    x1 fs1 x2 fs2 x3 fs3 (c : Z) x4 fs4 :
  exec (cmd_extract image_dir database_path) (w_ext w) (w_fs w) = (Exited 0, x1, fs1) ->
  exec (cmd_match database_path) x1 fs1 = (Exited 0, x2, fs2) ->
  exec (cmd_mapper image_dir database_path sparse_dir) x2 fs2 = (Exited 0, x3, fs3) ->
  FS.exists_ fs3 ("0" :: sparse_dir) = true ->
  exec (cmd_convert ("0" :: sparse_dir)) x3 fs3 = (Exited c, x4, fs4) ->
  exists w',
    run_colmap_pipeline image_dir distorted_dir database_path sparse_dir w =
      (if c =? 0 then Ok PyNone
       else Raise (CalledProcessError c (cmd_convert ("0" :: sparse_dir))), w') /\
    executed (w_log w') =
      executed (w_log w) ++ stage_commands image_dir database_path sparse_dir /\
    w_fs w' = fs4 /\
    last (printed (w_log w')) =
      Some (if c =? 0 then "COLMAP processing complete"
            else "Converting to text format...").
Proof.
  intros H1 H2 H3 Hmodel H4. unfold run_colmap_pipeline, stage_commands.
  mstep (print_run "Running feature extraction..." w).
  mstep_run H1.
  mstep (print_run "Running feature matching..." _).
  mstep_run H2.
  mstep (print_run "Running sparse reconstruction..." _).
  mstep_run H3.
  unfold path_exists. rewrite bind_unfold, (bind_unfold get_fs).
  cbn [get_fs set_ext set_fs log_add w_fs]. rewrite ret_unfold, Hmodel.
  rewrite bind_assoc. mstep (print_run "Converting to text format..." _).
  rewrite bind_unfold. unfold subprocess_run at 1. rewrite bind_unfold.
  cbn [emit]. unfold wait_process. cbn [log_add set_ext set_fs w_ext w_fs].
  rewrite H4. destruct (c =? 0).
  - mstep (print_run "COLMAP processing complete" _). rewrite ret_unfold.
    eexists. split; [done|]. simpl_log. split_and!; try done.
    by rewrite last_app.
  - eexists. split; [done|]. simpl_log. split_and!; try done.
    by rewrite last_app.
Qed.
End ConverterFacts.

Module ConverterExamples.
Import TestDouble.

(** The mapper writes a model into the skeleton of [reused_fs]; the
    converter then exits with status 0. *)
Lemma model_is_converted_witness :
  let R := runtime (exec_with_model ["0"; "sparse"; "distorted"; "out"]) in
  let w := world R reused_fs 42%N tt in
  let image_dir := ["input"; "out"] in
  let distorted_dir := ["distorted"; "out"] in
  let database_path := ["database.db"; "distorted"; "out"] in
  let sparse_dir := ["sparse"; "distorted"; "out"] in
  let fs3 := <[ "0" :: sparse_dir := Dir ]> reused_fs in
  exists w',
    run_colmap_pipeline image_dir distorted_dir database_path sparse_dir w =
      (if 0 =? 0 then Ok PyNone
       else Raise (CalledProcessError 0 (cmd_convert ("0" :: sparse_dir))), w') /\
    executed (w_log w') =
      executed (w_log w) ++ stage_commands image_dir database_path sparse_dir /\
    w_fs w' = fs3 /\
    last (printed (w_log w')) =
      Some (if 0 =? 0 then "COLMAP processing complete"
            else "Converting to text format...").
Proof.
  cbv zeta.
  apply (@model_is_converted
           (runtime (exec_with_model ["0"; "sparse"; "distorted"; "out"]))
           _ _ _ _ _ tt reused_fs tt reused_fs tt
           (<[ ["0"; "sparse"; "distorted"; "out"] := Dir ]> reused_fs) 0 tt
           (<[ ["0"; "sparse"; "distorted"; "out"] := Dir ]> reused_fs)).
  - reflexivity.
  - reflexivity.
  - reflexivity.
  - vm_compute; reflexivity.
  - reflexivity.
Defined.
End ConverterExamples.

(* ===================================================================== *)
(** * The splitter at its edges                                           *)
(* ===================================================================== *)

Section ReadsOnly.
Context {R : Runtime}.

Lemma reads_only_ret {A} (a : A) : reads_only (mret a : M A).
Proof. by intros w. Qed.

Lemma reads_only_raise {A} (e : exn) : reads_only (raise e : M A).
Proof. by intros w. Qed.

Lemma reads_only_bind {A B} (m : M A) (k : A -> M B) :
  reads_only m -> (forall a, reads_only (k a)) -> reads_only (m ≫= k).
Proof.
  intros Hm Hk w. rewrite bind_unfold. specialize (Hm w).
  destruct (m w) as [[a|e] w1]; cbn [snd] in *; [|done].
  destruct (Hk a w1) as (-> & -> & ->). done.
Qed.

Lemma reads_only_os_listdir (p : path) : reads_only (os_listdir p).
Proof. intros w. by rewrite os_listdir_world. Qed.

Lemma reads_only_random_shuffle {A} (x : list A) : reads_only (random_shuffle x).
Proof. intros w. by rewrite random_shuffle_unfold. Qed.

Lemma reads_only_int_of_product (total : Z) (ratio : spec_float) :
  reads_only (int_of_product total ratio).
Proof. intros w. by rewrite (int_of_product_world _ _ w w). Qed.

Lemma reads_only_split_images (image_dir : path) (train_ratio val_ratio : spec_float) :
  reads_only (split_images image_dir train_ratio val_ratio).
Proof.
  unfold split_images.
  apply reads_only_bind; [apply reads_only_os_listdir|intros names].
  apply reads_only_bind; [apply reads_only_random_shuffle|intros images].
  apply reads_only_bind; [apply reads_only_int_of_product|intros te].
  apply reads_only_bind; [apply reads_only_int_of_product|intros vl].
  apply reads_only_ret.
Qed.
(** X4.  The splitter only reads: whatever the directory, the ratios and the
    outcome, it leaves the filesystem, the external programs and the log
    as they were.  All it changes is the state of the random generator. *)
Theorem split_images_reads_only (image_dir : path) (train_ratio val_ratio : spec_float) :
  reads_only (split_images image_dir train_ratio val_ratio).
Proof.
  intros w. unfold split_images. rewrite bind_unfold.
  destruct (reads_only_os_listdir image_dir w) as (Hfs & Hext & Hlog).
  destruct (os_listdir image_dir w) as [[names|e] w1]; cbn [snd] in *; [|done].
  rewrite <- Hfs, <- Hext, <- Hlog.
  apply (reads_only_bind (random_shuffle _)); [apply reads_only_random_shuffle|].
  intros images.
  apply reads_only_bind; [apply reads_only_int_of_product|intros train_end].
  apply reads_only_bind; [apply reads_only_int_of_product|intros val_len].
  apply reads_only_ret.
Qed.
End ReadsOnly.

Section SplitEdges.
Context {R : Runtime}.

Lemma set_rng_same (w : World) : set_rng (w_rng w) w = w.
Proof. by destruct w. Qed.

(** X5.  On a path that is not a directory the splitter raises what
    [os.listdir] raises, [FileNotFoundError] when the path does not exist
    and [NotADirectoryError] otherwise, before the generator is used:
    the world stays as it was. *)
Theorem split_images_needs_directory
    (image_dir : path) (train_ratio val_ratio : spec_float) (w : World) :
  FS.is_dir (w_fs w) image_dir = false ->
  split_images image_dir train_ratio val_ratio w =
    (Raise (match FS.stat (w_fs w) image_dir with
            | FS.Missing => FileNotFoundError (path_str image_dir)
            | _ => NotADirectoryError (path_str image_dir)
            end), w).
Proof.
  unfold FS.is_dir. intros Hdir. unfold split_images, os_listdir.
  rewrite !bind_unfold. cbn [get_fs].
  by destruct (FS.stat (w_fs w) image_dir) as [[|]| |].
Qed.

Lemma mul_zero_finite (r : spec_float) :
  Float64.is_finite r = true ->
  exists s, Float64.mul (Float64.of_int 0) r = S754_zero s.
Proof. destruct r as [s|s| |s m e]; try done; intros _; by eexists. Qed.

(** X6.  A directory without images: for any two finite ratios the three
    subsets are empty, and the world, generator included, stays as it
    was. *)
Theorem no_images_empty_split
    (image_dir : path) (train_ratio val_ratio : spec_float) (w : World) :
  FS.is_dir (w_fs w) image_dir = true ->
  (forall f, f ∈ FS.children (w_fs w) image_dir -> is_image_name f = false) ->
  Float64.is_finite train_ratio = true -> Float64.is_finite val_ratio = true ->
  split_images image_dir train_ratio val_ratio w =
    (Ok {| train := []; val := []; test := [] |}, w).
Proof.
  intros Hdir Hnone Htr Hvr. unfold split_images.
  rewrite (bind_ok _ _ _ _ _ (os_listdir_dir image_dir w Hdir)).
  assert (filter (fun f => is_image_name f) (FS.children (w_fs w) image_dir) = [])
    as ->.
  { induction (FS.children (w_fs w) image_dir) as [|f l IH]; [done|].
    rewrite filter_cons.
    destruct (decide (is_image_name f)) as [Hf|Hf].
    - rewrite (Hnone f) in Hf by apply list_elem_of_here. done.
    - apply IH. intros f' Hf'. apply Hnone. by apply list_elem_of_further. }
  rewrite bind_unfold, random_shuffle_unfold. cbn [length Nat.sub shuffle_loop fst snd].
  rewrite set_rng_same. change (Z.of_nat 0) with 0.
  destruct (mul_zero_finite _ Htr) as [s1 H1].
  destruct (mul_zero_finite _ Hvr) as [s2 H2].
  unfold int_of_product. rewrite H1, H2. done.
Qed.
End SplitEdges.

Module SplitEdgeExamples.
Import TestDouble.

(** [shots/img0.jpg] is a file, not a directory. *)
Lemma split_images_needs_directory_witness :
  let w := ten_world in
  let d := ["img0.jpg"; "shots"] in
  FS.is_dir (w_fs w) d = false /\
  split_images d default_train_ratio default_val_ratio w =
    (Raise (match FS.stat (w_fs w) d with
            | FS.Missing => FileNotFoundError (path_str d)
            | _ => NotADirectoryError (path_str d)
            end), w).
Proof.
  cbv zeta.
  assert (Hd : FS.is_dir (w_fs ten_world) ["img0.jpg"; "shots"] = false)
    by (vm_compute; reflexivity).
  split; [exact Hd|].
  apply (split_images_needs_directory _ _ _ _ Hd).
Defined.

(** The root of [photos_fs] holds one entry, the folder [photos], and no
    image. *)
Lemma no_images_empty_split_witness :
  let R := runtime exec_ok in
  let w := world R photos_fs 42%N tt in
  split_images [] Float64.lit_0_8 Float64.lit_0_1 w =
    (Ok {| train := []; val := []; test := [] |}, w).
Proof.
  cbv zeta. apply (@no_images_empty_split (runtime exec_ok)).
  - reflexivity.
  - vm_compute. intros f Hf.
    apply list_elem_of_singleton in Hf. subst f. reflexivity.
  - reflexivity.
  - reflexivity.
Defined.
End SplitEdgeExamples.

(* ===================================================================== *)
(** * Directory creation only adds directories                            *)
(* ===================================================================== *)

Module GrowFacts.
Import FS MkdirFacts.

Lemma grows_refl fs : grows fs fs.
Proof. intros q. by left. Qed.

Lemma grows_trans fs1 fs2 fs3 : grows fs1 fs2 -> grows fs2 fs3 -> grows fs1 fs3.
Proof.
  intros H12 H23 q. destruct (H12 q) as [E12|[E1 E2]], (H23 q) as [E23|[E2' E3]].
  - left. congruence.
  - right. split; congruence.
  - right. split; congruence.
  - congruence.
Qed.

Lemma grows_insert_dir fs p : fs !! p = None -> grows fs (<[p := Dir]> fs).
Proof.
  intros Hp q. destruct (decide (q = p)) as [->|Hq].
  - right. by rewrite lookup_insert_eq.
  - left. by rewrite lookup_insert_ne.
Qed.

Lemma os_mkdir_grows p fs fs' : os_mkdir p fs = Ok fs' -> grows fs fs'.
Proof.
  intros (n & parent & -> & _ & Hnone & ->)%os_mkdir_Ok. by apply grows_insert_dir.
Qed.

Lemma mkdir_flat_grows p exist_ok fs fs' :
  mkdir_flat p exist_ok fs = Ok fs' -> grows fs fs'.
Proof.
  unfold mkdir_flat. destruct (os_mkdir p fs) as [fs1|e] eqn:E.
  - intros [= <-]. by eapply os_mkdir_grows.
  - destruct e; try done; destruct (exist_ok && is_dir fs p); try done;
      intros [= <-]; apply grows_refl.
Qed.

Lemma mkdir_parents_grows p exist_ok fs fs' :
  mkdir_parents p exist_ok fs = Ok fs' -> grows fs fs'.
Proof.
  revert exist_ok fs fs'. induction p as [|n parent IH]; intros exist_ok fs fs'.
  - cbn. destruct exist_ok; cbn; [intros [= <-]; apply grows_refl|done].
  - cbn [mkdir_parents]. destruct (os_mkdir (n :: parent) fs) as [fs1|e] eqn:E.
    + intros [= <-]. by eapply os_mkdir_grows.
    + destruct e; try done;
        try (destruct (exist_ok && is_dir fs (n :: parent)); try done;
             intros [= <-]; apply grows_refl).
      destruct (mkdir_parents parent true fs) as [fs1|e] eqn:Ep; [|done].
      apply IH in Ep. intros Hflat%mkdir_flat_grows. by eapply grows_trans.
Qed.

Lemma path_mkdir_grows p parents exist_ok fs fs' :
  path_mkdir p parents exist_ok fs = Ok fs' -> grows fs fs'.
Proof.
  unfold path_mkdir. destruct parents.
  - apply mkdir_parents_grows.
  - apply mkdir_flat_grows.
Qed.

Lemma makedirs_finish_post p fs fs' :
  makedirs_finish p true fs = Ok fs' -> is_dir fs' p = true /\ extends fs fs' /\ grows fs fs'.
Proof.
  unfold makedirs_finish. destruct (os_mkdir p fs) as [fs1|e] eqn:E.
  - intros [= <-]. destruct (os_mkdir_post _ _ _ E). split_and!; try done.
    by eapply os_mkdir_grows.
  - cbn [andb]. destruct (is_dir fs p) eqn:Ed; [|done].
    intros [= <-]. split_and!; [done|apply extends_refl|apply grows_refl].
Qed.

Lemma makedirs_unfold p exist_ok fs :
  makedirs p exist_ok fs =
  match p with
  | [] => makedirs_finish p exist_ok fs
  | _ :: head =>
      if bool_decide (head <> []) && negb (exists_ fs head) then
        match makedirs head exist_ok fs with
        | Ok fs1 => makedirs_finish p exist_ok fs1
        | Raise (FileExistsError _) => makedirs_finish p exist_ok fs
        | Raise e => Raise e
        end
      else makedirs_finish p exist_ok fs
  end.
Proof. by destruct p. Qed.

(** [os.makedirs(p, exist_ok=True)] that returns has made [p] a
    directory, has hidden nothing and has added directories only. *)
Lemma makedirs_post p fs fs' :
  makedirs p true fs = Ok fs' -> is_dir fs' p = true /\ extends fs fs' /\ grows fs fs'.
Proof.
  revert fs fs'. induction p as [|n head IH]; intros fs fs'; rewrite makedirs_unfold.
  - apply makedirs_finish_post.
  - destruct (bool_decide (head <> []) && negb (exists_ fs head)); [|apply makedirs_finish_post].
    destruct (makedirs head true fs) as [fs1|e] eqn:Eh.
    + apply IH in Eh as (_ & Hext & Hgr).
      intros (Hd & Hext' & Hgr')%makedirs_finish_post. split_and!; [done| |].
      * by eapply extends_trans.
      * by eapply grows_trans.
    + destruct e; try done. apply makedirs_finish_post.
Qed.

End GrowFacts.

(* ===================================================================== *)
(** * Frame extraction                                                    *)
(* ===================================================================== *)

Section ExtractFacts.
Context {R : Runtime}.

Lemma lift_fs_Raise (op : filesystem -> result filesystem) (w : World) e :
  op (w_fs w) = Raise e -> lift_fs op w = (Raise e, w).
Proof. intros H. unfold lift_fs. by rewrite H. Qed.

Lemma extract_frames_run (video : string) (output_dir : path) (fps : Z) (w : World) fs1 :
  FS.makedirs output_dir true (w_fs w) = Ok fs1 ->
  let cmd := ffmpeg_command video output_dir fps in
  let w1 := log_add [EvPrint ("Extracting frames at " +:+ pretty fps +:+ " fps...");
                     EvExec cmd] (set_fs fs1 w) in
  extract_frames_from_video video output_dir fps w =
  match exec cmd (w_ext w) fs1 with
  | (Exited c, x, fs2) =>
      (if c =? 0 then Ok PyNone else Raise (CalledProcessError c cmd),
       set_ext x (set_fs fs2 w1))
  | (NotFound, _, _) => (Raise (FileNotFoundError "ffmpeg"), w1)
  | (NotPermitted, _, _) => (Raise (PermissionError "ffmpeg"), w1)
  | (ExecFailed errno, _, _) => (Raise (OSError errno "ffmpeg"), w1)
  end.
Proof.
  intros Emk. cbv zeta. unfold extract_frames_from_video, os_makedirs. cbv zeta.
  fold (ffmpeg_command video output_dir fps).
  rewrite (bind_ok _ _ _ _ _ (lift_fs_Ok _ _ _ Emk)).
  rewrite (bind_ok _ _ _ _ _ (print_run _ _)).
  rewrite bind_unfold. unfold subprocess_run. rewrite bind_unfold.
  cbn [emit]. unfold wait_process, log_add.
  cbn [set_ext set_fs w_ext w_fs w_log w_rng].
  destruct (exec _ _ _) as [[[c| | |n] x] fs2]; [destruct (c =? 0)|..];
    rewrite ?ret_unfold, <- ?app_assoc; done.
Qed.

(** X7.  Frame extraction, case by case, for the video string as the caller
    gives it and an output directory written as [pathlib] prints it.
    When [os.makedirs] raises, the exception leaves the function and
    nothing is printed or run.  Otherwise the output directory is a
    directory from then on, nothing that existed is hidden and only
    directories were added; the progress line is printed and one command
    is run, the [ffmpeg] line with the video string unchanged, the [fps]
    filter, quality 2 and the frame pattern joined to the output
    directory.  The function returns [None] when ffmpeg exits with status
    0; another status is a [CalledProcessError] carrying it and the
    command; a program that cannot be started is a [FileNotFoundError]
    when there is none, a [PermissionError] when it may not be executed,
    the [OSError] of the refusal otherwise, and has touched nothing. *)
Theorem extract_frames_outcomes (video : string) (output_dir : path) (fps : Z) (w : World) :
  let res := extract_frames_from_video video output_dir fps w in
  let cmd := [ "ffmpeg"; "-i"; video; "-vf"; "fps=" +:+ pretty fps; "-qscale:v"; "2";
               PyStr.os_path_join (path_str output_dir) "frame_%04d.jpg" ] in
  match FS.makedirs output_dir true (w_fs w) with
  | Raise e => res = (Raise e, w)
  | Ok fs1 =>
      FS.is_dir fs1 output_dir = true /\ FS.extends (w_fs w) fs1 /\ grows (w_fs w) fs1 /\
      printed (w_log res.2) =
        printed (w_log w) ++ ["Extracting frames at " +:+ pretty fps +:+ " fps..."] /\
      executed (w_log res.2) = executed (w_log w) ++ [cmd] /\
      copied (w_log res.2) = copied (w_log w) /\
      written (w_log res.2) = written (w_log w) /\
      w_rng res.2 = w_rng w /\
      match exec cmd (w_ext w) fs1 with
      | (Exited c, x, fs2) =>
          res.1 = (if c =? 0 then Ok PyNone else Raise (CalledProcessError c cmd)) /\
          w_fs res.2 = fs2 /\ w_ext res.2 = x
      | (NotFound, _, _) =>
          res.1 = Raise (FileNotFoundError "ffmpeg") /\
          w_fs res.2 = fs1 /\ w_ext res.2 = w_ext w
      | (NotPermitted, _, _) =>
          res.1 = Raise (PermissionError "ffmpeg") /\
          w_fs res.2 = fs1 /\ w_ext res.2 = w_ext w
      | (ExecFailed errno, _, _) =>
          res.1 = Raise (OSError errno "ffmpeg") /\
          w_fs res.2 = fs1 /\ w_ext res.2 = w_ext w
      end
  end.
Proof.
  cbv zeta. fold (ffmpeg_command video output_dir fps).
  destruct (FS.makedirs output_dir true (w_fs w)) as [fs1|e] eqn:Emk.
  - destruct (GrowFacts.makedirs_post _ _ _ Emk) as (Hd & Hext & Hgr).
    split_and!; try done.
    all: rewrite (extract_frames_run _ _ _ _ _ Emk);
      destruct (exec _ _ _) as [[[c| | |n] x] fs2]; [destruct (c =? 0)|..];
      cbn [fst snd]; by simpl_log.
  - unfold extract_frames_from_video, os_makedirs.
    by rewrite (bind_raise _ _ _ _ _ (lift_fs_Raise _ _ _ Emk)).
Qed.

(** The frame pattern of a run lies in the directory of the frames: for
    a directory with a name, joining is adding a component. *)
Lemma frame_pattern_example :
  ffmpeg_command "./clip.mp4" ["extracted_frames"; "out"] 2
  = [ "ffmpeg"; "-i"; "./clip.mp4"; "-vf"; "fps=2"; "-qscale:v"; "2";
      "out/extracted_frames/frame_%04d.jpg" ].
Proof. vm_compute. reflexivity. Qed.
End ExtractFacts.

(* ===================================================================== *)
(** * What a computation does to the filesystem                           *)
(* ===================================================================== *)

Section FsRel.
Context {R : Runtime}.
Context (Rel : filesystem -> filesystem -> Prop).
Context (Rel_refl : forall fs, Rel fs fs).
Context (Rel_trans : forall fs1 fs2 fs3, Rel fs1 fs2 -> Rel fs2 fs3 -> Rel fs1 fs3).

Lemma fs_rel_same {A} (m : M A) :
  (forall w, w_fs (m w).2 = w_fs w) -> fs_rel m Rel.
Proof using Rel_refl. intros H w. rewrite H. apply Rel_refl. Qed.

Lemma fs_rel_reads_only {A} (m : M A) : reads_only m -> fs_rel m Rel.
Proof using Rel_refl. intros H. apply fs_rel_same. intros w. apply H. Qed.

Lemma fs_rel_ret {A} (a : A) : fs_rel (mret a : M A) Rel.
Proof using Rel_refl. by apply fs_rel_same. Qed.

Lemma fs_rel_raise {A} (e : exn) : fs_rel (raise e : M A) Rel.
Proof using Rel_refl. by apply fs_rel_same. Qed.

Lemma fs_rel_emit ev : fs_rel (emit ev) Rel.
Proof using Rel_refl. by apply fs_rel_same. Qed.

Lemma fs_rel_print line : fs_rel (print line) Rel.
Proof using Rel_refl. apply fs_rel_emit. Qed.

Lemma fs_rel_get_fs : fs_rel get_fs Rel.
Proof using Rel_refl. by apply fs_rel_same. Qed.

Lemma fs_rel_random_seed a : fs_rel (random_seed a) Rel.
Proof using Rel_refl. by apply fs_rel_same. Qed.

Lemma fs_rel_lift_fs op :
  (forall fs fs', op fs = Ok fs' -> Rel fs fs') -> fs_rel (lift_fs op) Rel.
Proof using Rel_refl.
  intros H w. unfold lift_fs. destruct (op (w_fs w)) as [fs'|e] eqn:E; cbn; [|done].
  by apply H.
Qed.

Lemma fs_rel_bind {A B} (m : M A) (k : A -> M B) :
  fs_rel m Rel -> (forall a, fs_rel (k a) Rel) -> fs_rel (m ≫= k) Rel.
Proof using Rel_trans.
  intros Hm Hk w. rewrite bind_unfold. specialize (Hm w).
  destruct (m w) as [[a|e] w1]; cbn [snd] in *; [|done].
  eapply Rel_trans; [exact Hm|apply Hk].
Qed.

Lemma fs_rel_try_except {A} (body handler : M A) handles :
  fs_rel body Rel -> fs_rel handler Rel -> fs_rel (try_except body handles handler) Rel.
Proof using Rel_trans.
  intros Hb Hh w. unfold try_except. specialize (Hb w).
  destruct (body w) as [[a|e] w1]; cbn [snd] in *; [done|].
  destruct (handles e); [|done]. eapply Rel_trans; [exact Hb|apply Hh].
Qed.

End FsRel.

(* ===================================================================== *)
(** * The skeleton, whatever is in the way                                *)
(* ===================================================================== *)

Module KeptFacts.
Import FS.

Lemma kept_refl T fs : kept T fs fs.
Proof. by intros q nd. Qed.

Lemma kept_trans T fs1 fs2 fs3 : kept T fs1 fs2 -> kept T fs2 fs3 -> kept T fs1 fs3.
Proof. intros H12 H23 q nd HT H. by apply H23, H12. Qed.

Lemma grows_kept T fs fs' : grows fs fs' -> kept T fs fs'.
Proof.
  intros Hg q nd _ Hq. destruct (Hg q) as [->|[Hn _]]; [done|congruence].
Qed.

Lemma kept_insert (T : path -> Prop) fs p x : T p -> kept T fs (<[p := x]> fs).
Proof.
  intros Hp q nd Hq Hl. rewrite lookup_insert_ne; [done|]. by intros ->.
Qed.

Lemma write_file_kept (T : path -> Prop) p data fs fs' :
  T p -> write_file p data fs = Ok fs' -> kept T fs fs'.
Proof.
  intros Hp. unfold write_file. destruct p as [|n parent]; [done|].
  destruct (stat fs parent) as [[|]| |]; try done.
  destruct (fs !! (n :: parent)) as [[|d m]|]; try done;
    intros [= <-]; by apply kept_insert.
Qed.

Lemma copy2_kept (T : path -> Prop) src dst fs fs' :
  T dst -> T (path_name src :: dst) -> copy2 src dst fs = Ok fs' -> kept T fs fs'.
Proof.
  intros Hdst Hin. unfold copy2.
  set (target := if is_dir fs dst then path_name src :: dst else dst).
  assert (Ht : T target) by (subst target; by destruct (is_dir fs dst)).
  destruct (bool_decide (src = target) && exists_ fs src); [done|].
  destruct (stat fs src) as [[|d m]| |]; try done.
  destruct target as [|n parent]; [done|].
  destruct (stat fs parent) as [[|]| |]; try done.
  destruct (fs !! (n :: parent)) as [[|d' m']|]; try done;
    intros [= <-]; by apply kept_insert.
Qed.

End KeptFacts.

Section LayoutEdges.
Context {R : Runtime}.

Lemma added_refl fs : added fs fs.
Proof. split; [apply GrowFacts.grows_refl|apply MkdirFacts.extends_refl]. Qed.

Lemma added_trans fs1 fs2 fs3 : added fs1 fs2 -> added fs2 fs3 -> added fs1 fs3.
Proof.
  intros [G1 E1] [G2 E2].
  split; [by eapply GrowFacts.grows_trans|by eapply MkdirFacts.extends_trans].
Qed.

Lemma path_mkdir_added p parents fs fs' :
  FS.path_mkdir p parents true fs = Ok fs' -> added fs fs'.
Proof.
  intros H. split; [by eapply GrowFacts.path_mkdir_grows|].
  unfold FS.path_mkdir in H. destruct parents.
  - by apply MkdirFacts.mkdir_parents_post in H as [_ ?].
  - by apply MkdirFacts.mkdir_flat_post in H as [_ ?].
Qed.

(** X8.  Whatever is there and however it ends, laying out the skeleton only
    adds directories: every entry of the filesystem stays bound as it
    was, a path that was free is afterwards free or a directory, and
    whatever resolved before resolves to the same node. *)
Theorem build_layout_only_adds_directories (base_dir : path) :
  fs_rel (build_layout base_dir)
    (fun fs fs' => grows fs fs' /\ FS.extends fs fs').
Proof.
  change (fs_rel (build_layout base_dir) added).
  unfold build_layout. cbv zeta.
  repeat (apply (fs_rel_bind _ added_trans); [|intros ?]);
    apply (fs_rel_lift_fs _ added_refl); intros fs fs'; apply path_mkdir_added.
Qed.

Lemma is_file_Found fs p :
  FS.is_file fs p = true -> exists d m, FS.stat fs p = FS.Found (File d m).
Proof.
  unfold FS.is_file. destruct (FS.stat fs p) as [[|d m]| |]; try done. by exists d, m.
Qed.

(** One [mkdir(exist_ok=True)] inside a directory: a regular file of that
    name makes it raise; otherwise the name is a directory afterwards
    and no other entry has changed. *)
Lemma flat_step (n : string) (parent : path) (w : World) :
  FS.stat (w_fs w) parent = FS.Found Dir ->
  (exists d m, w_fs w !! (n :: parent) = Some (File d m) /\
     path_mkdir (n :: parent) false true w =
       (Raise (FileExistsError (path_str (n :: parent))), w)) \/
  (exists fs', path_mkdir (n :: parent) false true w = (Ok (), set_fs fs' w) /\
     FS.extends (w_fs w) fs' /\
     FS.stat fs' (n :: parent) = FS.Found Dir /\
     (forall q, q <> n :: parent -> fs' !! q = w_fs w !! q) /\
     forall d m, w_fs w !! (n :: parent) <> Some (File d m)).
Proof.
  intros Hpar. unfold path_mkdir, FS.path_mkdir, lift_fs, FS.mkdir_flat, FS.os_mkdir.
  rewrite Hpar. unfold FS.is_dir. cbn [FS.stat]. rewrite Hpar.
  destruct (w_fs w !! (n :: parent)) as [[|d m]|] eqn:El; cbn [andb].
  - right. exists (w_fs w). rewrite set_fs_same. split_and!.
    + done.
    + apply MkdirFacts.extends_refl.
    + by apply MkdirFacts.stat_Found_cons.
    + done.
    + done.
  - left. by exists d, m.
  - right. exists (<[n :: parent := Dir]> (w_fs w)). split_and!.
    + done.
    + by apply MkdirFacts.extends_insert_new.
    + apply MkdirFacts.stat_Found_cons. split; [|apply lookup_insert_eq].
      by apply MkdirFacts.extends_insert_new.
    + intros q Hq. by rewrite lookup_insert_ne.
    + done.
Qed.

(** X9.  [exist_ok] accepts a directory, not a regular file: when one of the
    four skeleton paths is a regular file, the layout raises
    [FileExistsError] for a skeleton path that is bound to a regular
    file. *)
Theorem layout_blocked_by_file (base_dir p : path) (w : World) :
  p ∈ skeleton base_dir ->
  FS.is_file (w_fs w) p = true ->
  exists (q : path) (w' : World),
    q ∈ skeleton base_dir /\
    (exists d m, w_fs w !! q = Some (File d m)) /\
    build_layout base_dir w = (Raise (FileExistsError (path_str q)), w').
Proof.
  intros Hp (d & m & Hst)%is_file_Found. unfold skeleton in *.
  assert (Hbase : p = base_dir \/
            (FS.stat (w_fs w) base_dir = FS.Found Dir /\
             w_fs w !! p = Some (File d m) /\
             p ∈ ["input" :: base_dir; "distorted" :: base_dir;
                  "sparse" :: "distorted" :: base_dir])).
  { apply elem_of_cons in Hp as [->|Hp]; [by left|right].
    split_and!; [|by destruct p; [|apply MkdirFacts.stat_Found_cons in Hst as [_ ?]]|done].
    repeat (apply elem_of_cons in Hp as [->|Hp]);
      [| |apply MkdirFacts.stat_Found_cons in Hst as [Hst _]|by apply elem_of_nil in Hp];
      by apply MkdirFacts.stat_Found_cons in Hst as [? _]. }
  unfold build_layout. cbv zeta.
  destruct Hbase as [->|(Hbase & Hbind & Hin)].
  - (* the base directory itself is a regular file *)
    exists base_dir, w. split; [apply list_elem_of_here|].
    destruct base_dir as [|n parent]; [done|].
    apply MkdirFacts.stat_Found_cons in Hst as [Hpar Hl].
    split; [by exists d, m|].
    apply bind_raise. unfold path_mkdir, FS.path_mkdir, lift_fs.
    cbn [FS.mkdir_parents]. unfold FS.os_mkdir. rewrite Hpar, Hl.
    unfold FS.is_dir. cbn [FS.stat]. by rewrite Hpar, Hl.
  - assert (H0 : path_mkdir base_dir true true w = (Ok (), w)).
    { unfold path_mkdir, FS.path_mkdir.
      rewrite (lift_fs_Ok _ _ (w_fs w)), ?set_fs_same; [done|].
      apply MkdirFacts.mkdir_parents_is_dir. unfold FS.is_dir. by rewrite Hbase. }
    rewrite (bind_ok _ _ _ _ _ H0).
    destruct (flat_step "input" base_dir w Hbase)
      as [(d1 & m1 & Hl1 & Hr1)|(fs1 & Hr1 & Hext1 & Hd1 & Hsame1 & Hno1)].
    { exists ("input" :: base_dir), w. split_and!.
      - apply list_elem_of_further, list_elem_of_here.
      - by exists d1, m1.
      - by rewrite (bind_raise _ _ _ _ _ Hr1). }
    rewrite (bind_ok _ _ _ _ _ Hr1).
    destruct (flat_step "distorted" base_dir (set_fs fs1 w) (Hext1 _ _ Hbase))
      as [(d2 & m2 & Hl2 & Hr2)|(fs2 & Hr2 & Hext2 & Hd2 & Hsame2 & Hno2)].
    { exists ("distorted" :: base_dir), (set_fs fs1 w). split_and!.
      - do 2 apply list_elem_of_further. apply list_elem_of_here.
      - exists d2, m2. cbn [set_fs w_fs] in Hl2. by rewrite Hsame1 in Hl2.
      - by rewrite (bind_raise _ _ _ _ _ Hr2). }
    rewrite (bind_ok _ _ _ _ _ Hr2). cbn [set_fs w_fs] in *.
    destruct (flat_step "sparse" ("distorted" :: base_dir) (set_fs fs2 (set_fs fs1 w)) Hd2)
      as [(d3 & m3 & Hl3 & Hr3)|(fs3 & Hr3 & Hext3 & Hd3 & Hsame3 & Hno3)].
    { eexists ("sparse" :: "distorted" :: base_dir), _. split_and!.
      - do 3 apply list_elem_of_further. apply list_elem_of_here.
      - exists d3, m3. cbn [set_fs w_fs] in Hl3. by rewrite Hsame2, Hsame1 in Hl3.
      - exact Hr3. }
    exfalso. cbn [set_fs w_fs] in *.
    repeat (apply elem_of_cons in Hin as [->|Hin]).
    + by apply (Hno1 d m).
    + apply (Hno2 d m). by rewrite Hsame1.
    + apply (Hno3 d m). by rewrite Hsame2, Hsame1.
    + by apply elem_of_nil in Hin.
Qed.

End LayoutEdges.

Module LayoutEdgeExamples.
Import TestDouble.

(** In [photos_fs], with [photos/a.jpg] as the output directory: the
    base of the skeleton is a regular file. *)
Lemma layout_blocked_by_file_witness :
  let R := runtime exec_ok in
  let w := world R photos_fs 42%N tt in
  let base_dir := ["a.jpg"; "photos"] in
  exists (q : path) (w' : World),
    q ∈ skeleton base_dir /\
    (exists d m, w_fs w !! q = Some (File d m)) /\
    build_layout base_dir w = (Raise (FileExistsError (path_str q)), w').
Proof.
  cbv zeta.
  apply (@layout_blocked_by_file (runtime exec_ok) _ ["a.jpg"; "photos"]).
  - apply list_elem_of_here.
  - vm_compute; reflexivity.
Defined.
End LayoutEdgeExamples.

(* ===================================================================== *)
(** * The commands of a run                                               *)
(* ===================================================================== *)

Section RunsFacts.
Context {R : Runtime}.

Lemma no_exec_nil : no_exec [].
Proof. done. Qed.

Lemma no_exec_app a b : no_exec a -> no_exec b -> no_exec (a ++ b).
Proof. unfold no_exec, executed. intros Ha Hb. by rewrite omap_app, Ha, Hb. Qed.

Lemma runs_silent {A} (m : M A) : logs m no_exec -> runs m [] [].
Proof.
  intros H w. destruct (H w) as (evs & Hlog & Hno). exists [].
  split; [|done]. rewrite Hlog. unfold no_exec, executed in *.
  by rewrite omap_app, Hno.
Qed.

Lemma runs_bind_silent_l {A B} (m : M A) (k : A -> M B) required allowed :
  runs m [] [] -> (forall a, runs (k a) required allowed) ->
  runs (m ≫= k) required allowed.
Proof.
  intros Hm Hk w. destruct (Hm w) as (ran1 & E1 & ->%prefix_nil_inv & _).
  rewrite app_nil_r in E1. rewrite bind_unfold.
  destruct (m w) as [[a|e] w1]; cbn [fst snd] in *.
  - destruct (Hk a w1) as (ran2 & E2 & P2 & D2). exists ran2. by rewrite E2, E1.
  - exists []. rewrite E1, app_nil_r. split_and!; [done|apply prefix_nil|done].
Qed.

Lemma runs_bind_silent_r {A B} (m : M A) (k : A -> M B) required allowed :
  runs m required allowed -> (forall a, runs (k a) [] []) ->
  runs (m ≫= k) required allowed.
Proof.
  intros Hm Hk w. destruct (Hm w) as (ran1 & E1 & P1 & D1). rewrite bind_unfold.
  destruct (m w) as [[a|e] w1]; cbn [fst snd] in *.
  - destruct (Hk a w1) as (ran2 & E2 & ->%prefix_nil_inv & _).
    rewrite app_nil_r in E2. exists ran1. rewrite E2, E1. split_and!; try done.
    intros _ _. by eapply D1.
  - exists ran1. done.
Qed.

Lemma runs_bind_cons {A B} (m : M A) (k : A -> M B) cmd required allowed :
  runs m [cmd] [cmd] -> (forall a, runs (k a) required allowed) ->
  runs (m ≫= k) (cmd :: required) (cmd :: allowed).
Proof.
  intros Hm Hk w. destruct (Hm w) as (ran1 & E1 & P1 & D1). rewrite bind_unfold.
  destruct (m w) as [[a|e] w1]; cbn [fst snd] in *.
  - assert (ran1 = [cmd]) as ->.
    { apply prefix_length_eq; [done|]. apply prefix_length. by eapply D1. }
    destruct (Hk a w1) as (ran2 & E2 & P2 & D2). exists (cmd :: ran2).
    rewrite E2, E1, <- app_assoc. split_and!; [done|by apply prefix_cons|].
    intros b Hb. apply prefix_cons. by eapply D2.
  - exists ran1. split_and!; [done| |done].
    etrans; [exact P1|]. apply prefix_cons, prefix_nil.
Qed.

Lemma runs_ret {A} (a : A) : runs (mret a : M A) [] [].
Proof. apply runs_silent, logs_ret, no_exec_nil. Qed.

Lemma runs_raise {A} (e : exn) : runs (raise e : M A) [] [].
Proof. apply runs_silent, logs_raise, no_exec_nil. Qed.

Lemma runs_print line : runs (print line) [] [].
Proof. by apply runs_silent, logs_print. Qed.

Lemma subprocess_run_executed cmd (w : World) :
  executed (w_log (subprocess_run cmd w).2) = executed (w_log w) ++ [cmd].
Proof.
  unfold subprocess_run. rewrite bind_unfold. cbn [emit]. unfold wait_process.
  cbn [w_ext w_fs]. destruct (exec _ _ _) as [[[c| | |n] x] fs]; [destruct (c =? 0)|..];
    cbn [fst snd]; by simpl_log.
Qed.

Lemma runs_subprocess_run cmd : runs (subprocess_run cmd) [cmd] [cmd].
Proof. intros w. exists [cmd]. split; [apply subprocess_run_executed|done]. Qed.

(** A probe of the dependency check: the command is run, and a failure
    ends in the handler, which runs nothing. *)
Lemma runs_probe cmd handles (handler : M unit) :
  runs handler [] [] ->
  runs (try_except (subprocess_run cmd) handles handler) [cmd] [cmd].
Proof.
  intros Hh w. pose proof (subprocess_run_executed cmd w) as E.
  unfold try_except. exists [cmd].
  destruct (subprocess_run cmd w) as [[a|e] w1]; cbn [fst snd] in *; [done|].
  destruct (handles e); [|done].
  destruct (Hh w1) as (ran & E2 & ->%prefix_nil_inv & _).
  rewrite app_nil_r in E2. by rewrite E2, E.
Qed.

Lemma runs_ext {A} (m m' : M A) required allowed :
  (forall w, m w = m' w) -> runs m' required allowed -> runs m required allowed.
Proof. intros E H w. rewrite E. apply H. Qed.

Lemma runs_weaken {A} (m : M A) required allowed allowed' :
  runs m required allowed -> allowed `prefix_of` allowed' ->
  runs m required allowed'.
Proof.
  intros H Hp w. destruct (H w) as (ran & E & P & D). exists ran.
  split_and!; [done|by etrans|done].
Qed.

(** The pipeline runs its stages in order; the converter may be left
    out. *)
Lemma runs_pipeline (image_dir distorted_dir database_path sparse_dir : path) :
  runs (run_colmap_pipeline image_dir distorted_dir database_path sparse_dir)
    (take 3 (stage_commands image_dir database_path sparse_dir))
    (stage_commands image_dir database_path sparse_dir).
Proof.
  unfold run_colmap_pipeline, stage_commands. cbv zeta. cbn [take].
  apply runs_bind_silent_l; [apply runs_print|intros _].
  apply runs_bind_cons; [apply runs_subprocess_run|intros _].
  apply runs_bind_silent_l; [apply runs_print|intros _].
  apply runs_bind_cons; [apply runs_subprocess_run|intros _].
  apply runs_bind_silent_l; [apply runs_print|intros _].
  apply runs_bind_cons; [apply runs_subprocess_run|intros _].
  apply runs_bind_silent_l.
  { apply runs_silent. unfold path_exists.
    apply logs_bind; [apply no_exec_app|by apply logs_get_fs|intros ?].
    by apply logs_ret. }
  intros found. apply runs_bind_silent_r.
  - destruct found.
    + apply runs_bind_silent_l; [apply runs_print|intros _].
      eapply runs_weaken; [|reflexivity].
      intros w. destruct (runs_subprocess_run (cmd_convert ("0" :: sparse_dir)) w)
        as (ran & E & P & _). exists ran. split_and!; [done..|]. intros; apply prefix_nil.
    + eapply runs_weaken; [apply runs_ret|apply prefix_nil].
  - intros _. apply runs_bind_silent_l; [apply runs_print|intros _]. apply runs_ret.
Qed.

Lemma logs_open_write (P : list event -> Prop) (p : path) (d : string) :
  P [] -> (forall a b, P a -> P b -> P (a ++ b)) ->
  P [EvWrite p d] -> logs (open_write p d) P.
Proof.
  intros P_nil P_app Hw. unfold open_write. destruct (can_encode d).
  - apply logs_bind; [done|by apply logs_lift_fs|intros _]. by apply logs_emit.
  - apply logs_bind; [done|by apply logs_lift_fs|intros _]. by apply logs_raise.
Qed.

Lemma logs_write_lists (P : list event -> Prop) (base_dir : path)
    (kvs : list (string * list string)) :
  P [] -> (forall a b, P a -> P b -> P (a ++ b)) ->
  (forall p d, P [EvWrite p d]) -> logs (write_lists base_dir kvs) P.
Proof.
  intros P_nil P_app Hw. induction kvs as [|[name names] rest IH]; cbn [write_lists].
  - by apply logs_ret.
  - apply logs_bind; [done| |by intros _]. by apply logs_open_write.
Qed.

Lemma runs_lift_fs op : runs (lift_fs op) [] [].
Proof. apply runs_silent, logs_lift_fs, no_exec_nil. Qed.

Lemma runs_extract_frames (video : string) (output_dir : path) (fps : Z) :
  runs (extract_frames_from_video video output_dir fps)
    [ffmpeg_command video output_dir fps] [ffmpeg_command video output_dir fps].
Proof.
  unfold extract_frames_from_video, os_makedirs. cbv zeta.
  apply runs_bind_silent_l; [apply runs_lift_fs|intros _].
  apply runs_bind_silent_l; [apply runs_print|intros _].
  apply runs_bind_cons; [apply runs_subprocess_run|intros _]. apply runs_ret.
Qed.

Lemma runs_create_colmap_structure
    (output_dir image_source : path) (is_video : bool) (fps : Z) (run_colmap : bool) :
  let stages := stage_commands ("input" :: output_dir)
                  ("database.db" :: "distorted" :: output_dir)
                  ("sparse" :: "distorted" :: output_dir) in
  let extraction :=
    if is_video
    then [cmd_ffmpeg image_source ("extracted_frames" :: output_dir) fps] else [] in
  runs (create_colmap_structure output_dir image_source is_video fps run_colmap)
    (extraction ++ (if run_colmap then take 3 stages else []))
    (extraction ++ (if run_colmap then stages else [])).
Proof.
  cbv zeta. unfold create_colmap_structure. cbv zeta.
  apply runs_bind_silent_l.
  { apply runs_silent, logs_build_layout; [apply no_exec_nil|apply no_exec_app]. }
  intros _.
  assert (Hrest : forall source_images : path,
    runs
      (print "Copying images...";;
       copy_images source_images ("input" :: output_dir);;
       splits ← split_images ("input" :: output_dir) default_train_ratio default_val_ratio;
       write_lists output_dir (items splits);;
       print ("Train: " +:+ pretty (length (train splits)) +:+
              " | Val: " +:+ pretty (length (val splits)) +:+
              " | Test: " +:+ pretty (length (test splits)));;
       (if run_colmap
        then run_colmap_pipeline ("input" :: output_dir) ("distorted" :: output_dir)
               ("database.db" :: "distorted" :: output_dir)
               ("sparse" :: "distorted" :: output_dir);; mret ()
        else mret ());;
       print ("Dataset ready: " +:+ path_str output_dir);;
       mret (PyPath output_dir))
      (if run_colmap
       then take 3 (stage_commands ("input" :: output_dir)
                      ("database.db" :: "distorted" :: output_dir)
                      ("sparse" :: "distorted" :: output_dir))
       else [])
      (if run_colmap
       then stage_commands ("input" :: output_dir)
              ("database.db" :: "distorted" :: output_dir)
              ("sparse" :: "distorted" :: output_dir)
       else [])).
  { intros source_images.
    apply runs_bind_silent_l; [apply runs_print|intros _].
    apply runs_bind_silent_l.
    { apply runs_silent, logs_copy_images; [apply no_exec_nil|apply no_exec_app|done]. }
    intros _. apply runs_bind_silent_l.
    { apply runs_silent, logs_split_images; [apply no_exec_nil|apply no_exec_app]. }
    intros splits. apply runs_bind_silent_l.
    { apply runs_silent, logs_write_lists; [apply no_exec_nil|apply no_exec_app|done]. }
    intros _. apply runs_bind_silent_l; [apply runs_print|intros _].
    apply runs_bind_silent_r.
    - destruct run_colmap; [|apply runs_ret].
      apply runs_bind_silent_r; [apply runs_pipeline|intros _; apply runs_ret].
    - intros _. apply runs_bind_silent_l; [apply runs_print|intros _]. apply runs_ret. }
  destruct is_video; cbn [app].
  - eapply runs_ext; [intros w; apply bind_assoc|].
    apply runs_bind_cons; [apply runs_extract_frames|intros _].
    apply runs_bind_silent_l; [apply runs_ret|intros src]. apply Hrest.
  - apply runs_bind_silent_l; [apply runs_ret|intros src]. apply Hrest.
Qed.

Lemma runs_bind_exact {A B} (m : M A) (k : A -> M B) L required allowed :
  runs m L L -> (forall a, runs (k a) required allowed) ->
  runs (m ≫= k) (L ++ required) (L ++ allowed).
Proof.
  intros Hm Hk w. destruct (Hm w) as (ran1 & E1 & P1 & D1). rewrite bind_unfold.
  destruct (m w) as [[a|e] w1]; cbn [fst snd] in *.
  - assert (ran1 = L) as ->.
    { apply prefix_length_eq; [done|]. apply prefix_length. by eapply D1. }
    destruct (Hk a w1) as (ran2 & E2 & P2 & D2). exists (L ++ ran2).
    rewrite E2, E1, <- app_assoc. split_and!; [done|by apply prefix_app|].
    intros b Hb. apply prefix_app. by eapply D2.
  - exists ran1. split_and!; [done| |done]. by apply prefix_app_r.
Qed.

Lemma runs_exit_handler (l1 l2 : string) :
  runs (print l1;; print l2;; (sys_exit 1 : M unit)) [] [].
Proof.
  apply runs_bind_silent_l; [apply runs_print|intros _].
  apply runs_bind_silent_l; [apply runs_print|intros _]. apply runs_raise.
Qed.

Lemma runs_main (args : Namespace) :
  runs (main args) (planned_commands args false) (planned_commands args true).
Proof.
  unfold main, planned_commands. cbv zeta.
  destruct args as [inp out ty rate tr vr sc sd].
  cbn [input output type_ fps skip_colmap skip_dependency_check].
  rewrite !(app_assoc (if negb sd && _ then _ else _)).
  apply runs_bind_exact.
  { destruct sd; cbn [negb andb app]; [apply runs_ret|].
    apply runs_bind_exact.
    - destruct ty; [apply runs_probe, runs_exit_handler|apply runs_ret].
    - intros _. destruct sc; cbn [negb]; [apply runs_ret|].
      apply runs_probe, runs_exit_handler. }
  intros _. apply runs_bind_silent_l.
  { apply runs_silent, logs_silent_action; [apply no_exec_nil|done]. }
  intros _. apply runs_bind_silent_l.
  { apply runs_silent. destruct ty; unfold os_path_isfile, os_path_isdir.
    - apply logs_bind; [apply no_exec_app| |intros ok].
      + apply logs_bind; [apply no_exec_app|by apply logs_get_fs|intros ?].
        by apply logs_ret.
      + destruct ok; [by apply logs_ret|by apply logs_raise].
    - apply logs_bind; [apply no_exec_app| |intros ok].
      + apply logs_bind; [apply no_exec_app|by apply logs_get_fs|intros ?].
        by apply logs_ret.
      + destruct ok; [by apply logs_ret|by apply logs_raise]. }
  intros _. apply runs_bind_silent_r; [|intros _; apply runs_ret].
  pose proof (runs_create_colmap_structure out inp
                (match ty with Video => true | Photos => false end) rate (negb sc)) as H.
  cbv zeta in H. destruct ty, sc; exact H.
Qed.

(** X10.  The commands of a run of [main], whatever its outcome, are an
    initial part of the planned ones: the [ffmpeg] probe (video input,
    dependency check on), the [colmap] probe (reconstruction and
    dependency check on), the frame extraction (video input), then the
    extractor, the matcher, the mapper and the converter (reconstruction
    on), in this order and each once.  A run that returns has run them
    all, the converter possibly excepted.  So photos with
    [--skip_colmap] run no command at all, [--skip_colmap] never starts
    [colmap], and photos never start [ffmpeg]. *)
Theorem main_runs_planned_commands (args : Namespace) (w : World) :
  let res := main args w in
  exists ran : list (list string),
    executed (w_log res.2) = executed (w_log w) ++ ran /\
    ran `prefix_of` planned_commands args true /\
    (res.1 = Ok PyNone -> planned_commands args false `prefix_of` ran) /\
    (type_ args = Photos -> skip_colmap args = true -> ran = []) /\
    (skip_colmap args = true -> forall cmd, cmd ∈ ran -> hd EmptyString cmd = "ffmpeg") /\
    (type_ args = Photos -> forall cmd, cmd ∈ ran -> hd EmptyString cmd = "colmap").
Proof.
  cbv zeta. destruct (runs_main args w) as (ran & E & P & D).
  exists ran. split_and!; [done|done|by apply D|..].
  - intros Hty Hsc. apply prefix_nil_inv. revert P. unfold planned_commands.
    rewrite Hty, Hsc. cbv zeta. by rewrite !andb_false_r.
  - intros Hsc cmd Hin. pose proof (elem_of_prefix _ _ _ Hin P) as Hc.
    revert Hc. unfold planned_commands. rewrite Hsc. cbv zeta.
    rewrite andb_false_r, app_nil_r.
    destruct (type_ args), (skip_dependency_check args); cbn [negb andb app];
      rewrite ?elem_of_cons, ?elem_of_nil; intros Hc;
      repeat (destruct Hc as [->|Hc]); done.
  - intros Hty cmd Hin. pose proof (elem_of_prefix _ _ _ Hin P) as Hc.
    revert Hc. unfold planned_commands. rewrite Hty. cbv zeta.
    rewrite andb_false_r. unfold stage_commands.
    destruct (skip_colmap args), (skip_dependency_check args);
      cbn [negb andb app take];
      rewrite ?elem_of_cons, ?elem_of_nil; intros Hc;
      repeat (destruct Hc as [->|Hc]); done.
Qed.

End RunsFacts.

(* ===================================================================== *)
(** * Nothing outside the output directory is touched                     *)
(* ===================================================================== *)

Section KeepsOutside.
Context {R : Runtime}.
Context (T : path -> Prop).

Lemma keeps_bind {A B} (m : M A) (k : A -> M B) :
  fs_rel m (kept T) -> (forall a, fs_rel (k a) (kept T)) -> fs_rel (m ≫= k) (kept T).
Proof. apply fs_rel_bind, KeptFacts.kept_trans. Qed.

Lemma keeps_same {A} (m : M A) : (forall w, w_fs (m w).2 = w_fs w) -> fs_rel m (kept T).
Proof. apply fs_rel_same, KeptFacts.kept_refl. Qed.

Lemma keeps_print line : fs_rel (print line) (kept T).
Proof. by apply keeps_same. Qed.

Lemma keeps_ret {A} (a : A) : fs_rel (mret a : M A) (kept T).
Proof. by apply keeps_same. Qed.

Lemma keeps_raise {A} (e : exn) : fs_rel (raise e : M A) (kept T).
Proof. by apply keeps_same. Qed.

Lemma keeps_path_mkdir p parents exist_ok : fs_rel (path_mkdir p parents exist_ok) (kept T).
Proof.
  apply fs_rel_lift_fs; [apply KeptFacts.kept_refl|]. intros fs fs' H.
  by eapply KeptFacts.grows_kept, GrowFacts.path_mkdir_grows.
Qed.

Lemma keeps_build_layout base_dir : fs_rel (build_layout base_dir) (kept T).
Proof.
  unfold build_layout. cbv zeta.
  repeat (apply keeps_bind; [|intros ?]); apply keeps_path_mkdir.
Qed.

Lemma keeps_os_makedirs p : fs_rel (os_makedirs p true) (kept T).
Proof.
  apply fs_rel_lift_fs; [apply KeptFacts.kept_refl|]. intros fs fs' H.
  by apply KeptFacts.grows_kept, (GrowFacts.makedirs_post p).
Qed.

Lemma keeps_split_images image_dir tr vr : fs_rel (split_images image_dir tr vr) (kept T).
Proof.
  apply fs_rel_reads_only; [apply KeptFacts.kept_refl|].
  apply reads_only_split_images.
Qed.

Lemma keeps_copy_loop entries input_dir :
  (forall n, T (n :: input_dir)) -> (forall n m, T (n :: m :: input_dir)) ->
  fs_rel (copy_loop entries input_dir) (kept T).
Proof.
  intros H1 H2. induction entries as [|img rest IH]; cbn [copy_loop];
    [apply keeps_ret|].
  apply keeps_bind; [|by intros _].
  destruct (has_image_suffix img); [|apply keeps_ret].
  unfold shutil_copy2. apply keeps_bind; [|intros _; by apply keeps_same].
  apply fs_rel_lift_fs; [apply KeptFacts.kept_refl|]. intros fs fs'.
  by apply KeptFacts.copy2_kept.
Qed.

Lemma keeps_copy_images source input_dir :
  (forall n, T (n :: input_dir)) -> (forall n m, T (n :: m :: input_dir)) ->
  fs_rel (copy_images source input_dir) (kept T).
Proof.
  intros H1 H2. unfold copy_images, path_glob_star.
  apply keeps_bind; [|intros ?; by apply keeps_copy_loop].
  apply keeps_bind; [by apply keeps_same|intros ?; apply keeps_ret].
Qed.

Lemma keeps_write_lists base_dir kvs :
  (forall n, T (n :: base_dir)) -> fs_rel (write_lists base_dir kvs) (kept T).
Proof.
  intros H. induction kvs as [|[name names] rest IH]; cbn [write_lists];
    [apply keeps_ret|].
  apply keeps_bind; [|by intros _]. unfold open_write.
  destruct (can_encode _).
  - apply keeps_bind; [|intros _; by apply keeps_same].
    apply fs_rel_lift_fs; [apply KeptFacts.kept_refl|]. intros fs fs'.
    by apply KeptFacts.write_file_kept.
  - apply keeps_bind; [|intros _; apply keeps_raise].
    apply fs_rel_lift_fs; [apply KeptFacts.kept_refl|]. intros fs fs'.
    by apply KeptFacts.write_file_kept.
Qed.

Lemma keeps_subprocess_run cmd : tools_keep T -> fs_rel (subprocess_run cmd) (kept T).
Proof.
  intros Ht. unfold subprocess_run. apply keeps_bind; [by apply keeps_same|intros _].
  intros w. unfold wait_process. specialize (Ht cmd (w_ext w) (w_fs w)).
  destruct (exec _ _ _) as [[[c| | |n] x] fs]; cbn [snd] in *;
    [destruct (c =? 0)|..]; cbn [snd set_ext set_fs w_fs]; try done;
    apply KeptFacts.kept_refl.
Qed.

Lemma keeps_probe cmd handles (l1 l2 : string) :
  tools_keep T ->
  fs_rel (try_except (subprocess_run cmd) handles
           (print l1;; print l2;; (sys_exit 1 : M unit))) (kept T).
Proof.
  intros Ht. apply fs_rel_try_except; [apply KeptFacts.kept_trans| |].
  - by apply keeps_subprocess_run.
  - repeat (apply keeps_bind; [apply keeps_print|intros _]). apply keeps_raise.
Qed.

Lemma keeps_extract_frames video_path output_dir rate :
  tools_keep T -> fs_rel (extract_frames_from_video video_path output_dir rate) (kept T).
Proof.
  intros Ht. unfold extract_frames_from_video. cbv zeta.
  apply keeps_bind; [apply keeps_os_makedirs|intros _].
  apply keeps_bind; [apply keeps_print|intros _].
  apply keeps_bind; [by apply keeps_subprocess_run|intros _]. apply keeps_ret.
Qed.

Lemma keeps_run_colmap_pipeline image_dir distorted_dir database_path sparse_dir :
  tools_keep T ->
  fs_rel (run_colmap_pipeline image_dir distorted_dir database_path sparse_dir) (kept T).
Proof.
  intros Ht. unfold run_colmap_pipeline, path_exists. cbv zeta.
  repeat first
    [ apply keeps_print | apply keeps_ret | by apply keeps_subprocess_run
    | by apply keeps_same
    | apply keeps_bind; [|intros ?]
    | match goal with |- fs_rel (if ?b then _ else _) _ => destruct b end ].
Qed.

End KeepsOutside.

Section MainKeeps.
Context {R : Runtime}.

Lemma under_cons (base q : path) (n : string) : under base q -> under base (n :: q).
Proof. apply suffix_cons_r. Qed.

Lemma under_refl (base : path) : under base base.
Proof. unfold under. done. Qed.

Lemma keeps_create_colmap_structure
    (output_dir image_source : path) (is_video : bool) (rate : Z) (run_colmap : bool) :
  (is_video = false /\ run_colmap = false) \/ tools_keep (under output_dir) ->
  fs_rel (create_colmap_structure output_dir image_source is_video rate run_colmap)
    (kept (under output_dir)).
Proof.
  intros Hmode. unfold create_colmap_structure. cbv zeta.
  assert (U1 : forall n, under output_dir (n :: output_dir))
    by (intros; apply under_cons, under_refl).
  assert (U2 : forall n m, under output_dir (n :: m :: output_dir))
    by (intros; apply under_cons, U1).
  assert (U3 : forall n m k, under output_dir (n :: m :: k :: output_dir))
    by (intros; apply under_cons, U2).
  apply keeps_bind; [apply keeps_build_layout|intros _].
  apply keeps_bind.
  { destruct is_video; [|apply keeps_ret].
    destruct Hmode as [[? _]|Ht]; [done|].
    apply keeps_bind; [by apply keeps_extract_frames|intros _]. apply keeps_ret. }
  intros source_images.
  apply keeps_bind; [apply keeps_print|intros _].
  apply keeps_bind; [by apply keeps_copy_images|intros _].
  apply keeps_bind; [apply keeps_split_images|intros splits].
  apply keeps_bind; [by apply keeps_write_lists|intros _].
  apply keeps_bind; [apply keeps_print|intros _].
  apply keeps_bind.
  { destruct run_colmap; [|apply keeps_ret].
    destruct Hmode as [[_ ?]|Ht]; [done|].
    apply keeps_bind; [by apply keeps_run_colmap_pipeline|intros _]. apply keeps_ret. }
  intros _. apply keeps_bind; [apply keeps_print|intros _]. apply keeps_ret.
Qed.

(** X11.  A run of [main] changes and removes nothing outside the output
    directory: every entry that is not the output directory or inside it
    is afterwards bound as it was before, however the run ends.  This
    holds for photos with [--skip_colmap], where no program is run, and in
    every mode when the programs themselves keep to the output
    directory.  The filesystem is one of directories and regular files
    with one name each, and no path goes through a component [..]. *)
Theorem main_keeps_outside_output (args : Namespace) :
  (type_ args = Photos /\ skip_colmap args = true) \/
    tools_keep (under (output args)) ->
  fs_rel (main args) (kept (under (output args))).
Proof.
  intros Hmode. unfold main.
  apply keeps_bind.
  { destruct (skip_dependency_check args); cbn [negb]; [apply keeps_ret|].
    apply keeps_bind.
    - destruct (type_ args) eqn:Ety; [|apply keeps_ret].
      destruct Hmode as [[? _]|Ht]; [done|]. by apply keeps_probe.
    - intros _. destruct (skip_colmap args) eqn:Esc; cbn [negb]; [apply keeps_ret|].
      destruct Hmode as [[_ ?]|Ht]; [done|]. by apply keeps_probe. }
  intros _. apply keeps_bind; [by apply keeps_same|intros _].
  apply keeps_bind.
  { destruct (type_ args); unfold os_path_isfile, os_path_isdir;
      (apply keeps_bind;
       [apply keeps_bind; [by apply keeps_same|intros ?; apply keeps_ret]
       |intros ok; destruct ok; [apply keeps_ret|apply keeps_raise]]). }
  intros _. apply keeps_bind; [|intros _; apply keeps_ret].
  apply keeps_create_colmap_structure.
  destruct Hmode as [[-> ->]|Ht]; [by left|by right].
Qed.
End MainKeeps.

(* ===================================================================== *)
(** * Refusals: a missing tool, a wrong input, a failed extraction        *)
(* ===================================================================== *)

Section Refusals.
Context {R : Runtime}.

Lemma try_except_handled {A} (body handler : M A) handles (w w1 : World) e :
  body w = (Raise e, w1) -> handles e = true ->
  try_except body handles handler w = handler w1.
Proof. intros Hb He. unfold try_except. by rewrite Hb, He. Qed.

Lemma exit_handler_run (l1 l2 : string) (w : World) :
  (print l1;; print l2;; (sys_exit 1 : M unit)) w =
  (Raise (SystemExit 1), log_add [EvPrint l1; EvPrint l2] w).
Proof.
  rewrite (bind_ok _ _ _ _ _ (print_run l1 w)).
  rewrite (bind_ok _ _ _ _ _ (print_run l2 _)).
  unfold sys_exit, raise, log_add. cbn [w_fs w_rng w_ext w_log].
  by rewrite <- app_assoc.
Qed.

(** A probe that fails, run in [w].  A non-zero status and a missing
    program are handled: the handler's two lines and exit status 1.  A
    program that is there and cannot be started is not: its exception
    leaves the [try]. *)
Lemma probe_failed (cmd : list string) (l1 l2 : string) (w : World) :
  (exec cmd (w_ext w) (w_fs w)).1.1 <> Exited 0 ->
  exists e w',
    try_except (subprocess_run cmd) tool_missing
      (print l1;; print l2;; (sys_exit 1 : M unit)) w = (Raise e, w') /\
    w_rng w' = w_rng w /\
    match exec cmd (w_ext w) (w_fs w) with
    | (Exited _, _, fs) =>
        e = SystemExit 1 /\
        w_log w' = w_log w ++ [EvExec cmd; EvPrint l1; EvPrint l2] /\ w_fs w' = fs
    | (NotFound, _, _) =>
        e = SystemExit 1 /\
        w_log w' = w_log w ++ [EvExec cmd; EvPrint l1; EvPrint l2] /\ w_fs w' = w_fs w
    | (NotPermitted, _, _) =>
        e = PermissionError (hd EmptyString cmd) /\
        w_log w' = w_log w ++ [EvExec cmd] /\ w_fs w' = w_fs w
    | (ExecFailed errno, _, _) =>
        e = OSError errno (hd EmptyString cmd) /\
        w_log w' = w_log w ++ [EvExec cmd] /\ w_fs w' = w_fs w
    end.
Proof.
  intros Hfail. unfold try_except, subprocess_run. rewrite bind_unfold.
  cbn [emit]. unfold wait_process. cbn [w_ext w_fs].
  destruct (exec cmd (w_ext w) (w_fs w)) as [[[c| | |n] x] fs]; cbn [fst] in *.
  - destruct (Z.eqb_spec c 0) as [->|Hc]; [done|]. cbn [tool_missing].
    rewrite exit_handler_run. eexists _, _. split; [done|].
    cbn [log_add set_ext set_fs w_log w_rng w_fs]. by rewrite <- app_assoc.
  - cbn [tool_missing]. rewrite exit_handler_run. eexists _, _. split; [done|].
    cbn [log_add w_log w_rng w_fs]. by rewrite <- app_assoc.
  - cbn [tool_missing]. eexists _, _. split; [done|]. done.
  - cbn [tool_missing]. eexists _, _. split; [done|]. done.
Qed.

(** X12.  The dependency check refuses to start.  With the check on, when the
    first probe of the run, [ffmpeg -version] for a video and [colmap -h]
    for photos that are to be reconstructed, exits with another status
    than 0 or finds no such program, [main] prints the error line and the
    installation hint of that tool and exits with status 1.  When the
    program is there and cannot be started, the handler does not apply:
    the [PermissionError] (or the [OSError] of another refusal) leaves
    [main] and nothing is printed.  In every case the probe is the only
    command run, the generator is not seeded, nothing is copied or
    written, and the filesystem is as the probe left it. *)
Theorem failed_probe_exits (args : Namespace) (w : World) :
  let tool := match type_ args with Video => "ffmpeg" | Photos => "colmap" end in
  let probe := match type_ args with
               | Video => ["ffmpeg"; "-version"]
               | Photos => ["colmap"; "-h"]
               end in
  let lines := match type_ args with
               | Video => ["ERROR: ffmpeg not found";
                           "Install: sudo apt-get install ffmpeg"]
               | Photos => ["ERROR: COLMAP not found";
                            "Install: sudo apt-get install colmap"]
               end in
  skip_dependency_check args = false ->
  (type_ args = Photos -> skip_colmap args = false) ->
  (exec probe (w_ext w) (w_fs w)).1.1 <> Exited 0 ->
  exists e w',
    main args w = (Raise e, w') /\
    executed (w_log w') = executed (w_log w) ++ [probe] /\
    copied (w_log w') = copied (w_log w) /\
    written (w_log w') = written (w_log w) /\
    w_rng w' = w_rng w /\
    match exec probe (w_ext w) (w_fs w) with
    | (Exited _, _, fs) =>
        e = SystemExit 1 /\ printed (w_log w') = printed (w_log w) ++ lines /\
        w_fs w' = fs
    | (NotFound, _, _) =>
        e = SystemExit 1 /\ printed (w_log w') = printed (w_log w) ++ lines /\
        w_fs w' = w_fs w
    | (NotPermitted, _, _) =>
        e = PermissionError tool /\ printed (w_log w') = printed (w_log w) /\
        w_fs w' = w_fs w
    | (ExecFailed errno, _, _) =>
        e = OSError errno tool /\ printed (w_log w') = printed (w_log w) /\
        w_fs w' = w_fs w
    end.
Proof.
  cbv zeta. intros Hsd Hsc Hfail. unfold main. rewrite Hsd. cbn [negb].
  destruct (type_ args) eqn:Ety.
  - destruct (probe_failed _ "ERROR: ffmpeg not found"
                "Install: sudo apt-get install ffmpeg" w Hfail)
      as (e & w' & Hrun & Hrng & Hout).
    exists e, w'. rewrite bind_unfold, (bind_raise _ _ _ _ _ Hrun).
    split; [done|].
    destruct (exec _ _ _) as [[[c| | |n] x] fs]; destruct Hout as (-> & Hlog & Hfs);
      rewrite Hlog; simpl_log; done.
  - rewrite (Hsc eq_refl). cbn [negb].
    destruct (probe_failed _ "ERROR: COLMAP not found"
                "Install: sudo apt-get install colmap" w Hfail)
      as (e & w' & Hrun & Hrng & Hout).
    exists e, w'. rewrite bind_unfold, (bind_unfold (mret ())), ret_unfold, Hrun.
    split; [done|].
    destruct (exec _ _ _) as [[[c| | |n] x] fs]; destruct Hout as (-> & Hlog & Hfs);
      rewrite Hlog; simpl_log; done.
Qed.

Lemma os_path_isfile_run (p : path) (w : World) :
  os_path_isfile p w = (Ok (FS.is_file (w_fs w) p), w).
Proof. done. Qed.

Lemma os_path_isdir_run (p : path) (w : World) :
  os_path_isdir p w = (Ok (FS.is_dir (w_fs w) p), w).
Proof. done. Qed.

(** When no probe is due, [main] starts at the seed. *)
Lemma main_without_probe (args : Namespace) (w : World) :
  skip_dependency_check args = true \/
    (type_ args = Photos /\ skip_colmap args = true) ->
  main args w =
  ((match type_ args with
    | Video =>
        ok ← os_path_isfile (input args);
        if ok : bool then mret ()
        else raise (ValueError ("Video file not found: " +:+ path_str (input args)))
    | Photos =>
        ok ← os_path_isdir (input args);
        if ok : bool then mret ()
        else raise (ValueError ("Image directory not found: " +:+ path_str (input args)))
    end);;
   create_colmap_structure (output args) (input args)
     (match type_ args with Video => true | Photos => false end)
     (fps args) (negb (skip_colmap args));;
   mret PyNone) (set_rng (rng_seed 42) w).
Proof.
  intros Hmode. unfold main. rewrite bind_unfold.
  assert (Hcheck :
    (if negb (skip_dependency_check args)
     then
       match type_ args with
       | Video =>
           try_except (subprocess_run ["ffmpeg"; "-version"]) tool_missing
             (print "ERROR: ffmpeg not found";;
              print "Install: sudo apt-get install ffmpeg";;
              sys_exit 1)
       | Photos => mret ()
       end;;
       (if negb (skip_colmap args)
        then
          try_except (subprocess_run ["colmap"; "-h"]) tool_missing
            (print "ERROR: COLMAP not found";;
             print "Install: sudo apt-get install colmap";;
             sys_exit 1)
        else mret ())
     else mret ()) w = (Ok (), w)).
  { destruct Hmode as [->|[-> ->]]; [done|].
    by destruct (skip_dependency_check args). }
  rewrite Hcheck. by rewrite bind_unfold.
Qed.

(** X13.  The input is validated before anything is created.  When no probe
    is run (the check is skipped, or photos are processed without
    reconstruction) and the input is not of the kind [--type] names, a
    regular file for a video and a directory for photos, [main] raises
    [ValueError] with the message for that kind; the world is as before,
    but for the generator, which has been seeded with 42. *)
Theorem wrong_input_rejected (args : Namespace) (w : World) :
  skip_dependency_check args = true \/
    (type_ args = Photos /\ skip_colmap args = true) ->
  match type_ args with
  | Video => FS.is_file (w_fs w) (input args)
  | Photos => FS.is_dir (w_fs w) (input args)
  end = false ->
  main args w =
    (Raise (ValueError
              (match type_ args with
               | Video => "Video file not found: "
               | Photos => "Image directory not found: "
               end +:+ path_str (input args))),
     set_rng (rng_seed 42) w).
Proof.
  intros Hmode Hbad. rewrite main_without_probe by done.
  apply bind_raise.
  destruct (type_ args).
  - rewrite (bind_ok _ _ _ _ _ (os_path_isfile_run _ _)).
    cbn [set_rng w_fs]. by rewrite Hbad.
  - rewrite (bind_ok _ _ _ _ _ (os_path_isdir_run _ _)).
    cbn [set_rng w_fs]. by rewrite Hbad.
Qed.

Lemma extract_frames_mkdir_failed (video_path : string) (output_dir : path) (rate : Z)
    (w : World) e :
  FS.makedirs output_dir true (w_fs w) = Raise e ->
  extract_frames_from_video video_path output_dir rate w = (Raise e, w).
Proof.
  intros Emk. unfold extract_frames_from_video, os_makedirs.
  by rewrite (bind_raise _ _ _ _ _ (lift_fs_Raise _ _ _ Emk)).
Qed.

Lemma build_layout_log (base_dir : path) (w : World) :
  w_log (build_layout base_dir w).2 = w_log w.
Proof.
  destruct (logs_build_layout (fun evs => evs = []) eq_refl
              ltac:(by intros ? ? -> ->) base_dir w) as (evs & -> & ->).
  by rewrite app_nil_r.
Qed.

(** X14.  When frame extraction fails, the run stops there.  If [ffmpeg]
    cannot exit with status 0, [create_colmap_structure] on a video
    raises; it copies no image, writes no list, never announces the
    copying and starts no reconstruction stage: the only command it can
    have run is the [ffmpeg] line. *)
Theorem failed_extraction_stops
    (output_dir video : path) (rate : Z) (run_colmap : bool) (w : World) :
  let cmd := cmd_ffmpeg video ("extracted_frames" :: output_dir) rate in
  (forall x fs, (exec cmd x fs).1.1 <> Exited 0) ->
  let res := create_colmap_structure output_dir video true rate run_colmap w in
  exists e evs,
    res.1 = Raise e /\
    w_log res.2 = w_log w ++ evs /\
    copied evs = [] /\ written evs = [] /\
    ("Copying images..." ∉ printed evs) /\
    (executed evs = [] \/ (executed evs = [cmd] /\ external_tool_error e = true)).
Proof.
  cbv zeta. intros Hfail. unfold create_colmap_structure. cbv zeta.
  rewrite bind_unfold. pose proof (build_layout_log output_dir w) as Hlog.
  destruct (build_layout output_dir w) as [[u|e] w1]; cbn [snd] in *.
  2:{ exists e, []. cbn [fst snd]. rewrite Hlog, app_nil_r. split_and!; try done.
      - apply not_elem_of_nil.
      - by left. }
  rewrite bind_assoc.
  destruct (FS.makedirs ("extracted_frames" :: output_dir) true (w_fs w1))
    as [fs1|e] eqn:Emk.
  2:{ rewrite (bind_raise _ _ _ _ _ (extract_frames_mkdir_failed _ _ _ _ _ Emk)).
      exists e, []. cbn [fst snd]. rewrite Hlog, app_nil_r. split_and!; try done.
      - apply not_elem_of_nil.
      - by left. }
  pose proof (extract_frames_run (path_str video) _ rate w1 fs1 Emk) as Hrun.
  cbv zeta in Hrun. fold (cmd_ffmpeg video ("extracted_frames" :: output_dir) rate) in Hrun.
  specialize (Hfail (w_ext w1) fs1).
  destruct (exec _ (w_ext w1) fs1) as [[[c| | |n] x] fs2]; cbn [fst] in Hfail.
  1: destruct (Z.eqb_spec c 0) as [->|Hc]; [done|].
  all: rewrite (bind_raise _ _ _ _ _ Hrun);
    eexists _, _; cbn [fst snd]; (split; [done|]);
    cbn [log_add set_ext set_fs w_log]; rewrite Hlog; (split; [done|]);
    split_and!; try done;
    [ cbn; intros [=]%list_elem_of_singleton | by right ].
Qed.

End Refusals.

(* ===================================================================== *)
(** * A run on photos, from the folder to the three lists                 *)
(* ===================================================================== *)

Section WriteFacts.
Context {R : Runtime}.
Import FS.





End WriteFacts.

Section PhotosRun.
Context {R : Runtime}.
Import FS.






End PhotosRun.

Section PhotosMain.
Context {R : Runtime}.
Import FS.





End PhotosMain.

Section VideoMain.
Context {R : Runtime}.
Import FS.


End VideoMain.

(* ===================================================================== *)
(** * The closing line                                                    *)
(* ===================================================================== *)

Section ClosingLine.
Context {R : Runtime}.
Context (line : string).

Lemma unsaid_nil : unsaid line [].
Proof. unfold unsaid. apply not_elem_of_nil. Qed.

Lemma unsaid_app a b : unsaid line a -> unsaid line b -> unsaid line (a ++ b).
Proof.
  unfold unsaid, printed. intros Ha Hb. rewrite omap_app.
  by intros [?|?]%elem_of_app.
Qed.

Lemma unsaid_print l : l <> line -> unsaid line [EvPrint l].
Proof. unfold unsaid. intros Hl. cbn. by intros ->%list_elem_of_singleton. Qed.

Lemma unsaid_other ev : (forall l, ev <> EvPrint l) -> unsaid line [ev].
Proof.
  unfold unsaid. intros H. destruct ev; cbn; try apply not_elem_of_nil.
  by destruct (H line0).
Qed.

Lemma closes_bind_l {A B} (m : M A) (k : A -> M B) :
  logs m (unsaid line) -> (forall a, closes (k a) line) -> closes (m ≫= k) line.
Proof.
  intros Hm Hk w. destruct (Hm w) as (e1 & H1 & P1). rewrite bind_unfold.
  destruct (m w) as [[a|e] w1]; cbn [fst snd] in *; [|by exists e1].
  destruct (Hk a w1) as (e2 & H2 & P2). exists (e1 ++ e2).
  split; [by rewrite H2, H1, app_assoc|].
  destruct (k a w1).1.
  - destruct P2 as (pre & -> & Hpre). exists (e1 ++ pre).
    split; [by rewrite app_assoc|by apply unsaid_app].
  - by apply unsaid_app.
Qed.

Lemma closes_bind_ret {A B} (m : M A) (b : B) :
  closes m line -> closes (m ≫= fun _ => mret b) line.
Proof.
  intros Hm w. destruct (Hm w) as (evs & Hlog & P). rewrite bind_unfold.
  destruct (m w) as [[a|e] w1]; cbn [fst snd] in *; by exists evs.
Qed.

Lemma closes_final {A} (a : A) : closes (print line;; mret a) line.
Proof.
  intros w. exists [EvPrint line]. split; [done|]. exists [].
  split; [done|apply unsaid_nil].
Qed.

End ClosingLine.

Section ClosingLineOfMain.
Context {R : Runtime}.

Lemma closes_create_colmap_structure
    (output_dir image_source : path) (is_video : bool) (rate : Z) (run_colmap : bool) :
  closes (create_colmap_structure output_dir image_source is_video rate run_colmap)
    ("Dataset ready: " +:+ path_str output_dir).
Proof.
  set (line := "Dataset ready: " +:+ path_str output_dir).
  pose proof (unsaid_nil line) as Hnil. pose proof (unsaid_app line) as Happ.
  assert (Hprint : forall l : string,
            (forall s, l <> "Dataset ready: " +:+ s) ->
            logs (print l) (fun evs => line ∉ printed evs)).
  { intros l Hl. apply logs_print, unsaid_print, Hl. }
  assert (Hexec : forall cmd,
            logs (subprocess_run cmd) (fun evs => line ∉ printed evs)).
  { intros cmd. apply logs_subprocess_run; [done..|]. by apply unsaid_other. }
  unfold create_colmap_structure. cbv zeta.
  apply closes_bind_l; [by apply logs_build_layout|intros _].
  apply closes_bind_l.
  { destruct is_video; [|by apply logs_ret].
    apply logs_bind; [done| |intros ?; by apply logs_ret].
    unfold extract_frames_from_video, os_makedirs. cbv zeta.
    apply logs_bind; [done|by apply logs_lift_fs|intros _].
    apply logs_bind; [done|by apply Hprint|intros _].
    apply logs_bind; [done|apply Hexec|intros _]. by apply logs_ret. }
  intros source_images.
  apply closes_bind_l; [by apply Hprint|intros _].
  apply closes_bind_l.
  { apply logs_copy_images; [done..|]. intros s d. by apply unsaid_other. }
  intros _. apply closes_bind_l; [by apply logs_split_images|intros splits].
  apply closes_bind_l.
  { apply logs_write_lists; [done..|]. intros p d. by apply unsaid_other. }
  intros _. apply closes_bind_l; [by apply Hprint|intros _].
  apply closes_bind_l; [|intros _; apply closes_final].
  destruct run_colmap; [|by apply logs_ret].
  apply logs_bind; [done| |intros ?; by apply logs_ret].
  unfold run_colmap_pipeline, path_exists. cbv zeta.
  repeat first
    [ by apply Hprint | apply Hexec | by apply logs_ret | by apply logs_get_fs
    | apply logs_bind; [done| |intros ?]
    | match goal with |- logs (if ?b then _ else _) _ => destruct b end ].
Qed.

Lemma main_returns_none (args : Namespace) (w w' : World) (v : pyval) :
  main args w = (Ok v, w') -> v = PyNone.
Proof.
  unfold main.
  intros (? & ? & _ & H)%bind_Ok_inv. apply bind_Ok_inv in H as (? & ? & _ & H).
  apply bind_Ok_inv in H as (? & ? & _ & H). apply bind_Ok_inv in H as (? & ? & _ & H).
  rewrite ret_unfold in H. by injection H as <- _.
Qed.

(** X17.  [main] prints the closing line when it returns and only then.  A
    run that returns returns [None]; "Dataset ready: " with the output
    directory is its last event and has not been printed before.  A run
    that raises, at whatever point, has not printed that line. *)
Theorem ready_line_iff_success (args : Namespace) (w : World) :
  let res := main args w in
  let line := "Dataset ready: " +:+ path_str (output args) in
  exists evs : list event,
    w_log res.2 = w_log w ++ evs /\
    match res.1 with
    | Ok v =>
        v = PyNone /\
        exists pre, evs = pre ++ [EvPrint line] /\ line ∉ printed pre
    | Raise _ => line ∉ printed evs
    end.
Proof.
  cbv zeta. set (line := "Dataset ready: " +:+ path_str (output args)).
  assert (Hmain : closes (main args) line).
  { pose proof (unsaid_nil line) as Hnil. pose proof (unsaid_app line) as Happ.
    assert (Hprobe : forall cmd (l1 l2 : string),
              (forall s, l1 <> "Dataset ready: " +:+ s) ->
              (forall s, l2 <> "Dataset ready: " +:+ s) ->
              logs (try_except (subprocess_run cmd) tool_missing
                      (print l1;; print l2;; (sys_exit 1 : M unit)))
                (fun evs => line ∉ printed evs)).
    { intros cmd l1 l2 H1 H2 w0.
      destruct (logs_subprocess_run _ Hnil Happ cmd
                  ltac:(by apply unsaid_other) w0) as (e1 & E1 & P1).
      unfold try_except.
      destruct (subprocess_run cmd w0) as [[a|e] w1]; cbn [fst snd] in *;
        [by exists e1|].
      destruct (tool_missing e); [|by exists e1].
      rewrite exit_handler_run. exists (e1 ++ [EvPrint l1; EvPrint l2]).
      cbn [snd log_add w_log]. rewrite E1, app_assoc. split; [done|].
      apply Happ; [done|]. apply (Happ [_] [_]); apply unsaid_print; [apply H1|apply H2]. }
    unfold main.
    apply closes_bind_l.
    { destruct (negb (skip_dependency_check args)); [|by apply logs_ret].
      apply logs_bind; [done| |intros _].
      - destruct (type_ args); [by apply Hprobe|by apply logs_ret].
      - destruct (negb (skip_colmap args)); [by apply Hprobe|by apply logs_ret]. }
    intros _. apply closes_bind_l; [by apply logs_silent_action|intros _].
    apply closes_bind_l.
    { destruct (type_ args); unfold os_path_isfile, os_path_isdir;
        (apply logs_bind;
         [done
         |apply logs_bind; [done|by apply logs_get_fs|intros ?; by apply logs_ret]
         |intros ok; destruct ok; [by apply logs_ret|by apply logs_raise]]). }
    intros _. apply closes_bind_ret, closes_create_colmap_structure. }
  destruct (Hmain w) as (evs & Hlog & Hres). exists evs. split; [done|].
  destruct (main args w) as [[v|e] w'] eqn:Erun; cbn [fst snd] in *; [|done].
  split; [|done]. by apply main_returns_none in Erun.
Qed.

End ClosingLineOfMain.

(* ===================================================================== *)
(** * How many names each subset gets                                     *)
(* ===================================================================== *)

Section SplitSizes.
Context {R : Runtime}.

(** X18.  The sizes of the three subsets, for two ratios between 0 and 1
    whatever their sum: of the [n] images, [train] gets
    [floor(n * train_ratio)], [val] gets [floor(n * val_ratio)] or what is
    left if that is less, and [test] gets the rest, which is nothing
    exactly when the two floors add up to [n] or more. *)
Theorem split_sizes
    (image_dir : path) (train_ratio val_ratio : spec_float) (w : World) :
  randbelow_in_range R ->
  FS.is_dir (w_fs w) image_dir = true ->
  Float64.is_ratio train_ratio = true -> Float64.is_ratio val_ratio = true ->
  let images := filter (fun f => is_image_name f) (FS.children (w_fs w) image_dir) in
  let n := length images in
  Z.of_nat n < 2 ^ 63 ->
  exists (splits : Partition) (w' : World) (a b : Z),
    split_images image_dir train_ratio val_ratio w = (Ok splits, w') /\
    Float64.floor (Float64.mul (Float64.of_int (Z.of_nat n)) train_ratio) = Some a /\
    Float64.floor (Float64.mul (Float64.of_int (Z.of_nat n)) val_ratio) = Some b /\
    0 <= a /\ 0 <= b /\
    length (train splits) = Nat.min (Z.to_nat a) n /\
    length (val splits) = Nat.min (Z.to_nat b) (n - Z.to_nat a) /\
    length (test splits) = (n - (Z.to_nat a + Z.to_nat b))%nat /\
    (test splits = [] <-> Z.of_nat n <= a + b).
Proof.
  intros Hr Hdir Htr Hvr images n Hlen.
  destruct (split_images_ok image_dir train_ratio val_ratio w Hr Hdir Htr Hvr Hlen)
    as (shuffled & g & te & vl & Hloop & Hfte & Hfvl & Hte & Hvl & Hsplit).
  fold images in Hloop, Hfte, Hfvl. fold n in Hfte, Hfvl.
  assert (Hn : length shuffled = n)
    by (by apply shuffle_loop_Permutation, Permutation_length in Hloop).
  eexists _, _, te, vl. split; [exact Hsplit|]. cbn [train val test].
  rewrite PyListFacts.slice_prefix, PyListFacts.slice_middle,
    PyListFacts.slice_suffix by lia.
  rewrite <- length_zero_iff_nil.
  rewrite !length_take, !length_drop, Hn. split_and!; try done; lia.
Qed.

End SplitSizes.

(* ===================================================================== *)
(** * A directory where a list belongs                                    *)
(* ===================================================================== *)

Section ListEdges.
Context {R : Runtime}.
Import FS.








End ListEdges.

(* ===================================================================== *)
(** * Where the copies come from                                          *)
(* ===================================================================== *)

Section CopySources.
Context {R : Runtime}.
Context (source input_dir : path).










End CopySources.

Section CopySourcesOfMain.
Context {R : Runtime}.


End CopySourcesOfMain.

(* ===================================================================== *)
(** * The further properties on examples                                  *)
(* ===================================================================== *)

Module RunExamples.
Import TestDouble Scenarios.

(** Photos without reconstruction: the first alternative holds. *)
Lemma main_keeps_outside_output_witness :
  let R := runtime exec_ok in
  let args := offline_args ["photos"] ["out"] in
  (type_ args = Photos /\ skip_colmap args = true) /\
  fs_rel (main args) (kept (under (output args))).
Proof.
  cbv zeta. split; [split; reflexivity|].
  apply (@main_keeps_outside_output (runtime exec_ok) (offline_args ["photos"] ["out"])).
  left. split; reflexivity.
Defined.

(** There is no [colmap]: the handler prints its two lines and exits. *)
Lemma failed_probe_exits_witness :
  let R := runtime (exec_missing "-h") in
  let args := photo_args ["photos"] ["out"] Float64.lit_0_8 Float64.lit_0_1 in
  let w := world R photos_fs 42%N tt in
  skip_dependency_check args = false /\
  (type_ args = Photos -> skip_colmap args = false) /\
  (exec ["colmap"; "-h"] (w_ext w) (w_fs w)).1.1 <> Exited 0 /\
  exists e w',
    main args w = (Raise e, w') /\
    executed (w_log w') = executed (w_log w) ++ [["colmap"; "-h"]] /\
    copied (w_log w') = copied (w_log w) /\
    written (w_log w') = written (w_log w) /\
    w_rng w' = w_rng w /\
    e = SystemExit 1 /\
    printed (w_log w') = printed (w_log w) ++
      ["ERROR: COLMAP not found"; "Install: sudo apt-get install colmap"] /\
    w_fs w' = w_fs w.
Proof.
  cbv zeta. split; [reflexivity|]. split; [reflexivity|]. split; [discriminate|].
  apply (@failed_probe_exits (runtime (exec_missing "-h"))
           (photo_args ["photos"] ["out"] Float64.lit_0_8 Float64.lit_0_1)
           (world (runtime (exec_missing "-h")) photos_fs 42%N tt)).
  - reflexivity.
  - reflexivity.
  - discriminate.
Defined.

(** A [colmap] that is there and may not be executed: the handler does
    not apply, the [PermissionError] leaves [main] and nothing is
    printed. *)
Lemma probe_of_unexecutable_program :
  let R := runtime (exec_unexecutable "colmap") in
  let args := photo_args ["photos"] ["out"] Float64.lit_0_8 Float64.lit_0_1 in
  let res := main args (world R photos_fs 42%N tt) in
  res.1 = Raise (PermissionError "colmap") /\
  printed (w_log res.2) = [] /\
  executed (w_log res.2) = [["colmap"; "-h"]].
Proof. cbv zeta. repeat split; vm_compute; reflexivity. Qed.

(** The input directory does not exist. *)
Lemma wrong_input_rejected_witness :
  let R := runtime exec_ok in
  let args := offline_args ["nowhere"] ["out"] in
  let w := world R photos_fs 7%N tt in
  FS.is_dir (w_fs w) (input args) = false /\
  main args w =
    (Raise (ValueError ("Image directory not found: " +:+ path_str ["nowhere"])),
     set_rng (rng_seed 42) w).
Proof.
  cbv zeta. split; [vm_compute; reflexivity|].
  apply (@wrong_input_rejected (runtime exec_ok) (offline_args ["nowhere"] ["out"])).
  - right. split; reflexivity.
  - vm_compute; reflexivity.
Defined.

(** [ffmpeg] exits with status 1. *)
Lemma failed_extraction_stops_witness :
  let R := runtime (exec_failing "-i" 1) in
  let w := world R clip_fs 42%N tt in
  let res := create_colmap_structure ["out"] ["clip.mp4"] true 2 true w in
  exists e evs,
    res.1 = Raise e /\
    w_log res.2 = w_log w ++ evs /\
    copied evs = [] /\ written evs = [] /\
    ("Copying images..." ∉ printed evs) /\
    (executed evs = [] \/
     (executed evs = [cmd_ffmpeg ["clip.mp4"] ["extracted_frames"; "out"] 2] /\
      external_tool_error e = true)).
Proof.
  cbv zeta.
  apply (@failed_extraction_stops (runtime (exec_failing "-i" 1))
           ["out"] ["clip.mp4"] 2 true).
  intros x fs. vm_compute. discriminate.
Defined.

(** Ten images, the default ratios. *)
Lemma split_sizes_witness :
  let w := ten_world in
  exists (splits : Partition) (w' : World) (a b : Z),
    split_images ["shots"] Float64.lit_0_8 Float64.lit_0_1 w = (Ok splits, w') /\
    Float64.floor (Float64.mul (Float64.of_int (Z.of_nat
      (length (filter (fun f => is_image_name f) (FS.children (w_fs w) ["shots"])))))
      Float64.lit_0_8) = Some a /\
    Float64.floor (Float64.mul (Float64.of_int (Z.of_nat
      (length (filter (fun f => is_image_name f) (FS.children (w_fs w) ["shots"])))))
      Float64.lit_0_1) = Some b /\
    0 <= a /\ 0 <= b /\
    length (train splits) = Nat.min (Z.to_nat a)
      (length (filter (fun f => is_image_name f) (FS.children (w_fs w) ["shots"]))) /\
    length (val splits) = Nat.min (Z.to_nat b)
      (length (filter (fun f => is_image_name f) (FS.children (w_fs w) ["shots"]))
       - Z.to_nat a) /\
    length (test splits) =
      (length (filter (fun f => is_image_name f) (FS.children (w_fs w) ["shots"]))
       - (Z.to_nat a + Z.to_nat b))%nat /\
    (test splits = [] <->
     Z.of_nat (length (filter (fun f => is_image_name f)
                         (FS.children (w_fs w) ["shots"]))) <= a + b).
Proof.
  cbv zeta.
  apply (split_sizes ["shots"] Float64.lit_0_8 Float64.lit_0_1 ten_world).
  - apply SplitExamples.lcg_in_range.
  - vm_compute; reflexivity.
  - vm_compute; reflexivity.
  - vm_compute; reflexivity.
  - vm_compute; reflexivity.
Defined.

(** Ratios that add up to more than 1 need not leave [test] empty: with
    one image and the ratios 0.8 and 0.7 both floors are 0, and the image
    goes to [test]. *)
Lemma ratios_above_one_example :
  let R := runtime exec_ok in
  (split_images ["input"; "out"] Float64.lit_0_8 Float64.lit_0_7
     (world R reused_fs 42%N tt)).1
  = Ok {| train := []; val := []; test := ["old.jpg"] |}.
Proof. cbv zeta. vm_compute. reflexivity. Qed.


(** A name the encoding does not have: the list that holds it raises
    [UnicodeEncodeError] and its file is left empty. *)
Lemma unencodable_name_example :
  let R := runtime exec_ok in
  let w := world R reused_fs 42%N tt in
  let odd := String (ascii_of_nat 233) ".jpg" in
  let splits := {| train := ["a.jpg"]; val := [odd]; test := [] |} in
  let res := write_lists ["out"] (items splits) w in
  res.1 = Raise (UnicodeEncodeError odd) /\
  written (w_log res.2) = [(["train_list.txt"; "out"], "a.jpg")] /\
  w_fs res.2 !! ["val_list.txt"; "out"] = Some (File EmptyString 0) /\
  w_fs res.2 !! ["test_list.txt"; "out"] = None.
Proof. cbv zeta. repeat split; vm_compute; reflexivity. Qed.





(** The same run, evaluated: the image of the earlier run is listed with
    the two that are copied. *)
Lemma photos_run_on_example_folder :
  let R := runtime exec_ok in
  let res := main (offline_args ["photos"] ["out"]) (world R reused_fs 42%N tt) in
  res.1 = Ok PyNone /\
  copied (w_log res.2) =
    [ (["a.jpg"; "photos"], ["a.jpg"; "input"; "out"]);
      (["b.PNG"; "photos"], ["b.PNG"; "input"; "out"]) ] /\
  executed (w_log res.2) = [] /\
  printed (w_log res.2) =
    ["Copying images..."; "Train: 2 | Val: 0 | Test: 1"; "Dataset ready: out"] /\
  w_fs res.2 !! ["keep.txt"; "out"] = Some (File "notes" 5).
Proof. cbv zeta. repeat split; vm_compute; reflexivity. Qed.





(** The output directory [.]: the closing line prints the dot. *)
Lemma output_dot_example :
  let R := runtime exec_ok in
  let res := main (offline_args ["photos"] []) (world R photos_fs 42%N tt) in
  res.1 = Ok PyNone /\
  last (printed (w_log res.2)) = Some "Dataset ready: ." /\
  FS.is_dir (w_fs res.2) ["input"] = true.
Proof. cbv zeta. repeat split; vm_compute; reflexivity. Qed.

(** A directory [input/a.jpg] in the output directory: [shutil.copy2] is
    called with [input/a.jpg] for its destination and puts the file
    inside that directory. *)
Lemma copy_into_directory_example :
  let R := runtime exec_ok in
  let fs := <[ ["a.jpg"; "input"; "out"] := Dir ]> reused_fs in
  let res := copy_images ["photos"] ["input"; "out"] (world R fs 42%N tt) in
  res.1 = Ok () /\
  copied (w_log res.2) =
    [ (["a.jpg"; "photos"], ["a.jpg"; "input"; "out"]);
      (["b.PNG"; "photos"], ["b.PNG"; "input"; "out"]) ] /\
  w_fs res.2 !! ["a.jpg"; "input"; "out"] = Some Dir /\
  w_fs res.2 !! ["a.jpg"; "a.jpg"; "input"; "out"] = Some (File "AAAA" 11).
Proof. cbv zeta. repeat split; vm_compute; reflexivity. Qed.

End RunExamples.
